(** * NN-Downloader: a shallow embedding of the downloaders, the
    sanitizers, the GUI job queue and the proxy and config managers,
    with the properties checked against the natural-language
    specification.

    Python [str] values are modelled as Rocq strings of 8-bit
    characters (ASCII text); Python [int] as [Z]; [dict] with string
    keys as [gmap string _]; [set] of strings as [gset string]. *)

From stdpp Require Import gmap strings list pretty.
From Stdlib Require Import ZArith Lia Ascii.

Local Open Scope Z_scope.

(** ** Python string methods used by the program *)

Module Py.

(** [c in s] for a one-character [c]. *)
Fixpoint InStr (c : ascii) (s : string) : Prop :=
  match s with
  | EmptyString => False
  | String d s' => c = d \/ InStr c s'
  end.

Fixpoint mem_char (c : ascii) (s : string) : bool :=
  match s with
  | EmptyString => false
  | String d s' => if decide (c = d) then true else mem_char c s'
  end.

(** [str.lower()] on ASCII letters. *)
Definition lower_char (c : ascii) : ascii :=
  let n := nat_of_ascii c in
  if ((65 <=? n)%nat && (n <=? 90)%nat)%bool then ascii_of_nat (n + 32) else c.

Fixpoint lower (s : string) : string :=
  match s with
  | EmptyString => EmptyString
  | String c s' => String (lower_char c) (lower s')
  end.

(** Characters removed by [str.strip()] without argument. *)
Definition isspace (c : ascii) : bool :=
  let n := nat_of_ascii c in
  (((9 <=? n)%nat && (n <=? 13)%nat) || ((28 <=? n)%nat && (n <=? 32)%nat))%bool.

Fixpoint lstrip_by (p : ascii -> bool) (s : string) : string :=
  match s with
  | EmptyString => EmptyString
  | String c s' => if p c then lstrip_by p s' else s
  end.

Fixpoint rstrip_by (p : ascii -> bool) (s : string) : string :=
  match s with
  | EmptyString => EmptyString
  | String c s' =>
      match rstrip_by p s' with
      | EmptyString => if p c then EmptyString else String c EmptyString
      | r => String c r
      end
  end.

(** [s.strip()] *)
Definition strip (s : string) : string :=
  lstrip_by isspace (rstrip_by isspace s).

(** [s.strip(chars)] and [s.rstrip(chars)] *)
Definition strip_chars (chars s : string) : string :=
  lstrip_by (fun c => mem_char c chars) (rstrip_by (fun c => mem_char c chars) s).

Definition rstrip_chars (chars s : string) : string :=
  rstrip_by (fun c => mem_char c chars) s.

(** [s.replace(old, new)] for a one-character [old]. *)
Fixpoint replace (old : ascii) (new s : string) : string :=
  match s with
  | EmptyString => EmptyString
  | String c s' =>
      if decide (c = old) then new +:+ replace old new s'
      else String c (replace old new s')
  end.

(** [re.sub('[...]', '', s)] for a character class given by its members. *)
Fixpoint remove_class (cls : list ascii) (s : string) : string :=
  match s with
  | EmptyString => EmptyString
  | String c s' =>
      if decide (c ∈ cls) then remove_class cls s'
      else String c (remove_class cls s')
  end.

Fixpoint take (n : nat) (s : string) : string :=
  match n, s with
  | O, _ => EmptyString
  | S n', String c s' => String c (take n' s')
  | S _, EmptyString => EmptyString
  end.

(** [s[:n]] with Python's treatment of a negative bound. *)
Definition slice_to (n : Z) (s : string) : string :=
  if n <? 0 then take (Z.to_nat (Z.of_nat (String.length s) + n)) s
  else take (Z.to_nat n) s.

(** [s.rsplit(sep, 1)] when [sep] occurs in [s]: the text before and
    after the last occurrence; [None] when [sep] does not occur. *)
Fixpoint rsplit1 (sep : ascii) (s : string) : option (string * string) :=
  match s with
  | EmptyString => None
  | String c s' =>
      match rsplit1 sep s' with
      | Some (a, b) => Some (String c a, b)
      | None => if decide (c = sep) then Some (EmptyString, s') else None
      end
  end.

(** [s.split(sep)[-1]]: the text after the last [sep], or [s] itself. *)
Definition split_last (sep : ascii) (s : string) : string :=
  match rsplit1 sep s with
  | Some (_, b) => b
  | None => s
  end.

Fixpoint prefix (p s : string) : bool :=
  match p, s with
  | EmptyString, _ => true
  | String a p', String b s' => if decide (a = b) then prefix p' s' else false
  | String _ _, EmptyString => false
  end.

(** [sub in s] for strings. *)
Fixpoint contains (sub s : string) : bool :=
  if prefix sub s then true
  else match s with
       | EmptyString => false
       | String _ s' => contains sub s'
       end.

(** Truth value of a string, and of an [Optional[str]]. *)
Definition truthy (s : string) : bool :=
  match s with EmptyString => false | _ => true end.

Definition truthy_opt (o : option string) : bool :=
  match o with Some s => truthy s | None => false end.

(** Truth value of an [Optional[int]]. *)
Definition truthy_int (o : option Z) : bool :=
  match o with Some k => negb (k =? 0) | None => false end.

(** [s.split(sep)] for a one-character separator. *)
Fixpoint split (sep : ascii) (s : string) : list string :=
  match s with
  | EmptyString => [EmptyString]
  | String c s' =>
      if decide (c = sep) then EmptyString :: split sep s'
      else match split sep s' with
           | h :: t => String c h :: t
           | [] => [String c EmptyString]
           end
  end.

(** [s.partition(sep)[0]]: the text before the first [sep], or [s]. *)
Fixpoint before_first (sep : ascii) (s : string) : string :=
  match s with
  | EmptyString => EmptyString
  | String c s' =>
      if decide (c = sep) then EmptyString else String c (before_first sep s')
  end.

(** [str(n)] for an [int]. *)
Definition str (n : Z) : string := pretty n.

(** [s.split()] without argument: the maximal runs of characters that
    are not white space. *)
Fixpoint split_ws (s : string) : list string :=
  match s with
  | EmptyString => []
  | String c s' =>
      if isspace c then split_ws s'
      else
        match s' with
        | EmptyString => [String c EmptyString]
        | String d _ =>
            if isspace d then String c EmptyString :: split_ws s'
            else match split_ws s' with
                 | h :: t => String c h :: t
                 | [] => [String c EmptyString]
                 end
        end
  end.

(** [lst[:n]] with Python's treatment of a negative bound. *)
Definition list_slice_to {A} (n : Z) (l : list A) : list A :=
  if n <? 0 then firstn (Z.to_nat (Z.of_nat (length l) + n)) l
  else firstn (Z.to_nat n) l.

End Py.

(** ** Filename and folder-name sanitizers *)

Module Base.

(** [unsafe_chars] of [BaseAsyncDownloader.sanitize_filename]. *)
Definition unsafe_chars : list ascii :=
  [ "/"; "\"; ":"; "*"; "?"; "034"; "<"; ">"; "|"; "000"; "$"; "#"; "@";
    "&"; "%"; "!"; "`"; "^"; "("; ")"; "{"; "}"; "["; "]"; "="; "+"; "~";
    ","; ";" ]%char.

Definition sanitize_filename (filename : string) : string :=
  let safe_name :=
    fold_left (fun acc ch => Py.replace ch "_" acc) unsafe_chars filename in
  let safe_name := Py.replace " " "_" safe_name in
  let safe_name := Py.strip_chars ". " safe_name in
  if Py.truthy safe_name then safe_name else "unnamed".

End Base.

Module DirectoryManager.

(** Members of the character class [self.unsafe_chars] of
    [AsyncDirectoryManager], in the order the pattern lists them (the
    double quote is character 034, the final octal escape is NUL; the
    pattern has neither the slash nor the backslash as a member). *)
Definition unsafe_chars : list ascii :=
  [ ":"; "*"; "?"; "034"; "<"; ">"; "|"; "$"; "#"; "@"; "&"; "%"; "!";
    "`"; "^"; "("; ")"; "{"; "}"; "["; "]"; "="; "+"; "~"; ","; ";"; "~";
    "000" ]%char.

Definition max_folder_name_length : nat := 90.

Definition _sanitize_folder_name (folder_name : string) : string :=
  Py.remove_class unsafe_chars folder_name.

Definition _truncate_folder_name (folder_name : string) : string :=
  if (max_folder_name_length <? String.length folder_name)%nat
  then Py.take max_folder_name_length folder_name
  else folder_name.

Definition _replace_spaces_with_underscores (folder_name : string) : string :=
  Py.replace " " "_" folder_name.

(** The name computed (and returned) by [create_folder]. *)
Definition create_folder_name (folder_name : string) : string :=
  let sanitized_folder_name := _sanitize_folder_name folder_name in
  let truncated_folder_name := _truncate_folder_name sanitized_folder_name in
  _replace_spaces_with_underscores truncated_folder_name.

Definition sanitize_filename (filename : string) : string :=
  let sanitized := Py.remove_class unsafe_chars filename in
  let sanitized := Py.replace " " "_" sanitized in
  let sanitized :=
    if (200 <? String.length sanitized)%nat then
      let '(name_part, ext_part) :=
        match Py.rsplit1 "." sanitized with
        | Some p => p
        | None => (sanitized, EmptyString)
        end in
      let max_name_len :=
        if Py.truthy ext_part
        then 200 - Z.of_nat (String.length ext_part) - 1
        else 200 in
      Py.slice_to max_name_len name_part
        +:+ (if Py.truthy ext_part then "." +:+ ext_part else EmptyString)
    else sanitized in
  if (negb (Py.truthy sanitized) || bool_decide (sanitized = "."))%bool
  then "unnamed" else sanitized.

End DirectoryManager.

(** ** The world the downloaders act on *)

(** Python exceptions (all of them subclasses of [Exception]) that the
    modelled code can meet. *)
Inductive exn :=
  | KeyError (key : string)
  | AttributeError (what : string)
  | TypeError (what : string)
  | OSError (path : string)
  | ClientError (url : string)
  | UnicodeDecodeError (path : string)
  | JSONDecodeError
  | RecursionError.

(** Arguments of [progress_callback]: one constructor per message
    template of the source, carrying the interpolated values. *)
Inductive msg :=
  | MsgStarting (site tags : string)
  | MsgFetchingPage (page : Z)
  | MsgNoImages
  | MsgFinishedPages (max_pages : Z)
  | MsgDownloadingImages (total : nat)
  | MsgDownloading (progress_info : string)
  | MsgDownloadedOf (done total : nat)
  | MsgDownloadedTo (count : nat) (dir : string)
  | MsgPageCompleted (page : Z)
  | MsgComplete (tags : string)
  | MsgFound (n : nat) (page : Z)
  | MsgSoFar (count : nat)
  | MsgNoMore
  | MsgAnalyzing (site : string)
  | MsgInfo (text : string)
  | MsgError (e : exn).

(** Observable actions, in the order the program performs them. *)
Inductive event :=
  | EvPage (page : Z)                     (* one page-listing request to the site API *)
  | EvRequest (url : string)              (* any other listing or metadata request *)
  | EvGet (url : string)                  (* [download_file] requests a file *)
  | EvWrite (path : string)               (* a file is opened for writing *)
  | EvAppend (path line : string)         (* a line is appended to a Seen-ID file *)
  | EvNotify (m : msg).                   (* [progress_callback] is called *)

(** An HTTP response to a file request: status, the chunks of the body
    that arrive, and whether the stream breaks after them. *)
Record response := {
  status : Z;
  chunks : list string;
  broken : bool
}.

(** What the network and the operating system answer: outside the
    program, so a parameter of every run. *)
Record env := {
  http_get : option string -> string -> option response;  (* [None]: the request raises *)
  io_ok : string -> bool                                  (* may this path be opened or created *)
}.

Record world := {
  files : gmap string string;          (* regular files: path to content *)
  dirs : gset string;                  (* directories that exist *)
  db : gmap string (list string);      (* Seen-ID files: path to lines, terminators dropped *)
  current_proxy_index : nat;
  trace : list event
}.

Definition empty_world : world :=
  {| files := ∅; dirs := ∅; db := ∅; current_proxy_index := 0; trace := [] |}.

(** ** A state and exception monad with a fuel outcome for [while True] *)

Inductive outcome (A : Type) :=
  | Val (a : A)
  | Raise (e : exn)
  | Timeout.
Arguments Val {A} a.
Arguments Raise {A} e.
Arguments Timeout {A}.

Definition M (A : Type) : Type := world -> world * outcome A.

Definition ret {A} (a : A) : M A := fun w => (w, Val a).
Definition raise {A} (e : exn) : M A := fun w => (w, Raise e).
Definition timeout {A} : M A := fun w => (w, Timeout).

Definition bind {A B} (m : M A) (k : A -> M B) : M B :=
  fun w =>
    match m w with
    | (w', Val a) => k a w'
    | (w', Raise e) => (w', Raise e)
    | (w', Timeout) => (w', Timeout)
    end.

(** [try: m  except Exception as e: h e] *)
Definition try_except {A} (m : M A) (h : exn -> M A) : M A :=
  fun w =>
    match m w with
    | (w', Raise e) => h e w'
    | r => r
    end.

Notation "'do' x <- m ;; k" := (bind m (fun x => k))
  (at level 10, x name, m at level 99, k at level 200).
Notation "m ;;; k" := (bind m (fun _ => k))
  (at level 100, k at level 200, right associativity).

Definition emit (e : event) : M unit :=
  fun w => ({| files := files w; dirs := dirs w; db := db w;
               current_proxy_index := current_proxy_index w;
               trace := trace w ++ [e] |}, Val tt).

Definition get_world : M world := fun w => (w, Val w).

Definition when (b : bool) (m : M unit) : M unit := if b then m else ret tt.

(** ** Paths and the file system *)

Definition path_join (dir name : string) : string := dir +:+ "/" +:+ name.

(** [Path.parent] *)
Definition parent (p : string) : string :=
  match Py.rsplit1 "/" p with
  | Some (a, _) => a
  | None => "."
  end.

(** The proper ancestors of a path that [mkdir(parents=True)] creates. *)
Fixpoint ancestors_go (acc s : string) : list string :=
  match s with
  | EmptyString => []
  | String c s' =>
      (if decide (c = "/"%char) then [acc] else [])
        ++ ancestors_go (acc +:+ String c EmptyString) s'
  end.
Definition ancestors (p : string) : list string := ancestors_go EmptyString p.

(** [path.mkdir(parents=True, exist_ok=True)] *)
Definition mkdir (E : env) (p : string) : M unit :=
  fun w =>
    if io_ok E p then
      ({| files := files w; dirs := dirs w ∪ list_to_set (p :: ancestors p);
          db := db w; current_proxy_index := current_proxy_index w;
          trace := trace w |}, Val tt)
    else (w, Raise (OSError p)).

(** [open(path, 'wb')] followed by the writes of the chunks. *)
Definition write_file (E : env) (p content : string) : M unit :=
  fun w =>
    if io_ok E p then
      ({| files := <[p := content]> (files w); dirs := dirs w; db := db w;
          current_proxy_index := current_proxy_index w;
          trace := trace w ++ [EvWrite p] |}, Val tt)
    else (w, Raise (OSError p)).

(** [with open(path, "a") as f: f.write(line + newline)]; the line is
    an id, which holds no newline, so the file gains exactly one line. *)
Definition append_line (E : env) (p line : string) : M unit :=
  fun w =>
    if io_ok E p then
      ({| files := files w; dirs := dirs w;
          db := <[p := default [] (db w !! p) ++ [line]]> (db w);
          current_proxy_index := current_proxy_index w;
          trace := trace w ++ [EvAppend p line] |}, Val tt)
    else (w, Raise (OSError p)).

(** [path.exists()] for a regular file. *)
Definition exists_file (p : string) : M bool :=
  fun w => (w, Val (bool_decide (is_Some (files w !! p)))).

(** The Seen-ID set a downloader loads at job start:
    [{line.strip() for line in f if line.strip()}] when the file exists. *)
Definition load_ids (E : env) (p : string) : M (gset string) :=
  fun w =>
    match db w !! p with
    | None => (w, Val ∅)
    | Some lines =>
        if io_ok E p then
          (w, Val (list_to_set
                     (filter (fun l => Py.truthy l = true) (Py.strip <$> lines))))
        else (w, Raise (OSError p))
    end.

(** ** [BaseAsyncDownloader] *)

Record downloader := {
  progress_callback : bool;        (* is a callback configured *)
  proxy_list : list string;
  use_proxies : bool;
  dt_now : string                  (* time stamp taken by the constructor *)
}.

Module BaseAsyncDownloader.

(** [__init__(progress_callback, proxy_list, use_proxies)] *)
Definition init (progress_callback : bool) (proxy_list : option (list string))
    (use_proxies : bool) : downloader :=
  {| progress_callback := progress_callback;
     proxy_list := default [] proxy_list;
     use_proxies := use_proxies && (0 <? length (default [] proxy_list))%nat;
     dt_now := EmptyString |}.

Section Base.
Variable E : env.
Variable self : downloader.

(** [if self.progress_callback: self.progress_callback(m)] *)
Definition notify (m : msg) : M unit :=
  when (progress_callback self) (emit (EvNotify m)).

(** [_get_proxy]: the index starts at 0 and is advanced modulo the
    length of the list, so the subscript is always in range. *)
Definition _get_proxy : M (option string) :=
  fun w =>
    if (negb (use_proxies self) || bool_decide (proxy_list self = []))%bool
    then (w, Val None)
    else
      ({| files := files w; dirs := dirs w; db := db w;
          current_proxy_index :=
            (S (current_proxy_index w) mod length (proxy_list self))%nat;
          trace := trace w |},
       Val (proxy_list self !! current_proxy_index w)).

(** [session.get(url, proxy=proxy)] for a file. *)
Definition session_get (proxy : option string) (url : string) : M response :=
  emit (EvGet url) ;;;
  match http_get E proxy url with
  | Some r => ret r
  | None => raise (ClientError url)
  end.

Definition download_file (url file_path progress_info : string) : M bool :=
  try_except
    (notify (MsgDownloading progress_info) ;;;
     do proxy <- _get_proxy ;;
     do response <- session_get proxy url ;;
     if status response =? 200 then
       mkdir E (parent file_path) ;;;
       write_file E file_path (String.concat EmptyString (chunks response)) ;;;
       (if broken response then raise (ClientError url) else ret true)
     else ret false)
    (fun _ => ret false).

End Base.
End BaseAsyncDownloader.

(** ** The e621 family: [E621Downloader] *)

Module E621.

(** [__init__(progress_callback)]: the base constructor is called with
    the callback alone, so there is no proxy list; [now] is the time
    stamp [datetime.now().strftime(...)] gives. *)
Definition init (progress_callback : bool) (now : string) : downloader :=
  {| progress_callback := progress_callback;
     proxy_list := [];
     use_proxies := false;
     dt_now := now |}.

Record file_info := {
  file_url : option string;             (* file_info.get("url") *)
  file_ext : option string              (* file_info.get("ext", "jpg") *)
}.

(** One element of [data["posts"]]; an absent key is [None]. *)
Record post := {
  post_id : option Z;
  post_file : option file_info;
  post_tags : option (gmap string (list string))
}.

(** The decoded JSON body of a page. *)
Inductive data :=
  | DataDict (message : option string) (posts : option (list post))
  | DataOther.                          (* any JSON value that is not an object *)

(** What [session.get(api_url)] and [response.json()] give for a page. *)
Inductive api_result :=
  | ApiRaises
  | ApiResponse (code : Z) (json : option data).   (* [None]: the body does not decode *)

Record image_data := {
  image_address : string;
  image_format : string;
  image_id : string;
  meta_tags : gmap string (list string)
}.

(** The answers of the site are parameters: [api page] is what the
    request for page [page] gives ([api_user] and [api_key] only choose
    the authentication of that request), [json_dump] renders the tags for
    the metadata file.  [asyncio.sleep] has no effect on the world. *)
Section Downloader.
Variable E : env.
Variable api : Z -> api_result.
Variable json_dump : gmap string (list string) -> string.
Variable self : downloader.

Local Abbreviation notify := (BaseAsyncDownloader.notify self).
Local Abbreviation download_file := (BaseAsyncDownloader.download_file E self).

Definition db_path_of (site : string) : string :=
  path_join "db" (site +:+ ".db").

(** [item_tags.get(tag_type, [])] *)
Definition tags_of (item_tags : gmap string (list string)) (tag_type : string)
  : list string := default [] (item_tags !! tag_type).

(** The tags consulted by the blacklist check. *)
Definition collect_post_tags (site : string) (item_tags : gmap string (list string))
  : list string :=
  let post_tags :=
    fold_left (fun acc tag_type => acc ++ tags_of item_tags tag_type)
              ["general"; "species"; "character"] [] in
  if bool_decide (site = "e6ai")
  then (post_tags ++ tags_of item_tags "director") ++ tags_of item_tags "meta"
  else (post_tags ++ tags_of item_tags "copyright") ++ tags_of item_tags "artist".

(** [sum(1 for blacklisted_tag in blacklist if blacklisted_tag in post_tags)] *)
Definition passed (blacklist post_tags : list string) : nat :=
  length (filter (fun blacklisted_tag => blacklisted_tag ∈ post_tags) blacklist).

(** The body of [for item in posts]: [Some] when the item is approved. *)
Definition check_item (site : string) (blacklist : list string)
    (ai_training : bool) (db_file : option string)
    (downloaded_ids : gset string) (item : post) : M (option image_data) :=
  match post_id item with
  | None => raise (KeyError "id")
  | Some n =>
      let image_id := Py.str n in
      let file_info :=
        default {| file_url := None; file_ext := None |} (post_file item) in
      let image_address := file_url file_info in
      if negb (Py.truthy_opt image_address) then ret None
      else
        do meta_tags <-
          (if ai_training then
             match post_tags item with
             | Some t => ret t
             | None => raise (KeyError "tags")
             end
           else ret ∅) ;;
        let item_tags := default ∅ (post_tags item) in
        let post_tags := collect_post_tags site item_tags in
        if (0 <? passed blacklist post_tags)%nat then ret None
        else if (Py.truthy_opt db_file && bool_decide (image_id ∈ downloaded_ids))%bool
        then ret None
        else ret (Some {| image_address := default EmptyString image_address;
                         image_format := default "jpg" (file_ext file_info);
                         image_id := image_id;
                         meta_tags := meta_tags |})
  end.

Fixpoint approve (site : string) (blacklist : list string)
    (ai_training : bool) (db_file : option string)
    (downloaded_ids : gset string) (posts : list post) : M (list image_data) :=
  match posts with
  | [] => ret []
  | item :: rest =>
      do r <- check_item site blacklist ai_training db_file downloaded_ids item ;;
      do page_approved <- approve site blacklist ai_training db_file downloaded_ids rest ;;
      ret (match r with Some d => d :: page_approved | None => page_approved end)
  end.

(** The body of [for i, data in enumerate(approved_list)], with the
    running [downloaded_count] threaded through. *)
Definition download_one (tags site : string) (ai_training : bool)
    (db_file : option string) (main_dir meta_dir : string)
    (total_images i : nat) (data : image_data) (downloaded_count : nat) : M nat :=
  if (negb (Py.truthy (image_address data)) || negb (Py.truthy (image_id data)))%bool
  then ret downloaded_count
  else
    let file_path :=
      path_join main_dir (image_id data +:+ "." +:+ image_format data) in
    let progress_info :=
      tags +:+ " - Image " +:+ image_id data +:+ " ("
           +:+ pretty (S i) +:+ "/" +:+ pretty total_images +:+ ")" in
    do ok <- download_file (image_address data) file_path progress_info ;;
    do downloaded_count <-
      (if ok then
         when (ai_training && bool_decide (meta_tags data ≠ ∅))%bool
           (try_except
              (write_file E (path_join meta_dir (image_id data +:+ ".json"))
                          (json_dump (meta_tags data)))
              (fun _ => ret tt)) ;;;
         when (Py.truthy_opt db_file)
           (mkdir E "db" ;;;
            try_except
              (append_line E (db_path_of site) (image_id data))
              (fun _ => ret tt)) ;;;
         ret (S downloaded_count)
       else ret downloaded_count) ;;
    notify (MsgDownloadedOf (S i) total_images) ;;;
    ret downloaded_count.

Fixpoint download_each (tags site : string) (ai_training : bool)
    (db_file : option string) (main_dir meta_dir : string)
    (total_images i : nat) (approved_list : list image_data)
    (downloaded_count : nat) : M nat :=
  match approved_list with
  | [] => ret downloaded_count
  | data :: rest =>
      do downloaded_count <-
        download_one tags site ai_training db_file main_dir meta_dir
                     total_images i data downloaded_count ;;
      download_each tags site ai_training db_file main_dir meta_dir
                    total_images (S i) rest downloaded_count
  end.

Definition _download_page_images (approved_list : list image_data)
    (tags site : string) (ai_training : bool) (db_file : option string)
    (output_dir : string) : M unit :=
  let directory_name := dt_now self +:+ " " +:+ tags in
  let safe_directory_name := Base.sanitize_filename directory_name in
  let main_dir := path_join output_dir safe_directory_name in
  mkdir E main_dir ;;;
  let meta_dir := path_join main_dir "meta" in
  when ai_training (mkdir E meta_dir) ;;;
  let total_images := length approved_list in
  notify (MsgDownloadingImages total_images) ;;;
  do downloaded_count <-
    download_each tags site ai_training db_file main_dir meta_dir
                  total_images 0 approved_list 0 ;;
  notify (MsgDownloadedTo downloaded_count main_dir).

(** [isinstance(data, dict) and "message" in data] and the limit text
    occurs in the message. *)
Definition is_api_limit (d : data) : bool :=
  match d with
  | DataDict (Some m) _ => Py.contains "You cannot go beyond page 750" m
  | _ => false
  end.

(** [data.get("posts", [])] *)
Definition get_posts (d : data) : M (list post) :=
  match d with
  | DataDict _ posts => ret (default [] posts)
  | DataOther => raise (AttributeError "get")
  end.

(** [while True:], one unit of fuel per iteration. *)
Fixpoint page_loop (fuel : nat) (tags site : string) (blacklist : list string)
    (max_pages : option Z) (ai_training : bool) (db_file : option string)
    (output_dir : string) (downloaded_ids : gset string) (page : Z) : M unit :=
  match fuel with
  | O => timeout
  | S fuel' =>
      notify (MsgFetchingPage page) ;;;
      emit (EvPage page) ;;;
      match api page with
      | ApiRaises => ret tt
      | ApiResponse code json =>
          if negb (code =? 200) then ret tt
          else match json with
          | None => ret tt
          | Some data =>
              if is_api_limit data then ret tt
              else
                do posts <- get_posts data ;;
                if bool_decide (posts = []) then notify MsgNoImages
                else if (Py.truthy_int max_pages && (default 0 max_pages <=? page))%bool
                then notify (MsgFinishedPages (default 0 max_pages))
                else
                  do page_approved <-
                    approve site blacklist ai_training db_file downloaded_ids posts ;;
                  when (negb (bool_decide (page_approved = [])))
                    (_download_page_images page_approved tags site
                                           ai_training db_file output_dir) ;;;
                  notify (MsgPageCompleted page) ;;;
                  page_loop fuel' tags site blacklist max_pages ai_training
                            db_file output_dir downloaded_ids (page + 1)
          end
      end
  end.

(** The statements of the [try] block of [download_by_tags]. *)
Definition download_by_tags_try (fuel : nat) (tags site : string)
    (blacklist : option (list string)) (max_pages : option Z)
    (ai_training : bool) (db_file : option string) (output_dir : string)
  : M bool :=
  notify (MsgStarting site tags) ;;;
   let blacklist := default [] blacklist in
   do downloaded_ids <-
     (if Py.truthy_opt db_file then load_ids E (db_path_of site) else ret ∅) ;;
   page_loop fuel tags site blacklist max_pages ai_training db_file
             output_dir downloaded_ids 1 ;;;
   notify (MsgComplete tags) ;;;
   ret true.

(** [download_by_tags]: the [try] block under its [except Exception] handler. *)
Definition download_by_tags (fuel : nat) (tags site : string)
    (blacklist : option (list string)) (max_pages : option Z)
    (ai_training : bool) (db_file : option string) (output_dir : string)
  : M bool :=
  try_except
    (download_by_tags_try fuel tags site blacklist max_pages ai_training db_file output_dir)
    (fun e => notify (MsgError e) ;;; ret false).

End Downloader.
End E621.

(** ** [FurbooruDownloader] *)

Module Furbooru.

(** [__init__(progress_callback)]: the base constructor is called with
    the callback alone, so there is no proxy list; [now] is the time
    stamp [datetime.now().strftime(...)] gives. *)
Definition init (progress_callback : bool) (now : string) : downloader :=
  {| progress_callback := progress_callback;
     proxy_list := [];
     use_proxies := false;
     dt_now := now |}.

(** One element of [data["images"]]; an absent key is [None]. *)
Record image := {
  img_hidden_from_users : option bool;
  img_tags : option (list string);
  img_id : option Z;
  img_full : option string;        (* item.get("representations", {}).get("full") *)
  img_format : option string
}.

Inductive data :=
  | DataDict (total : option Z) (images : option (list image))
  | DataOther.

Inductive api_result :=
  | ApiRaises
  | ApiResponse (code : Z) (json : option data).

Record image_data := {
  image_address : string;
  image_format : string;
  image_id : string
}.

Section Downloader.
Variable E : env.
Variable api : Z -> api_result.
Variable self : downloader.

Local Abbreviation notify := (BaseAsyncDownloader.notify self).
Local Abbreviation download_file := (BaseAsyncDownloader.download_file E self).

Definition db_path : string := path_join "db" "furbooru.db".

(** [any(tag in blacklist for tag in post_tags)] *)
Definition blacklisted (blacklist post_tags : list string) : bool :=
  existsb (fun tag => bool_decide (tag ∈ blacklist)) post_tags.

Definition check_item (blacklist : list string) (db_file : option string)
    (downloaded_ids : gset string) (item : image) : M (option image_data) :=
  if default false (img_hidden_from_users item) then ret None
  else
    let post_tags := default [] (img_tags item) in
    if blacklisted blacklist post_tags then ret None
    else
      match img_id item with
      | None => raise (KeyError "id")
      | Some n =>
          let image_id := Py.str n in
          let image_address := img_full item in
          let image_format := default "png" (img_format item) in
          if negb (Py.truthy_opt image_address) then ret None
          else if (Py.truthy_opt db_file && bool_decide (image_id ∈ downloaded_ids))%bool
          then ret None
          else ret (Some {| image_address := default EmptyString image_address;
                           image_format := image_format;
                           image_id := image_id |})
      end.

Fixpoint approve (blacklist : list string) (db_file : option string)
    (downloaded_ids : gset string) (images : list image) : M (list image_data) :=
  match images with
  | [] => ret []
  | item :: rest =>
      do r <- check_item blacklist db_file downloaded_ids item ;;
      do page_approved <- approve blacklist db_file downloaded_ids rest ;;
      ret (match r with Some d => d :: page_approved | None => page_approved end)
  end.

Definition download_one (db_file : option string) (main_dir : string)
    (total_images i : nat) (data : image_data) (downloaded_count : nat) : M nat :=
  if (negb (Py.truthy (image_address data)) || negb (Py.truthy (image_id data)))%bool
  then ret downloaded_count
  else
    let file_path :=
      path_join main_dir (image_id data +:+ "." +:+ image_format data) in
    let progress_info :=
      "Furbooru - Image " +:+ image_id data +:+ " ("
        +:+ pretty (S i) +:+ "/" +:+ pretty total_images +:+ ")" in
    do ok <- download_file (image_address data) file_path progress_info ;;
    do downloaded_count <-
      (if ok then
         when (Py.truthy_opt db_file)
           (mkdir E "db" ;;;
            try_except
              (append_line E db_path (image_id data))
              (fun _ => ret tt)) ;;;
         ret (S downloaded_count)
       else ret downloaded_count) ;;
    notify (MsgDownloadedOf (S i) total_images) ;;;
    ret downloaded_count.

Fixpoint download_each (db_file : option string) (main_dir : string)
    (total_images i : nat) (approved_list : list image_data)
    (downloaded_count : nat) : M nat :=
  match approved_list with
  | [] => ret downloaded_count
  | data :: rest =>
      do downloaded_count <-
        download_one db_file main_dir total_images i data downloaded_count ;;
      download_each db_file main_dir total_images (S i) rest downloaded_count
  end.

Definition _download_page_images (approved_list : list image_data)
    (tags : string) (db_file : option string) (output_dir : string) : M unit :=
  let safe_tags := Py.replace " " "_" (Base.sanitize_filename tags) in
  let directory_name := dt_now self +:+ "_" +:+ safe_tags in
  let main_dir := path_join output_dir directory_name in
  mkdir E main_dir ;;;
  let total_images := length approved_list in
  notify (MsgDownloadingImages total_images) ;;;
  do downloaded_count <-
    download_each db_file main_dir total_images 0 approved_list 0 ;;
  notify (MsgDownloadedTo downloaded_count main_dir).

(** [data.get("total", 0)] *)
Definition get_total (d : data) : M Z :=
  match d with
  | DataDict total _ => ret (default 0 total)
  | DataOther => raise (AttributeError "get")
  end.

Definition get_images (d : data) : list image :=
  match d with
  | DataDict _ images => default [] images
  | DataOther => []
  end.

Fixpoint page_loop (fuel : nat) (tags : string) (blacklist : list string)
    (max_pages : option Z) (db_file : option string) (output_dir : string)
    (downloaded_ids : gset string) (page : Z) : M unit :=
  match fuel with
  | O => timeout
  | S fuel' =>
      notify (MsgFetchingPage page) ;;;
      emit (EvPage page) ;;;
      match api page with
      | ApiRaises => ret tt
      | ApiResponse code json =>
          if negb (code =? 200) then ret tt
          else match json with
          | None => ret tt
          | Some data =>
              do total <- get_total data ;;
              if total =? 0 then notify MsgNoImages
              else if (Py.truthy_int max_pages && (default 0 max_pages <=? page))%bool
              then notify (MsgFinishedPages (default 0 max_pages))
              else
                do page_approved <-
                  approve blacklist db_file downloaded_ids (get_images data) ;;
                when (negb (bool_decide (page_approved = [])))
                  (_download_page_images page_approved tags db_file output_dir) ;;;
                notify (MsgPageCompleted page) ;;;
                page_loop fuel' tags blacklist max_pages db_file output_dir
                          downloaded_ids (page + 1)
          end
      end
  end.

(** The statements of the [try] block of [download_by_tags]. *)
Definition download_by_tags_try (fuel : nat) (tags : string)
    (blacklist : option (list string)) (max_pages : option Z)
    (db_file : option string) (output_dir : string) : M bool :=
  notify (MsgStarting "Furbooru" tags) ;;;
   let blacklist := default [] blacklist in
   do downloaded_ids <-
     (if Py.truthy_opt db_file then load_ids E db_path else ret ∅) ;;
   page_loop fuel tags blacklist max_pages db_file output_dir downloaded_ids 1 ;;;
   notify (MsgComplete tags) ;;;
   ret true.

(** [download_by_tags]: the [try] block under its [except Exception] handler. *)
Definition download_by_tags (fuel : nat) (tags : string)
    (blacklist : option (list string)) (max_pages : option Z)
    (db_file : option string) (output_dir : string) : M bool :=
  try_except
    (download_by_tags_try fuel tags blacklist max_pages db_file output_dir)
    (fun e => notify (MsgError e) ;;; ret false).

End Downloader.
End Furbooru.

(** ** [Rule34Downloader] and [download_rule34_tags] *)

Module Rule34.

(** One element of the JSON list of a page.  [r34_tags] is the tag
    string the API sends with every post; no statement of the
    downloader reads it. *)
Record item := {
  r34_file_url : option string;
  r34_id : option Z;
  r34_image : option string;
  r34_tags : string
}.

(** The decoded body: a list, or another JSON value with its truth value. *)
Inductive data :=
  | DataList (items : list item)
  | DataOther (truth : bool).

Section Downloader.
Variable E : env.
Variable api : Z -> option data.     (* [fetch_json]: [None] on a failed request *)
Variable self : downloader.

Local Abbreviation notify := (BaseAsyncDownloader.notify self).
Local Abbreviation download_file := (BaseAsyncDownloader.download_file E self).

(** [fetch_json(api_url)] for page [page]. *)
Definition fetch_json (page : Z) : M (option data) :=
  do proxy <- BaseAsyncDownloader._get_proxy self ;;
  emit (EvPage page) ;;;
  ret (api page).

(** [name.split(".")[-1] if "." in name else "jpg"] *)
Definition ext_of (name : string) : string :=
  match Py.rsplit1 "." name with
  | Some (_, b) => b
  | None => "jpg"
  end.

Definition download_one (download_dir : string) (page : Z) (total i : nat)
    (it : item) (downloaded_count : nat) : M nat :=
  match r34_file_url it, r34_id it with
  | Some image_url, Some image_id =>
      let file_ext :=
        match r34_image it with
        | Some image_name => ext_of image_name
        | None => ext_of image_url
        end in
      let file_path := path_join download_dir (Py.str image_id +:+ "." +:+ file_ext) in
      do present <- exists_file file_path ;;
      if present then ret downloaded_count
      else
        let progress_info :=
          "Rule34 - Page " +:+ pretty page +:+ " - Image "
            +:+ pretty (S i) +:+ "/" +:+ pretty total in
        do ok <- download_file image_url file_path progress_info ;;
        let downloaded_count := if ok then S downloaded_count else downloaded_count in
        notify (MsgSoFar downloaded_count) ;;;
        ret downloaded_count
  | _, _ => ret downloaded_count
  end.

Fixpoint download_each (download_dir : string) (page : Z) (total i : nat)
    (items : list item) (downloaded_count : nat) : M nat :=
  match items with
  | [] => ret downloaded_count
  | it :: rest =>
      do downloaded_count <- download_one download_dir page total i it downloaded_count ;;
      download_each download_dir page total (S i) rest downloaded_count
  end.

Fixpoint page_loop (fuel : nat) (max_pages : option Z) (download_dir : string)
    (downloaded_count : nat) (page : Z) : M nat :=
  match fuel with
  | O => timeout
  | S fuel' =>
      if (Py.truthy_int max_pages && (default 0 max_pages <? page))%bool
      then ret downloaded_count
      else
        notify (MsgFetchingPage page) ;;;
        do data <- fetch_json page ;;
        match data with
        | None => ret downloaded_count
        | Some (DataOther false) => ret downloaded_count
        | Some (DataList []) => ret downloaded_count
        | Some (DataOther true) => notify MsgNoMore ;;; ret downloaded_count
        | Some (DataList items) =>
            notify (MsgFound (length items) page) ;;;
            do downloaded_count <-
              download_each download_dir page (length items) 0 items downloaded_count ;;
            if (length items <? 1000)%nat then ret downloaded_count
            else page_loop fuel' max_pages download_dir downloaded_count (page + 1)
        end
  end.

(** The statements of the [try] block of [download_by_tags]. *)
Definition download_by_tags_try (fuel : nat) (tags : string) (max_pages : option Z)
    (output_dir : string) : M bool :=
  notify (MsgStarting "Rule34" tags) ;;;
   let safe_tags :=
     let s := Base.sanitize_filename tags in
     if Py.truthy s then s else "all" in
   let download_dir := path_join (path_join output_dir "rule34") safe_tags in
   mkdir E download_dir ;;;
   do downloaded_count <- page_loop fuel max_pages download_dir 0 1 ;;
   notify (MsgDownloadedTo downloaded_count download_dir) ;;;
   ret (0 <? downloaded_count)%nat.

(** [download_by_tags]: the [try] block under its [except Exception] handler. *)
Definition download_by_tags (fuel : nat) (tags : string) (max_pages : option Z)
    (output_dir : string) : M bool :=
  try_except
    (download_by_tags_try fuel tags max_pages output_dir)
    (fun e => notify (MsgError e) ;;; ret false).

End Downloader.

(** The entry point the GUI calls. *)
Definition download_rule34_tags (E : env) (api : Z -> option data)
    (fuel : nat) (tags : string) (blacklist : option (list string))
    (max_pages : option Z) (db_file : option string) (output_dir : string)
    (progress_callback : bool) (proxy_list : option (list string))
    (use_proxies : bool) : M bool :=
  let downloader := BaseAsyncDownloader.init progress_callback proxy_list use_proxies in
  download_by_tags E api downloader fuel tags max_pages output_dir.

End Rule34.

(** ** [LusciousDownloader] *)

Module Luscious.

Record item := {
  it_id : option string;             (* item.get("id", "unknown"), as rendered *)
  it_title : option string;
  it_url_to_original : option string
}.

(** What the subscripts [data["data"]["picture"]["list"][...]] and
    [picture_info["total_pages"]] give on the decoded answer. *)
Inductive parsed :=
  | Parsed (total_pages : Z) (picture_items : list item)
  | MissingKey (key : string)        (* a subscript raises [KeyError] *)
  | WrongShape (what : string).      (* a subscript raises [TypeError] *)

Section Downloader.
Variable E : env.
Variable api : string -> Z -> option parsed.   (* [post_json] for an album id and a page *)
Variable self : downloader.

Local Abbreviation notify := (BaseAsyncDownloader.notify self).
Local Abbreviation download_file := (BaseAsyncDownloader.download_file E self).

Definition post_json (album_id : string) (page : Z) : M (option parsed) :=
  do proxy <- BaseAsyncDownloader._get_proxy self ;;
  emit (EvPage page) ;;;
  ret (api album_id page).

(** [url.rpartition(".")[2] if "." in url else "jpg"] *)
Definition ext_of (image_url : string) : string :=
  match Py.rsplit1 "." image_url with
  | Some (_, b) => b
  | None => "jpg"
  end.

Definition download_one (title album_dir : string) (it : item)
    (downloaded_count : nat) : M nat :=
  let image_id := default "unknown" (it_id it) in
  let image_title := default ("image_" +:+ image_id) (it_title it) in
  let image_url := it_url_to_original it in
  if negb (Py.truthy_opt image_url) then ret downloaded_count
  else
    let image_url := default EmptyString image_url in
    let file_ext := ext_of image_url in
    let safe_image_title := Base.sanitize_filename image_title in
    let file_path :=
      path_join album_dir
        (safe_image_title +:+ "_" +:+ image_id +:+ "." +:+ file_ext) in
    do present <- exists_file file_path ;;
    if present then ret downloaded_count
    else
      let progress_info := title +:+ " - " +:+ image_title in
      do ok <- download_file image_url file_path progress_info ;;
      let downloaded_count := if ok then S downloaded_count else downloaded_count in
      notify (MsgSoFar downloaded_count) ;;;
      ret downloaded_count.

Fixpoint download_each (title album_dir : string) (items : list item)
    (downloaded_count : nat) : M nat :=
  match items with
  | [] => ret downloaded_count
  | it :: rest =>
      do downloaded_count <- download_one title album_dir it downloaded_count ;;
      download_each title album_dir rest downloaded_count
  end.

Fixpoint page_loop (fuel : nat) (title album_id album_dir : string)
    (downloaded_count : nat) (page : Z) : M nat :=
  match fuel with
  | O => timeout
  | S fuel' =>
      notify (MsgFetchingPage page) ;;;
      do data <- post_json album_id page ;;
      match data with
      | None => ret downloaded_count
      | Some (MissingKey _) => ret downloaded_count
      | Some (WrongShape what) => raise (TypeError what)
      | Some (Parsed total_pages picture_items) =>
          if total_pages <? page then notify MsgNoMore ;;; ret downloaded_count
          else if bool_decide (picture_items = []) then ret downloaded_count
          else
            do downloaded_count <-
              download_each title album_dir picture_items downloaded_count ;;
            page_loop fuel' title album_id album_dir downloaded_count (page + 1)
      end
  end.

(** The statements of the [try] block of [download_album]. *)
Definition download_album_try (fuel : nat) (url output_dir : string) : M bool :=
  notify (MsgAnalyzing "Luscious") ;;;
   let parts := Py.split "/" url in
   if (length parts <? 6)%nat then ret false
   else
     let part3 := default EmptyString (parts !! 3%nat) in
     let chosen :=
       if bool_decide (part3 = "pictures") then parts !! 5%nat
       else if bool_decide (part3 ∈ ["album"; "albums"]) then parts !! 4%nat
       else None in
     match chosen with
     | None => ret false
     | Some part =>
         let title := Py.before_first "_" part in
         let album_id := Py.split_last "_" part in
         if negb (Py.truthy album_id) then ret false
         else
           let safe_title := Base.sanitize_filename title in
           let album_dir := path_join output_dir safe_title in
           mkdir E album_dir ;;;
           notify (MsgInfo ("Downloading album: " +:+ title)) ;;;
           do downloaded_count <- page_loop fuel title album_id album_dir 0 1 ;;
           notify (MsgDownloadedTo downloaded_count album_dir) ;;;
           ret (0 <? downloaded_count)%nat
     end.

(** [download_album]: the [try] block under its [except Exception] handler. *)
Definition download_album (fuel : nat) (url output_dir : string) : M bool :=
  try_except
    (download_album_try fuel url output_dir)
    (fun e => notify (MsgError e) ;;; ret false).

End Downloader.
End Luscious.

(** ** [YifferDownloader] *)

Module Yiffer.
Section Downloader.
Variable E : env.
Variable unquote : string -> string.                (* urllib.parse.unquote *)
Variable api : string -> option (option Z).
  (* [fetch_json] of the comic: [None] when the answer is absent or
     falsy, else the value of its "numberOfPages" key if it has one *)
Variable self : downloader.

Local Abbreviation notify := (BaseAsyncDownloader.notify self).
Local Abbreviation download_file := (BaseAsyncDownloader.download_file E self).

Definition fetch_json (api_url : string) : M (option (option Z)) :=
  do proxy <- BaseAsyncDownloader._get_proxy self ;;
  emit (EvRequest api_url) ;;;
  ret (api api_url).

Definition format_num (page_num : Z) : string :=
  if page_num <=? 9 then "00" +:+ Py.str page_num
  else if page_num <? 100 then "0" +:+ Py.str page_num
  else Py.str page_num.

Definition download_one (title comic_dir : string) (pages page_num : Z)
    (downloaded_count : nat) : M nat :=
  let formatted_num := format_num page_num in
  let image_url :=
    "https://static.yiffer.xyz/comics/" +:+ title +:+ "/" +:+ formatted_num +:+ ".jpg" in
  let file_path := path_join comic_dir (formatted_num +:+ ".jpg") in
  do present <- exists_file file_path ;;
  if present then ret downloaded_count
  else
    let progress_info :=
      title +:+ " - Page " +:+ pretty page_num +:+ "/" +:+ pretty pages in
    do ok <- download_file image_url file_path progress_info ;;
    let downloaded_count := if ok then S downloaded_count else downloaded_count in
    notify (MsgDownloadedOf (Z.to_nat page_num) (Z.to_nat pages)) ;;;
    ret downloaded_count.

(** [for page_num in range(first, pages + 1)], [n] iterations left. *)
Fixpoint download_each (title comic_dir : string) (pages : Z) (n : nat)
    (page_num : Z) (downloaded_count : nat) : M nat :=
  match n with
  | O => ret downloaded_count
  | S n' =>
      do downloaded_count <-
        download_one title comic_dir pages page_num downloaded_count ;;
      download_each title comic_dir pages n' (page_num + 1) downloaded_count
  end.

(** The statements of the [try] block of [download_comic]. *)
Definition download_comic_try (url output_dir : string) : M bool :=
  notify (MsgAnalyzing "Yiffer") ;;;
   let decoded_url := unquote url in
   let parts := Py.split "/" decoded_url in
   match parts !! 3%nat with
   | None => ret false
   | Some title =>
       let api_url := "https://yiffer.xyz/api/comics/" +:+ title in
       do comic_data <- fetch_json api_url ;;
       match comic_data with
       | None => ret false
       | Some number_of_pages =>
           let pages := default 0 number_of_pages in
           if pages <=? 0 then ret false
           else
             let safe_title := Base.sanitize_filename title in
             let comic_dir := path_join output_dir safe_title in
             mkdir E comic_dir ;;;
             notify (MsgInfo ("Downloading pages from " +:+ title)) ;;;
             do downloaded_count <-
               download_each title comic_dir pages (Z.to_nat pages) 1 0 ;;
             notify (MsgDownloadedTo downloaded_count comic_dir) ;;;
             ret (0 <? downloaded_count)%nat
       end
   end.

(** [download_comic]: the [try] block under its [except Exception] handler. *)
Definition download_comic (url output_dir : string) : M bool :=
  try_except
    (download_comic_try url output_dir)
    (fun e => notify (MsgError e) ;;; ret false).

End Downloader.
End Yiffer.

(** ** [MultpornDownloader] *)

Module Multporn.
Section Downloader.
Variable E : env.
Variable page_get : string -> option string.
  (* [fetch_page]: the text of the page, [None] on failure *)
Variable find_shortlink : string -> option string.
  (* group 1 of the shortlink pattern in the page, if it matches *)
Variable link_node_id : string -> option string.
  (* fourth group of the first URL match in the shortlink, if any *)
Variable xml_get : string -> option (Z * string).
  (* [session.get(juicebox_url)]: status and body, [None] when it raises *)
Variable parse_images : string -> option (list (option string)).
  (* [ET.fromstring] and the linkURL attribute of each image element;
     [None] when parsing raises *)
Variable self : downloader.

Local Abbreviation notify := (BaseAsyncDownloader.notify self).
Local Abbreviation download_file := (BaseAsyncDownloader.download_file E self).

Definition fetch_page (url : string) : M (option string) :=
  do proxy <- BaseAsyncDownloader._get_proxy self ;;
  emit (EvRequest url) ;;;
  ret (page_get url).

Definition field_type_of (type_category : string) : option string :=
  if bool_decide (type_category ∈
       ["comics"; "hentai_manga"; "gay_porn_comics"; "gif"; "humor"])
  then Some "field_com_pages"
  else if bool_decide (type_category ∈ ["pictures"; "hentai"]) then Some "field_img"
  else if bool_decide (type_category = "rule_63") then Some "field_rule_63_img"
  else if bool_decide (type_category = "games") then Some "field_screenshots"
  else None.

Definition download_one (title comic_dir : string) (total i : nat)
    (image_url : string) (downloaded : nat) : M nat :=
  let image_format :=
    let e := Py.split_last "." image_url in
    if Py.truthy e then e else "jpg" in
  let file_path := path_join comic_dir (pretty i +:+ "." +:+ image_format) in
  do present <- exists_file file_path ;;
  if present then ret downloaded
  else
    let progress_info :=
      title +:+ " - Image " +:+ pretty i +:+ "/" +:+ pretty total in
    do ok <- download_file image_url file_path progress_info ;;
    let downloaded := if ok then S downloaded else downloaded in
    notify (MsgDownloadedOf i total) ;;;
    ret downloaded.

Fixpoint download_each (title comic_dir : string) (total i : nat)
    (images : list string) (downloaded : nat) : M nat :=
  match images with
  | [] => ret downloaded
  | image_url :: rest =>
      do downloaded <- download_one title comic_dir total i image_url downloaded ;;
      download_each title comic_dir total (S i) rest downloaded
  end.

(** The statements of the [try] block of [download_comic]. *)
Definition download_comic_try (url output_dir : string) : M bool :=
  notify (MsgAnalyzing "Multporn") ;;;
   let parts := Py.split "/" url in
   match parts !! 3%nat, parts !! 4%nat with
   | Some type_category, Some title =>
       match field_type_of type_category with
       | None => ret false
       | Some field_type =>
           notify (MsgInfo ("Fetching " +:+ title +:+ " metadata...")) ;;;
           do page_content <- fetch_page url ;;
           if negb (Py.truthy_opt page_content) then ret false
           else
             match find_shortlink (default EmptyString page_content) with
             | None => ret false
             | Some raw_link =>
                 match link_node_id raw_link with
                 | None => ret false
                 | Some item_id =>
                     let juicebox_url :=
                       "https://multporn.net/juicebox/xml/field/node/"
                         +:+ item_id +:+ "/" +:+ field_type +:+ "/full" in
                     notify (MsgInfo "Fetching image list...") ;;;
                     emit (EvRequest juicebox_url) ;;;
                     match xml_get juicebox_url with
                     | None => raise (ClientError juicebox_url)
                     | Some (code, xml_content) =>
                         if negb (code =? 200) then ret false
                         else
                           match parse_images xml_content with
                           | None => ret false
                           | Some links =>
                               let images :=
                                 omap (fun l =>
                                         if Py.truthy_opt l then l else None) links in
                               if bool_decide (images = []) then ret false
                               else
                                 let safe_title := Base.sanitize_filename title in
                                 let comic_dir := path_join output_dir safe_title in
                                 mkdir E comic_dir ;;;
                                 notify (MsgInfo "Downloading images") ;;;
                                 do downloaded <-
                                   download_each title comic_dir (length images)
                                                 1 images 0 ;;
                                 notify (MsgInfo ("Completed downloading " +:+ title)) ;;;
                                 ret (0 <? downloaded)%nat
                           end
                     end
                 end
             end
       end
   | _, _ => ret false
   end.

(** [download_comic]: the [try] block under its [except Exception] handler. *)
Definition download_comic (url output_dir : string) : M bool :=
  try_except
    (download_comic_try url output_dir)
    (fun e => notify (MsgError e) ;;; ret false).

End Downloader.
End Multporn.

(** ** The GUI job queue: [DownloadTask] and [TkinterApp] *)

Module Gui.

Record DownloadTask := {
  task_id : string;
  site : string;
  task_type : string;               (* 'url' or 'tags' *)
  url : option string;
  tags : option string;
  max_pages : option Z;
  status : string
}.

(** [self.max_pages or 'unlimited'] inside an f-string. *)
Definition max_pages_text (self : DownloadTask) : string :=
  if Py.truthy_int (max_pages self) then Py.str (default 0 (max_pages self))
  else "unlimited".

(** [get_unique_key]; [None] when [self.url.lower()] raises because a
    task of type 'url' has no url. *)
Definition get_unique_key (self : DownloadTask) : option string :=
  if bool_decide (task_type self = "url") then
    match url self with
    | None => None
    | Some u =>
        let normalized_url := Py.rstrip_chars "/" (Py.lower u) in
        Some (site self +:+ "|url|" +:+ normalized_url)
    end
  else
    let tags_normalized :=
      if Py.truthy_opt (tags self)
      then Py.strip (Py.lower (default EmptyString (tags self)))
      else EmptyString in
    Some (site self +:+ "|tags|" +:+ tags_normalized +:+ "|" +:+ max_pages_text self).

(** [__eq__] between two tasks; [None] when a key cannot be computed. *)
Definition task_eq (self other : DownloadTask) : option bool :=
  k1 ← get_unique_key self;
  k2 ← get_unique_key other;
  Some (bool_decide (k1 = k2)).

Inductive gui_event :=
  | GuiDuplicate (t : DownloadTask)     (* warning box and log line *)
  | GuiAdded (t : DownloadTask)
  | GuiStarting (t : DownloadTask)
  | GuiSubmitted (t : DownloadTask)     (* coroutine handed to the async loop *)
  | GuiNotReady
  | GuiNoLoop
  | GuiFinished (t : DownloadTask) (success : bool).

Record app := {
  download_queue : list DownloadTask;            (* FIFO, head is next *)
  current_download_info : option DownloadTask;
  is_downloading : bool;
  has_async_deps : bool;                         (* HAS_ASYNC_DEPS *)
  config_manager : bool;                         (* self.config_manager is not None *)
  loop_running : bool;                           (* self.loop and self.loop.is_running() *)
  gui_log : list gui_event
}.

Definition set_queue (q : list DownloadTask) (a : app) : app :=
  {| download_queue := q; current_download_info := current_download_info a;
     is_downloading := is_downloading a; has_async_deps := has_async_deps a;
     config_manager := config_manager a; loop_running := loop_running a;
     gui_log := gui_log a |}.

Definition add_log (e : gui_event) (a : app) : app :=
  {| download_queue := download_queue a;
     current_download_info := current_download_info a;
     is_downloading := is_downloading a; has_async_deps := has_async_deps a;
     config_manager := config_manager a; loop_running := loop_running a;
     gui_log := gui_log a ++ [e] |}.

Definition set_current (c : option DownloadTask) (busy : bool) (a : app) : app :=
  {| download_queue := download_queue a; current_download_info := c;
     is_downloading := busy; has_async_deps := has_async_deps a;
     config_manager := config_manager a; loop_running := loop_running a;
     gui_log := gui_log a |}.

Definition set_status (s : string) (t : DownloadTask) : DownloadTask :=
  {| task_id := task_id t; site := site t; task_type := task_type t;
     url := url t; tags := tags t; max_pages := max_pages t; status := s |}.

(** [while not queue.empty(): item = queue.get_nowait(); temp_items.append(item)]:
    the items taken out, in the order they are put back. *)
Fixpoint drain (q temp_items : list DownloadTask) : list DownloadTask :=
  match q with
  | [] => temp_items
  | item :: q' => drain q' (temp_items ++ [item])
  end.

(** [update_queue_display]: empties the queue into [temp_items] and
    puts every item back. *)
Definition update_queue_display (a : app) : app :=
  set_queue (drain (download_queue a) []) a.

(** The draining loop of [_is_duplicate_task]. *)
Fixpoint scan (new_task : DownloadTask) (q temp_items : list DownloadTask)
    (is_duplicate : bool) : option (list DownloadTask * bool) :=
  match q with
  | [] => Some (temp_items, is_duplicate)
  | item :: q' =>
      match task_eq new_task item with
      | None => None
      | Some same =>
          scan new_task q' (temp_items ++ [item])
               (if same then true else is_duplicate)
      end
  end.

(** [_is_duplicate_task]: the answer and the application afterwards;
    [None] when a comparison raises. *)
Definition _is_duplicate_task (new_task : DownloadTask) (a : app)
    : option (bool * app) :=
  hit ← match current_download_info a with
        | Some cur => task_eq new_task cur
        | None => Some false
        end;
  if (hit : bool) then Some (true, a)
  else
    match scan new_task (download_queue a) [] false with
    | Some (temp_items, is_duplicate) => Some (is_duplicate, set_queue temp_items a)
    | None => None
    end.

Definition _download_completed (next : app -> app) (task : DownloadTask)
    (success : bool) (a : app) : app :=
  let a := set_current None false a in
  let a := add_log (GuiFinished (set_status (if success then "completed" else "failed") task)
                                success) a in
  next (update_queue_display a).

(** [_start_download_task]; [next] is [_process_next_in_queue]. *)
Definition _start_download_task (next : app -> app) (task : DownloadTask)
    (a : app) : app :=
  if (has_async_deps a && negb (config_manager a))%bool then add_log GuiNotReady a
  else
    let task := set_status "downloading" task in
    let a := set_current (Some task) true a in
    let a := update_queue_display a in
    let a := add_log (GuiStarting task) a in
    if loop_running a then add_log (GuiSubmitted task) a
    else _download_completed next task false (add_log GuiNoLoop a).

(** [_process_next_in_queue], with one unit of [n] for every task that
    can still be taken out of the queue. *)
Fixpoint process_next (n : nat) (a : app) : app :=
  match n with
  | O => a
  | S n' =>
      if is_downloading a then a
      else match download_queue a with
           | [] => a
           | next_task :: q' =>
               _start_download_task (process_next n') next_task (set_queue q' a)
           end
  end.

Definition _process_next_in_queue (a : app) : app :=
  process_next (S (length (download_queue a))) a.

(** [add_to_queue], given the result of [_create_download_task]. *)
Definition add_to_queue (task : option DownloadTask) (a : app) : option app :=
  match task with
  | None => Some a
  | Some task =>
      match _is_duplicate_task task a with
      | None => None
      | Some (true, a) => Some (add_log (GuiDuplicate task) a)
      | Some (false, a) =>
          let a := set_queue (download_queue a ++ [task]) a in
          let a := add_log (GuiAdded task) a in
          let a := update_queue_display a in
          Some (if is_downloading a then a else _process_next_in_queue a)
      end
  end.

(** *** The identity rule in the words of the specification *)





(** *** Creating, starting and removing tasks *)

(** Dialogs and log lines of the functions below. *)
Inductive note :=
  | ErrSelectSite
  | ErrEnterUrl
  | ErrInvalidUrl
  | AskForeignUrl (site : string)      (* askyesno: the URL is not of the site *)
  | AskNoTags                          (* askyesno: no tags entered *)
  | ErrMaxPages
  | ErrTooManyTags (site : string) (tag_count : nat)
  | NoteNoAsyncDeps
  | NoteDuplicateNotStarting (t : DownloadTask)
  | NoteQueueCleared
  | NoteCannotRemove
  | NoteRemoved (t : DownloadTask).

(** What the user entered, and what the environment answers while a
    task is created. *)
Record inputs := {
  site_var : string;
  url_var : string;
  tags_var : string;
  max_pages_var : string;
  askyesno : bool;                       (* the answer to a yes/no dialog *)
  uuid4 : string                         (* str(uuid.uuid4()) *)
}.

(** [site_urls[site]] *)
Definition site_urls (site : string) : string :=
  if bool_decide (site = "luscious") then "luscious.net"
  else if bool_decide (site = "multporn") then "multporn.net"
  else "yiffer.xyz".

(** [_create_download_task]; [py_int] is [int] on text, [None] when it
    raises ValueError. *)
Definition _create_download_task (py_int : string -> option Z)
    (has_async_deps : bool) (ui : inputs) : option DownloadTask * list note :=
  if negb has_async_deps then (None, [])
  else
    let site := site_var ui in
    if negb (Py.truthy site) then (None, [ErrSelectSite])
    else if bool_decide (site ∈ ["luscious"; "multporn"; "yiffer"]) then
      let url := url_var ui in
      if negb (Py.truthy (Py.strip url)) then (None, [ErrEnterUrl])
      else if negb (Py.prefix "http://" url || Py.prefix "https://" url)
      then (None, [ErrInvalidUrl])
      else
        let task :=
          {| task_id := uuid4 ui; site := site; task_type := "url";
             url := Some url; tags := None; max_pages := None;
             status := "pending" |} in
        if negb (Py.contains (site_urls site) (Py.lower url)) then
          if negb (askyesno ui) then (None, [AskForeignUrl site])
          else (Some task, [AskForeignUrl site])
        else (Some task, [])
    else
      let tags := tags_var ui in
      let max_pages := max_pages_var ui in
      let asked := if negb (Py.truthy (Py.strip tags)) then [AskNoTags] else [] in
      if (negb (Py.truthy (Py.strip tags)) && negb (askyesno ui))%bool
      then (None, asked)
      else
        let max_pages_int :=
          if Py.truthy (Py.strip max_pages) then
            match py_int max_pages with
            | Some k => Some (Some k)
            | None => None
            end
          else Some None in
        match max_pages_int with
        | None => (None, asked ++ [ErrMaxPages])
        | Some max_pages_int =>
            let tag_count := length (Py.split_ws tags) in
            if (bool_decide (site ∈ ["e621"; "e6ai"; "e926"])
                && Py.truthy (Py.strip tags) && (40 <? tag_count)%nat)%bool
            then (None, asked ++ [ErrTooManyTags site tag_count])
            else
              (Some {| task_id := uuid4 ui; site := site; task_type := "tags";
                       url := None; tags := Some tags;
                       max_pages := max_pages_int; status := "pending" |},
               asked)
        end.

(** [start_download], given the result of [_create_download_task];
    [None] when a comparison raises. *)
Definition start_download (task : option DownloadTask) (a : app)
    : option (app * list note) :=
  if negb (has_async_deps a) then Some (a, [NoteNoAsyncDeps])
  else if is_downloading a then
    a' ← add_to_queue task a; Some (a', [])
  else
    match task with
    | None => Some (a, [])
    | Some task =>
        match _is_duplicate_task task a with
        | None => None
        | Some (true, a) => Some (a, [NoteDuplicateNotStarting task])
        | Some (false, a) =>
            Some (_start_download_task _process_next_in_queue task a, [])
        end
    end.

(** The loop of [clear_queue]: every item is taken out and dropped. *)
Fixpoint discard (q : list DownloadTask) : list DownloadTask :=
  match q with
  | [] => []
  | _ :: q' => discard q'
  end.

Definition clear_queue (a : app) : app * list note :=
  (update_queue_display (set_queue (discard (download_queue a)) a),
   [NoteQueueCleared]).

(** The loop of [remove_selected_from_queue]: the items put back and
    the item left out. *)
Fixpoint remove_scan (queue_index : Z) (q temp_items : list DownloadTask)
    (removed_item : option DownloadTask) (item_count : Z)
    : list DownloadTask * option DownloadTask :=
  match q with
  | [] => (temp_items, removed_item)
  | item :: q' =>
      if item_count =? queue_index
      then remove_scan queue_index q' temp_items (Some item) (item_count + 1)
      else remove_scan queue_index q' (temp_items ++ [item]) removed_item
             (item_count + 1)
  end.

(** [remove_selected_from_queue]; [selection] is what
    [queue_listbox.curselection()] returns, the indices of the selected
    lines. *)
Definition remove_selected_from_queue (selection : list nat) (a : app)
    : app * list note :=
  match selection with
  | [] => (a, [])
  | selected_index :: _ =>
      if (bool_decide (is_Some (current_download_info a))
          && (selected_index =? 0)%nat)%bool
      then (a, [NoteCannotRemove])
      else
        let queue_index :=
          if bool_decide (is_Some (current_download_info a))
          then Z.of_nat selected_index - 1
          else Z.of_nat selected_index in
        if 0 <=? queue_index then
          let '(temp_items, removed_item) :=
            remove_scan queue_index (download_queue a) [] None 0 in
          (set_queue temp_items a,
           match removed_item with
           | Some t => [NoteRemoved t]
           | None => []
           end)
        else (a, [])
  end.

End Gui.

(** ** [AsyncProxyManager] *)

Module ProxyManager.

(** [self.proxy_source_list] *)
Definition proxy_source_list : list string :=
  [ "https://raw.githubusercontent.com/TheSpeedX/SOCKS-List/master/http.txt";
    "https://raw.githubusercontent.com/ShiftyTR/Proxy-List/master/http.txt";
    "https://raw.githubusercontent.com/mmpx12/proxy-list/master/http.txt";
    "https://raw.githubusercontent.com/Volodichev/proxy-list/main/http.txt";
    "https://raw.githubusercontent.com/monosans/proxy-list/main/proxies/http.txt";
    "https://raw.githubusercontent.com/roma8ok/proxy-list/main/proxy-list-http.txt" ].

(** The default of the [test_url] argument of [test_proxy]. *)
Definition default_test_url : string := "http://httpbin.org/ip".

Section Manager.
Variable E : env.

(** A proxy dictionary has the one key "http": it is modelled by the
    value of that key, and [self.proxy_list] by the list of these
    values. *)

(** [await response.text()]: the whole body, [None] when the stream
    breaks. *)
Definition response_text (r : response) : option string :=
  if broken r then None else Some (String.concat EmptyString (chunks r)).

(** [for proxy in split_proxies:] of [scrape_proxies]. *)
Fixpoint add_proxies (split_proxies proxy_list : list string) : list string :=
  match split_proxies with
  | [] => proxy_list
  | proxy :: rest =>
      let proxy_dict := Py.strip proxy in
      add_proxies rest
        (if bool_decide (proxy_dict ∈ proxy_list) then proxy_list
         else proxy_list ++ [proxy_dict])
  end.

(** [for source in self.proxy_source_list:]; a source that raises or
    does not answer 200 is skipped. *)
Fixpoint scrape_sources (sources proxy_list : list string) : list string :=
  match sources with
  | [] => proxy_list
  | source :: rest =>
      scrape_sources rest
        (match http_get E None source with
         | Some r =>
             if status r =? 200 then
               match response_text r with
               | Some proxy_raw => add_proxies (Py.split_ws proxy_raw) proxy_list
               | None => proxy_list
               end
             else proxy_list
         | None => proxy_list
         end)
  end.

(** [scrape_proxies]: the new [self.proxy_list], which is also the
    result. *)
Definition scrape_proxies : list string :=
  scrape_sources proxy_source_list [].

Definition get_proxy_count (proxy_list : list string) : nat := length proxy_list.

(** [test_proxy]; any exception gives [False]. *)
Definition test_proxy (proxy test_url : string) : bool :=
  match http_get E (Some proxy) test_url with
  | Some r => status r =? 200
  | None => false
  end.

(** [for proxy in test_proxies:] of [get_working_proxies]. *)
Fixpoint test_each (test_proxies working_proxies : list string) : list string :=
  match test_proxies with
  | [] => working_proxies
  | proxy :: rest =>
      test_each rest
        (if test_proxy proxy default_test_url then working_proxies ++ [proxy]
         else working_proxies)
  end.

(** [get_working_proxies(max_test)]: the working proxies and the new
    [self.proxy_list]. *)
Definition get_working_proxies (max_test : Z) (proxy_list : list string)
    : list string * list string :=
  let proxy_list :=
    if bool_decide (proxy_list = []) then scrape_proxies else proxy_list in
  let test_proxies := Py.list_slice_to max_test proxy_list in
  (test_each test_proxies [], proxy_list).

End Manager.
End ProxyManager.

(** ** [AsyncConfigManager] *)

Module ConfigManager.

(** Decoded JSON values; an object keeps its members in order. *)
#[warnings="-register-all"] Inductive json :=
  | JNull
  | JBool (b : bool)
  | JNumber (literal : string)
  | JString (s : string)
  | JArray (items : list json)
  | JObject (members : list (string * json)).

(** The dictionary [create_default_config] builds. *)
Definition default_config : json :=
  JObject
    [ ("version", JNumber "1.6");
      ("proxies", JBool true);
      ("checkForUpdates", JBool true);
      ("oneTimeDownload", JBool true);
      ("advancedMode", JBool false);
      ("ai_training", JBool false);
      ("user_credentials",
       JObject
         [ ("e621", JObject [("apiUser", JString EmptyString);
                             ("apiKey", JString EmptyString)]);
           ("e6ai", JObject [("apiUser", JString EmptyString);
                             ("apiKey", JString EmptyString)]);
           ("e926", JObject [("apiUser", JString EmptyString);
                             ("apiKey", JString EmptyString)]);
           ("furbooru", JObject [("apiKey", JString EmptyString)]) ]);
      ("blacklisted_tags", JArray [JString "example1"; JString "example2"]);
      ("blacklisted_formats", JArray [JString "example1"; JString "example2"]) ].

Section Manager.
Variable E : env.
Variable dumps : json -> string.            (* json.dumps(_, indent=6) *)
Variable loads : string -> json + exn.
  (* json.loads: the decoded value, or the exception it raises
     ([JSONDecodeError] for a body that is not JSON) *)
Variable valid_text : string -> bool.
  (* whether the bytes of a file decode in the encoding [open] uses *)
Variable config_path : string.

(** [create_default_config]: a failure to write is not caught. *)
Definition create_default_config : M json :=
  write_file E config_path (dumps default_config) ;;;
  ret default_config.

(** [open(path, "r")] and [read()]: a file that cannot be opened
    raises [OSError], bytes that do not decode raise
    [UnicodeDecodeError]. *)
Definition read_file (p : string) : M string :=
  fun w =>
    match files w !! p with
    | Some content =>
        if io_ok E p then
          if valid_text content then (w, Val content)
          else (w, Raise (UnicodeDecodeError p))
        else (w, Raise (OSError p))
    | None => (w, Raise (OSError p))
    end.

(** The exceptions that [except (json.JSONDecodeError, IOError)]
    catches: [IOError] is [OSError]; [UnicodeDecodeError] is a
    [ValueError] that is neither. *)
Definition caught (e : exn) : bool :=
  match e with
  | OSError _ | JSONDecodeError => true
  | _ => false
  end.

(** [try: m  except (json.JSONDecodeError, IOError): h e] *)
Definition try_except_caught {A} (m : M A) (h : exn -> M A) : M A :=
  fun w =>
    match m w with
    | (w', Raise e) => if caught e then h e w' else (w', Raise e)
    | r => r
    end.

(** [return json.loads(content)] *)
Definition decode (content : string) : M json :=
  match loads content with
  | inl config => ret config
  | inr e => raise e
  end.

(** [load_config]: a failure to open the file and a body that is not
    JSON lead to the handler, which creates the default config; any
    other exception of the [try] block leaves the function. *)
Definition load_config : M json :=
  do present <- exists_file config_path ;;
  if negb present then create_default_config
  else
    try_except_caught
      (do content <- read_file config_path ;; decode content)
      (fun _ => create_default_config).

(** [save_config] *)
Definition save_config (config : json) : M bool :=
  try_except
    (write_file E config_path (dumps config) ;;; ret true)
    (fun _ => ret false).

End Manager.
End ConfigManager.

(** ** The handler of the run functions, for any callback *)

(** A progress callback is code of the caller: a call of it may change
    the world and may raise. *)
Definition callback : Type := msg -> M unit.

(** [if self.progress_callback: self.progress_callback(m)] *)
Definition call (progress_callback : option callback) (m : msg) : M unit :=
  match progress_callback with
  | Some f => emit (EvNotify m) ;;; f m
  | None => ret tt
  end.

(** The run function of each of the six downloaders, given its [try]
    block:
    [try: <try_block>
     except Exception as e:
         if self.progress_callback: self.progress_callback(f"Error: {e}")
         return False] *)
Definition run_function (progress_callback : option callback)
    (try_block : M bool) : M bool :=
  try_except try_block
    (fun e => call progress_callback (MsgError e) ;;; ret false).

(** ** Statements of the specification, and concrete data *)

(** A name is filesystem-safe for a sanitizer with unsafe characters
    [unsafe] and length bound [bound]. *)
Definition safe_name (unsafe : list ascii) (bound : nat) (r : string) : Prop :=
  (forall c, c ∈ unsafe -> ~ Py.InStr c r)
  /\ ~ Py.InStr " "%char r
  /\ r <> EmptyString
  /\ (String.length r <= bound)%nat.

(** The sanitizer property as the specification words it: every
    sanitizer returns a safe, non-empty name of bounded length, folder
    names within 90 characters. *)
Definition sanitizer_claim : Prop :=
  (exists bound, forall s,
      safe_name Base.unsafe_chars bound (Base.sanitize_filename s))
  /\ (forall s,
      safe_name DirectoryManager.unsafe_chars 90
                (DirectoryManager.create_folder_name s)).

(** [n] copies of the letter a. *)
Fixpoint letters (n : nat) : string :=
  match n with
  | O => EmptyString
  | S n' => String "a"%char (letters n')
  end.

(** A server that answers every file request with status [code] and
    the one-chunk body [body]; every path can be written. *)
Definition constant_env (code : Z) (body : string) : env :=
  {| http_get := fun _ _ => Some {| status := code; chunks := [body]; broken := false |};
     io_ok := fun _ => true |}.

(** A downloader with a progress callback and no proxies. *)
Definition plain_downloader : downloader :=
  {| progress_callback := true; proxy_list := []; use_proxies := false;
     dt_now := "01-01-2024_00-00-00" |}.

(** Two worlds with the same file system and Seen-ID files. *)
Definition same_storage (w w' : world) : Prop :=
  files w' = files w /\ dirs w' = dirs w /\ db w' = db w.

(** *** Job-queue statements *)

(** Every task the application holds has a unique key. *)
Definition keyed (a : Gui.app) : Prop :=
  Forall (fun t => is_Some (Gui.get_unique_key t)) (Gui.download_queue a)
  /\ (forall c, Gui.current_download_info a = Some c -> is_Some (Gui.get_unique_key c)).

(** [t] is the current task or a queued one. *)
Definition held (a : Gui.app) (t : Gui.DownloadTask) : Prop :=
  Gui.current_download_info a = Some t \/ t ∈ Gui.download_queue a.

Definition same_key (t u : Gui.DownloadTask) : Prop :=
  exists k, Gui.get_unique_key t = Some k /\ Gui.get_unique_key u = Some k.






Definition url_task (id site url : string) : Gui.DownloadTask :=
  {| Gui.task_id := id; Gui.site := site; Gui.task_type := "url";
     Gui.url := Some url; Gui.tags := None; Gui.max_pages := None;
     Gui.status := "pending" |}.

Definition tags_task (id site tags : string) (max_pages : option Z)
  : Gui.DownloadTask :=
  {| Gui.task_id := id; Gui.site := site; Gui.task_type := "tags";
     Gui.url := None; Gui.tags := Some tags; Gui.max_pages := max_pages;
     Gui.status := "pending" |}.

(** An application that is downloading one job and has one more queued. *)
Definition busy_app : Gui.app :=
  {| Gui.download_queue := [url_task "2" "luscious" "https://luscious.net/albums/a_1"];
     Gui.current_download_info :=
       Some (Gui.set_status "downloading" (tags_task "1" "e621" "wolf" (Some 3)));
     Gui.is_downloading := true; Gui.has_async_deps := true;
     Gui.config_manager := true; Gui.loop_running := true;
     Gui.gui_log := [] |}.

(** *** Runs and their traces *)

(** [m] adds to the trace only events that satisfy [P], and it returns
    or raises (it does not run out of fuel). *)
Definition calm (P : event -> Prop) {A} (m : M A) : Prop :=
  forall w,
    (exists t, trace (fst (m w)) = trace w ++ t /\ Forall P t)
    /\ snd (m w) <> Timeout.

(** [m] adds to the trace only events that satisfy [P]. *)
Definition emits (P : event -> Prop) {A} (m : M A) : Prop :=
  forall w, exists t, trace (fst (m w)) = trace w ++ t /\ Forall P t.

Definition is_page (e : event) : bool :=
  match e with EvPage _ => true | _ => false end.

(** The number of page-listing requests in a trace. *)
Definition page_fetches (t : list event) : nat := length (filter is_page t).

(** The URLs [download_file] requested, in order. *)
Definition gets (t : list event) : list string :=
  omap (fun e => match e with EvGet u => Some u | _ => None end) t.

(** The lines appended to Seen-ID files, in order. *)
Definition appends (t : list event) : list (string * string) :=
  omap (fun e => match e with EvAppend p l => Some (p, l) | _ => None end) t.

(** The file requests and Seen-ID appends of a trace, in order. *)
Definition transfers (t : list event) : list event :=
  omap (fun e => match e with EvGet _ | EvAppend _ _ => Some e | _ => None end) t.

(** The progress messages of a trace, in order. *)
Definition messages (t : list event) : list msg :=
  omap (fun e => match e with EvNotify m => Some m | _ => None end) t.

Definition not_page (e : event) : Prop := is_page e = false.

(** Every file request of [e] goes to a URL that satisfies [Q]. *)
Definition gets_only (Q : string -> Prop) (e : event) : Prop :=
  match e with EvGet u => Q u | _ => True end.

(** *** Jobs: one constructor per site downloader, with the answers of
    its site and the arguments of its run function *)

Inductive job :=
  | JobE621 (E : env) (api : Z -> E621.api_result)
      (json_dump : gmap string (list string) -> string)
      (self : downloader) (fuel : nat) (tags site : string)
      (blacklist : option (list string)) (max_pages : option Z)
      (ai_training : bool) (db_file : option string) (output_dir : string)
  | JobFurbooru (E : env) (api : Z -> Furbooru.api_result)
      (self : downloader) (fuel : nat) (tags : string)
      (blacklist : option (list string)) (max_pages : option Z)
      (db_file : option string) (output_dir : string)
  | JobRule34 (E : env) (api : Z -> option Rule34.data)
      (self : downloader) (fuel : nat) (tags : string)
      (max_pages : option Z) (output_dir : string)
  | JobLuscious (E : env) (api : string -> Z -> option Luscious.parsed)
      (self : downloader) (fuel : nat) (url output_dir : string)
  | JobYiffer (E : env) (unquote : string -> string)
      (api : string -> option (option Z))
      (self : downloader) (url output_dir : string)
  | JobMultporn (E : env) (page_get : string -> option string)
      (find_shortlink link_node_id : string -> option string)
      (xml_get : string -> option (Z * string))
      (parse_images : string -> option (list (option string)))
      (self : downloader) (url output_dir : string).

(** The top-level run function of a job. *)
Definition run_job (j : job) : M bool :=
  match j with
  | JobE621 E api json_dump self fuel tags site blacklist max_pages
            ai_training db_file output_dir =>
      E621.download_by_tags E api json_dump self fuel tags site blacklist
                            max_pages ai_training db_file output_dir
  | JobFurbooru E api self fuel tags blacklist max_pages db_file output_dir =>
      Furbooru.download_by_tags E api self fuel tags blacklist max_pages
                                db_file output_dir
  | JobRule34 E api self fuel tags max_pages output_dir =>
      Rule34.download_by_tags E api self fuel tags max_pages output_dir
  | JobLuscious E api self fuel url output_dir =>
      Luscious.download_album E api self fuel url output_dir
  | JobYiffer E unquote api self url output_dir =>
      Yiffer.download_comic E unquote api self url output_dir
  | JobMultporn E page_get find_shortlink link_node_id xml_get parse_images
                self url output_dir =>
      Multporn.download_comic E page_get find_shortlink link_node_id xml_get
                              parse_images self url output_dir
  end.

(** The [try] block of the run function of a job. *)
Definition job_try (j : job) : M bool :=
  match j with
  | JobE621 E api json_dump self fuel tags site blacklist max_pages
            ai_training db_file output_dir =>
      E621.download_by_tags_try E api json_dump self fuel tags site blacklist
                                max_pages ai_training db_file output_dir
  | JobFurbooru E api self fuel tags blacklist max_pages db_file output_dir =>
      Furbooru.download_by_tags_try E api self fuel tags blacklist max_pages
                                    db_file output_dir
  | JobRule34 E api self fuel tags max_pages output_dir =>
      Rule34.download_by_tags_try E api self fuel tags max_pages output_dir
  | JobLuscious E api self fuel url output_dir =>
      Luscious.download_album_try E api self fuel url output_dir
  | JobYiffer E unquote api self url output_dir =>
      Yiffer.download_comic_try E unquote api self url output_dir
  | JobMultporn E page_get find_shortlink link_node_id xml_get parse_images
                self url output_dir =>
      Multporn.download_comic_try E page_get find_shortlink link_node_id xml_get
                                  parse_images self url output_dir
  end.

Definition job_self (j : job) : downloader :=
  match j with
  | JobE621 _ _ _ self _ _ _ _ _ _ _ _ => self
  | JobFurbooru _ _ self _ _ _ _ _ _ => self
  | JobRule34 _ _ self _ _ _ _ => self
  | JobLuscious _ _ self _ _ _ => self
  | JobYiffer _ _ _ self _ _ => self
  | JobMultporn _ _ _ _ _ _ self _ _ => self
  end.

(** The [max_pages] argument of a tag-search job. *)
Definition job_max_pages (j : job) : option Z :=
  match j with
  | JobE621 _ _ _ _ _ _ _ _ max_pages _ _ _ => max_pages
  | JobFurbooru _ _ _ _ _ _ max_pages _ _ => max_pages
  | JobRule34 _ _ _ _ _ max_pages _ => max_pages
  | _ => None
  end.

(** The iterations granted to the [while True] loop of a job. *)
Definition job_fuel (j : job) : nat :=
  match j with
  | JobE621 _ _ _ _ fuel _ _ _ _ _ _ _ => fuel
  | JobFurbooru _ _ _ fuel _ _ _ _ _ => fuel
  | JobRule34 _ _ _ fuel _ _ _ => fuel
  | JobLuscious _ _ _ fuel _ _ => fuel
  | _ => O
  end.

(** From [w], [m] issues at most [n] page-listing requests and returns
    or raises. *)
Definition fetches_within (n : nat) {A} (m : M A) : Prop :=
  forall w,
    (page_fetches (trace (fst (m w))) <= page_fetches (trace w) + n)%nat
    /\ snd (m w) <> Timeout.

(** *** Concrete sites *)

Definition e621_post (n : Z) (address : option string) (general : list string)
  : E621.post :=
  {| E621.post_id := Some n;
     E621.post_file := Some {| E621.file_url := address; E621.file_ext := Some "png" |};
     E621.post_tags := Some {[ "general" := general ]} |}.

Definition e621_page (posts : list E621.post) : E621.api_result :=
  E621.ApiResponse 200 (Some (E621.DataDict None (Some posts))).

(** An e621 site with one post on each of its first two pages and
    nothing after them. *)
Definition two_pages (page : Z) : E621.api_result :=
  if page <=? 2
  then e621_page [e621_post page (Some ("https://static/" +:+ Py.str page +:+ ".png"))
                            ["wolf"]]
  else e621_page [].

Definition no_dump (t : gmap string (list string)) : string := EmptyString.

(** A tag search on [two_pages] with the given page limit. *)
Definition two_pages_job (max_pages : option Z) : job :=
  JobE621 (constant_env 200 "img") two_pages no_dump
          (E621.init true "01-01-2024_00-00-00") 10 "wolf" "e621"
          None max_pages false None "media".

(** The page limit as the specification words it: with [max_pages]
    configured to [k], a run that terminates has issued at most [k]
    page requests. *)
Definition page_limit_claim : Prop :=
  forall (j : job) (k : Z) (w : world),
    job_max_pages j = Some k -> 0 <= k ->
    snd (run_job j w) <> Timeout ->
    (page_fetches (trace (fst (run_job j w)))
     <= page_fetches (trace w) + Z.to_nat k)%nat.

(** An e621 site whose first page holds a post without an id. *)
Definition malformed_page (page : Z) : E621.api_result :=
  e621_page [{| E621.post_id := None; E621.post_file := None;
                E621.post_tags := None |}].

Definition malformed_job : job :=
  JobE621 (constant_env 200 "img") malformed_page no_dump
          (E621.init true "01-01-2024_00-00-00") 10 "wolf" "e621"
          None None false None "media".

(** *** One page of approved items *)







(** A server on which the file of post 20 is missing (404); every
    other file is served. *)
Definition flaky_env : env :=
  {| http_get := fun _ u =>
       if bool_decide (u = "https://static/20.png")
       then Some {| status := 404; chunks := []; broken := false |}
       else Some {| status := 200; chunks := ["img"]; broken := false |};
     io_ok := fun _ => true |}.

(** An e621 site with three posts on its first page and nothing after. *)
Definition three_posts : list E621.post :=
  [e621_post 10 (Some "https://static/10.png") ["wolf"];
   e621_post 20 (Some "https://static/20.png") ["wolf"];
   e621_post 30 (Some "https://static/30.png") ["wolf"]].

Definition one_page (page : Z) : E621.api_result :=
  if page =? 1 then e621_page three_posts else e621_page [].


(** A tag search on [one_page] with dedup on, on the server that lacks
    the file of post 20. *)
Definition flaky_job : job :=
  JobE621 flaky_env one_page no_dump (E621.init true "T") 5 "wolf" "e621"
          None None false (Some "db") "media".

(** *** A rule34 site *)

Definition rule34_item (n : Z) (tags : string) : Rule34.item :=
  {| Rule34.r34_file_url := Some ("https://r34/" +:+ Py.str n +:+ ".jpg");
     Rule34.r34_id := Some n;
     Rule34.r34_image := Some (Py.str n +:+ ".jpg");
     Rule34.r34_tags := tags |}.

(** One page with the single post 5, tagged "gore wolf". *)
Definition rule34_site (page : Z) : option Rule34.data :=
  if page =? 1 then Some (Rule34.DataList [rule34_item 5 "gore wolf"])
  else Some (Rule34.DataList []).

(** A world in which post 5 is recorded in the Seen-ID file of rule34. *)
Definition seen_world : world :=
  {| files := ∅; dirs := {[ "db" ]}; db := {[ "db/rule34.db" := ["5"] ]};
     current_proxy_index := 0; trace := [] |}.

(** *** The filters of the e621 and Furbooru loops *)

(** The posts a page of the e621 API serves. *)
Definition e621_served (api : Z -> E621.api_result) (page : Z) : list E621.post :=
  match api page with
  | E621.ApiResponse 200 (Some (E621.DataDict _ (Some posts))) => posts
  | _ => []
  end.

(** The collected tags of an e621 post. *)
Definition e621_tags (site : string) (item : E621.post) : list string :=
  E621.collect_post_tags site (default ∅ (E621.post_tags item)).

(** [item] is a post with address [u] that has no blacklisted tag and,
    when dedup is on, an id outside [ids]. *)
Definition e621_passes (site : string) (blacklist : list string)
    (db_file : option string) (ids : gset string) (item : E621.post)
    (u : string) : Prop :=
  exists n,
    E621.post_id item = Some n
    /\ (exists f, E621.post_file item = Some f /\ E621.file_url f = Some u)
    /\ (forall t, t ∈ e621_tags site item -> t ∉ blacklist)
    /\ (Py.truthy_opt db_file = true -> Py.str n ∉ ids).

(** The images a page of the Furbooru API serves. *)
Definition furbooru_served (api : Z -> Furbooru.api_result) (page : Z)
  : list Furbooru.image :=
  match api page with
  | Furbooru.ApiResponse 200 (Some (Furbooru.DataDict _ (Some images))) => images
  | _ => []
  end.

Definition furbooru_passes (blacklist : list string) (db_file : option string)
    (ids : gset string) (item : Furbooru.image) (u : string) : Prop :=
  exists n,
    Furbooru.img_id item = Some n
    /\ Furbooru.img_full item = Some u
    /\ (forall t, t ∈ default [] (Furbooru.img_tags item) -> t ∉ blacklist)
    /\ (Py.truthy_opt db_file = true -> Py.str n ∉ ids).

(** The ids a Seen-ID file holds for the loader. *)
Definition stored_ids (w : world) (p : string) : gset string :=
  match db w !! p with
  | Some lines =>
      list_to_set (filter (fun l => Py.truthy l = true) (Py.strip <$> lines))
  | None => ∅
  end.

(** *** The Seen-ID files against the trace *)



Definition not_append (e : event) : Prop :=
  match e with EvAppend _ _ => False | _ => True end.

(** *** Further statements about the sanitizers *)

(** The name of the directory manager after the unsafe characters are
    removed and the spaces replaced, before any truncation. *)
Definition dm_clean (filename : string) : string :=
  Py.replace " " "_" (Py.remove_class DirectoryManager.unsafe_chars filename).

(** The text after the last dot, empty when there is no dot. *)
Definition extension (s : string) : string :=
  match Py.rsplit1 "." s with
  | Some (_, b) => b
  | None => EmptyString
  end.

(** *** Further statements about [BaseAsyncDownloader] *)

(** The world with another position in the proxy list. *)
Definition with_index (i : nat) (w : world) : world :=
  {| files := files w; dirs := dirs w; db := db w;
     current_proxy_index := i; trace := trace w |}.

(** [k] successive calls of [_get_proxy], results in call order. *)
Fixpoint get_proxies (self : downloader) (k : nat) : M (list (option string)) :=
  match k with
  | O => ret []
  | S k' =>
      do p <- BaseAsyncDownloader._get_proxy self ;;
      do ps <- get_proxies self k' ;;
      ret (p :: ps)
  end.

(** A downloader that rotates over three proxies. *)
Definition proxied_downloader : downloader :=
  BaseAsyncDownloader.init true (Some ["p0"; "p1"; "p2"]) true.

(** A server whose stream breaks after the first chunk. *)
Definition breaking_env : env :=
  {| http_get := fun _ _ => Some {| status := 200; chunks := ["im"]; broken := true |};
     io_ok := fun _ => true |}.

(** *** Further statements about the job queue *)

(** The tasks the application holds: the current one, then the queue. *)
Definition held_tasks (a : Gui.app) : list Gui.DownloadTask :=
  option_list (Gui.current_download_info a) ++ Gui.download_queue a.

Definition held_keys (a : Gui.app) : list (option string) :=
  Gui.get_unique_key <$> held_tasks a.

(** The downloading flag is set exactly when there is a current task. *)
Definition coherent (a : Gui.app) : Prop :=
  Gui.is_downloading a = bool_decide (is_Some (Gui.current_download_info a)).

(** The flag and the current task agree, every held task has a key and
    no two held tasks have the same key. *)
Definition well_formed (a : Gui.app) : Prop :=
  coherent a /\ Forall is_Some (held_keys a) /\ NoDup (held_keys a).

(** The core components are there when a task starts. *)
Definition ready (a : Gui.app) : bool :=
  negb (Gui.has_async_deps a && negb (Gui.config_manager a)).

(** The application as the constructor leaves it. *)
Definition initial_app (has_async_deps : bool) : Gui.app :=
  {| Gui.download_queue := []; Gui.current_download_info := None;
     Gui.is_downloading := false; Gui.has_async_deps := has_async_deps;
     Gui.config_manager := false; Gui.loop_running := false;
     Gui.gui_log := [] |}.

(** The start-up thread creates the core components and runs the
    loop; closing the window stops it. *)
Definition set_components (config_manager loop_running : bool) (a : Gui.app)
  : Gui.app :=
  {| Gui.download_queue := Gui.download_queue a;
     Gui.current_download_info := Gui.current_download_info a;
     Gui.is_downloading := Gui.is_downloading a;
     Gui.has_async_deps := Gui.has_async_deps a;
     Gui.config_manager := config_manager; Gui.loop_running := loop_running;
     Gui.gui_log := Gui.gui_log a |}.

(** One event of the application: a button of the queue panel, the end
    of a download, or a change of the components. *)
Inductive gui_step (py_int : string -> option Z) : Gui.app -> Gui.app -> Prop :=
  | step_add_to_queue ui a a' :
      Gui.add_to_queue
        (fst (Gui._create_download_task py_int (Gui.has_async_deps a) ui)) a
      = Some a' ->
      gui_step py_int a a'
  | step_start_download ui a a' notes :
      Gui.start_download
        (fst (Gui._create_download_task py_int (Gui.has_async_deps a) ui)) a
      = Some (a', notes) ->
      gui_step py_int a a'
  | step_download_completed task success a :
      gui_step py_int a
        (Gui._download_completed Gui._process_next_in_queue task success a)
  | step_clear_queue a :
      gui_step py_int a (fst (Gui.clear_queue a))
  | step_remove_selected selection a :
      gui_step py_int a (fst (Gui.remove_selected_from_queue selection a))
  | step_components config_manager loop_running a :
      gui_step py_int a (set_components config_manager loop_running a).

(** An idle application with its components ready and two tasks
    queued. *)
Definition idle_app : Gui.app :=
  {| Gui.download_queue :=
       [tags_task "1" "e621" "wolf" (Some 3);
        url_task "2" "luscious" "https://luscious.net/albums/a_1"];
     Gui.current_download_info := None;
     Gui.is_downloading := false; Gui.has_async_deps := true;
     Gui.config_manager := true; Gui.loop_running := true;
     Gui.gui_log := [] |}.

(** A [py_int] for decimal digits only, enough for the examples. *)
Definition digits_int (s : string) : option Z :=
  match s with
  | "1" => Some 1
  | "2" => Some 2
  | "3" => Some 3
  | _ => None
  end.

(** The log lines of a task that fails because the loop is not
    running. *)
Definition failed_lines (t : Gui.DownloadTask) : list Gui.gui_event :=
  [Gui.GuiStarting (Gui.set_status "downloading" t); Gui.GuiNoLoop;
   Gui.GuiFinished (Gui.set_status "failed" (Gui.set_status "downloading" t)) false].

(** The user asks for three pages of wolf from e621. *)
Definition wolf_inputs : Gui.inputs :=
  {| Gui.site_var := "e621"; Gui.url_var := EmptyString; Gui.tags_var := "wolf";
     Gui.max_pages_var := "3"; Gui.askyesno := true; Gui.uuid4 := "1" |}.

(** The application after start-up and one click on the queue button. *)
Definition started_app : Gui.app :=
  default (initial_app true)
    (Gui.add_to_queue
       (fst (Gui._create_download_task digits_int true wolf_inputs))
       (set_components true true (initial_app true))).

(** *** Example sites for the filters *)

(** A Furbooru site with the images 7 and 8 on its first page. *)
Definition furbooru_image (n : Z) (tags : list string) : Furbooru.image :=
  {| Furbooru.img_hidden_from_users := Some false;
     Furbooru.img_tags := Some tags;
     Furbooru.img_id := Some n;
     Furbooru.img_full := Some ("https://furbooru/" +:+ Py.str n +:+ ".png");
     Furbooru.img_format := Some "png" |}.

Definition furbooru_site (page : Z) : Furbooru.api_result :=
  if page =? 1
  then Furbooru.ApiResponse 200
         (Some (Furbooru.DataDict (Some 2)
                  (Some [furbooru_image 7 ["wolf"]; furbooru_image 8 ["fox"]])))
  else Furbooru.ApiResponse 200 (Some (Furbooru.DataDict (Some 0) (Some []))).

(** A world in which image 7 is recorded in the Seen-ID file of
    Furbooru. *)
Definition furbooru_seen_world : world :=
  {| files := ∅; dirs := {[ "db" ]}; db := {[ "db/furbooru.db" := ["7"] ]};
     current_proxy_index := 0; trace := [] |}.

(** A world in which post 10 is recorded in the Seen-ID file of e621. *)
Definition e621_seen_world : world :=
  {| files := ∅; dirs := {[ "db" ]}; db := {[ "db/e621.db" := ["10"] ]};
     current_proxy_index := 0; trace := [] |}.

(** *** Files that exist before a job *)





(** *** URLs the comic and album downloaders reject *)

(** The URL of the job has too few parts between slashes, or its
    fourth part names no kind of page the downloader knows. *)
Definition rejected_url (j : job) : Prop :=
  match j with
  | JobLuscious _ _ _ _ url _ =>
      (length (Py.split "/" url) < 6)%nat
      \/ Py.split "/" url !! 3%nat
         ∉ [Some "pictures"; Some "album"; Some "albums"]
  | JobYiffer _ unquote _ _ url _ =>
      (length (Py.split "/" (unquote url)) < 4)%nat
  | JobMultporn _ _ _ _ _ _ _ url _ =>
      (length (Py.split "/" url) < 5)%nat
      \/ (exists type_category,
            Py.split "/" url !! 3%nat = Some type_category
            /\ type_category
               ∉ ["comics"; "hentai_manga"; "gay_porn_comics"; "gif"; "humor";
                  "pictures"; "hentai"; "rule_63"; "games"])
  | _ => False
  end.

(** The event is a progress message. *)
Definition is_message (e : event) : Prop :=
  match e with EvNotify _ => True | _ => False end.

(** A Multporn job for a video page. *)
Definition multporn_video_job : job :=
  JobMultporn (constant_env 200 "img") (fun _ => None) (fun _ => None)
    (fun _ => None) (fun _ => None) (fun _ => None) plain_downloader
    "https://multporn.net/video/some_title" "media".

(** *** Where a tag search ends *)

(** The answer for a page ends the loop of the e621 family: the
    request fails, the status is not 200, the body does not decode to
    an object, it carries the page-750 message, or it has no posts. *)
Definition e621_last (r : E621.api_result) : Prop :=
  match r with
  | E621.ApiResponse code (Some (E621.DataDict message posts)) =>
      code <> 200
      \/ E621.is_api_limit (E621.DataDict message posts) = true
      \/ default [] posts = []
  | _ => True
  end.

(** The same for Furbooru: a failure, or a total of 0. *)
Definition furbooru_last (r : Furbooru.api_result) : Prop :=
  match r with
  | Furbooru.ApiResponse code (Some (Furbooru.DataDict total images)) =>
      code <> 200 \/ default 0 total = 0
  | _ => True
  end.

(** The same for rule34: a failure, a body that is no list, or a list
    of fewer than 1000 posts. *)
Definition rule34_last (r : option Rule34.data) : Prop :=
  match r with
  | Some (Rule34.DataList items) => (length items < 1000)%nat
  | _ => True
  end.

(** Page [n] of the site of a tag search ends its loop. *)
Definition ends_at (j : job) (n : Z) : Prop :=
  match j with
  | JobE621 _ api _ _ _ _ _ _ _ _ _ _ => e621_last (api n)
  | JobFurbooru _ api _ _ _ _ _ _ _ => furbooru_last (api n)
  | JobRule34 _ api _ _ _ _ _ => rule34_last (api n)
  | _ => False
  end.

(** *** Example environment for the proxy manager *)

(** The first source lists two proxies (one of them twice), the other
    sources fail; only the proxy 1.1.1.1:80 answers the test. *)
Definition proxy_env : env :=
  {| http_get := fun proxy u =>
       match proxy with
       | None =>
           if bool_decide
                (u = "https://raw.githubusercontent.com/TheSpeedX/SOCKS-List/master/http.txt")
           then Some {| status := 200;
                        chunks := ["1.1.1.1:80 2.2.2.2:80"; " 1.1.1.1:80"];
                        broken := false |}
           else None
       | Some p =>
           if bool_decide (p = "1.1.1.1:80")
           then Some {| status := 200; chunks := []; broken := false |}
           else None
       end;
     io_ok := fun _ => true |}.

(** *** Example environment for the config manager *)

(** A serializer that knows the default config only. *)
Definition toy_dumps (c : ConfigManager.json) : string := "defaults".

Definition toy_loads (s : string) : ConfigManager.json + exn :=
  if bool_decide (s = "defaults") then inl ConfigManager.default_config
  else inr JSONDecodeError.

(** Text is valid when it holds no byte above 127. *)
Fixpoint toy_valid_text (s : string) : bool :=
  match s with
  | EmptyString => true
  | String c s' => (nat_of_ascii c <? 128)%nat && toy_valid_text s'
  end.

(** A world whose config file does not decode. *)
Definition corrupt_config_world : world :=
  {| files := {[ "config.json" := "{oops" ]}; dirs := ∅; db := ∅;
     current_proxy_index := 0; trace := [] |}.

(** A world whose config file holds a byte that is not text. *)
Definition binary_config_world : world :=
  {| files := {[ "config.json" := String (ascii_of_nat 255) "{}" ]};
     dirs := ∅; db := ∅; current_proxy_index := 0; trace := [] |}.

(** *** Callbacks of the run functions *)

(** The callback of a downloader of the model: configured or not, a
    call of it returns. *)
Definition returning_callback (self : downloader) : option callback :=
  if progress_callback self then Some (fun _ => ret tt) else None.

(** A callback that fails on an error message, as the callback of the
    GUI does once its window is gone ([root.after] raises). *)
Definition failing_callback : callback :=
  fun m =>
    match m with
    | MsgError _ => raise (TypeError "callback")
    | _ => ret tt
    end.

(** The claim on the handler, for any callback: when an exception
    escapes the [try] block, the run function returns [False]. *)
Definition exception_reported_claim : Prop :=
  forall (cb : option callback) (try_block : M bool) (w w1 : world) (e : exn),
    try_block w = (w1, Raise e) ->
    snd (run_function cb try_block w) = Val false.

(** A Furbooru site that reports a total of 5 on every page and lists
    no image. *)
Definition empty_listing (page : Z) : Furbooru.api_result :=
  Furbooru.ApiResponse 200 (Some (Furbooru.DataDict (Some 5) (Some []))).

(** *** A directory that cannot be created *)




(** * Properties *)

(** ** Strings *)

Section StringFacts.

Lemma mem_char_InStr c s : Py.mem_char c s = true <-> Py.InStr c s.
Proof.
  induction s as [|d s IH]; simpl.
  - split; [discriminate | tauto].
  - destruct (decide (c = d)) as [->|Hne].
    + split; auto.
    + rewrite IH. split; [auto | intros [?|?]; [contradiction | assumption]].
Qed.

Lemma InStr_append c a b :
  Py.InStr c (a +:+ b) <-> Py.InStr c a \/ Py.InStr c b.
Proof.
  induction a as [|d a IH]; simpl.
  - tauto.
  - rewrite IH. tauto.
Qed.

Lemma InStr_replace x old new s :
  Py.InStr x (Py.replace old new s) ->
  Py.InStr x new \/ (Py.InStr x s /\ x <> old).
Proof.
  induction s as [|d s IH]; simpl; [tauto|].
  destruct (decide (d = old)) as [->|Hne].
  - rewrite InStr_append. intros [H|H]; [auto|].
    destruct (IH H) as [?|[? ?]]; auto.
  - simpl. intros [->|H]; [right; auto|].
    destruct (IH H) as [?|[? ?]]; auto.
Qed.

Lemma InStr_lstrip x p s : Py.InStr x (Py.lstrip_by p s) -> Py.InStr x s.
Proof.
  induction s as [|d s IH]; simpl; [tauto|].
  destruct (p d); simpl; auto.
Qed.

Lemma InStr_rstrip x p s : Py.InStr x (Py.rstrip_by p s) -> Py.InStr x s.
Proof.
  induction s as [|d s IH]; simpl; [tauto|].
  destruct (Py.rstrip_by p s) as [|e r] eqn:Hr.
  - destruct (p d); simpl; tauto.
  - simpl. intros [?|H]; [auto|]. right. apply IH. exact H.
Qed.

Lemma InStr_remove_class x cls s :
  Py.InStr x (Py.remove_class cls s) -> Py.InStr x s /\ x ∉ cls.
Proof.
  induction s as [|d s IH]; simpl; [tauto|].
  destruct (decide (d ∈ cls)) as [Hin|Hnin].
  - intros H. destruct (IH H). auto.
  - simpl. intros [->|H]; [auto|]. destruct (IH H). auto.
Qed.

Lemma InStr_take x n s : Py.InStr x (Py.take n s) -> Py.InStr x s.
Proof.
  revert s. induction n as [|n IH]; intros [|d s]; simpl; try tauto.
  intros [?|H]; auto.
Qed.

Lemma length_take n s : (String.length (Py.take n s) <= n)%nat.
Proof.
  revert s. induction n as [|n IH]; intros [|d s]; simpl; try lia.
  specialize (IH s). lia.
Qed.

Lemma InStr_slice_to x n s : Py.InStr x (Py.slice_to n s) -> Py.InStr x s.
Proof. unfold Py.slice_to. destruct (n <? 0); apply InStr_take. Qed.

Lemma InStr_rsplit1 sep s a b :
  Py.rsplit1 sep s = Some (a, b) ->
  forall x, Py.InStr x a \/ Py.InStr x b -> Py.InStr x s.
Proof.
  revert a b. induction s as [|d s IH]; simpl; intros a b; [discriminate|].
  destruct (Py.rsplit1 sep s) as [[a' b']|] eqn:Hs.
  - intros [= <- <-] x [[?|H]|H]; simpl; auto.
    + right. eapply IH; eauto.
    + right. eapply IH; eauto.
  - destruct (decide (d = sep)); [|discriminate].
    intros [= <- <-] x [[]|H]. auto.
Qed.

(** Replacing one character by an underscore keeps the length. *)
Lemma length_replace_char old s :
  String.length (Py.replace old "_" s) = String.length s.
Proof.
  induction s as [|d s IH]; simpl; [reflexivity|].
  destruct (decide (d = old)).
  - change (S (String.length (Py.replace old "_" s)) = S (String.length s)).
    rewrite IH; reflexivity.
  - simpl. rewrite IH; reflexivity.
Qed.

Lemma truthy_nonempty s : Py.truthy s = true <-> s <> EmptyString.
Proof. destruct s; simpl; split; intros; congruence. Qed.

End StringFacts.

(** ** The sanitizers *)

Section Sanitizers.

Lemma underscore_only x : Py.InStr x "_" -> x = "_"%char.
Proof. simpl. tauto. Qed.

Lemma replace_removes old s :
  old <> "_"%char -> ~ Py.InStr old (Py.replace old "_" s).
Proof.
  intros Hne H. apply InStr_replace in H as [H|[_ H]]; [|congruence].
  apply underscore_only in H. congruence.
Qed.

Lemma replace_keeps_absent x old s :
  x <> "_"%char -> ~ Py.InStr x s -> ~ Py.InStr x (Py.replace old "_" s).
Proof.
  intros Hne Hs H. apply InStr_replace in H as [H|[H _]]; [|contradiction].
  apply underscore_only in H. congruence.
Qed.

Lemma fold_replace_keeps_absent x l s :
  x <> "_"%char -> ~ Py.InStr x s ->
  ~ Py.InStr x (fold_left (fun acc ch => Py.replace ch "_" acc) l s).
Proof.
  intros Hne. revert s. induction l as [|ch l IH]; simpl; intros s Hs; [exact Hs|].
  apply IH. apply replace_keeps_absent; assumption.
Qed.

Lemma fold_replace_removes l s :
  (forall c, c ∈ l -> c <> "_"%char) ->
  forall c, c ∈ l ->
    ~ Py.InStr c (fold_left (fun acc ch => Py.replace ch "_" acc) l s).
Proof.
  revert s. induction l as [|ch l IH]; simpl; intros s Hl c Hc.
  - inversion Hc.
  - apply elem_of_cons in Hc as [->|Hc].
    + apply fold_replace_keeps_absent.
      * apply Hl. left.
      * apply replace_removes. apply Hl. left.
    + apply IH; [|exact Hc]. intros d Hd. apply Hl. right. exact Hd.
Qed.

Lemma base_unsafe_not_underscore c :
  c ∈ Base.unsafe_chars -> c <> "_"%char.
Proof.
  intros Hc ->. revert Hc.
  apply (bool_decide_unpack ("_"%char ∉ Base.unsafe_chars)). vm_compute. exact I.
Qed.

Lemma dm_unsafe_not_underscore c :
  c ∈ DirectoryManager.unsafe_chars -> c <> "_"%char.
Proof.
  intros Hc ->. revert Hc.
  apply (bool_decide_unpack ("_"%char ∉ DirectoryManager.unsafe_chars)).
  vm_compute. exact I.
Qed.

Lemma absent_from_literal (l : list ascii) (lit : string) :
  Forall (fun c => Py.mem_char c lit = false) l ->
  forall c, c ∈ l -> ~ Py.InStr c lit.
Proof.
  intros Hall c Hc H. apply mem_char_InStr in H.
  rewrite Forall_forall in Hall. specialize (Hall c Hc). congruence.
Qed.

Lemma base_unsafe_not_in_unnamed c :
  c ∈ Base.unsafe_chars -> ~ Py.InStr c "unnamed".
Proof.
  apply absent_from_literal.
  apply (bool_decide_unpack _). vm_compute. exact I.
Qed.

Lemma dm_unsafe_not_in_unnamed c :
  c ∈ DirectoryManager.unsafe_chars -> ~ Py.InStr c "unnamed".
Proof.
  apply absent_from_literal.
  apply (bool_decide_unpack _). vm_compute. exact I.
Qed.

End Sanitizers.

Section SanitizerResults.

Lemma base_sanitize_safe s :
  (forall c, c ∈ Base.unsafe_chars -> ~ Py.InStr c (Base.sanitize_filename s))
  /\ ~ Py.InStr " "%char (Base.sanitize_filename s)
  /\ Base.sanitize_filename s <> EmptyString.
Proof.
  unfold Base.sanitize_filename.
  set (folded := fold_left (fun acc ch => Py.replace ch "_" acc) Base.unsafe_chars s).
  set (stripped := Py.strip_chars ". " (Py.replace " " "_" folded)).
  assert (Hsub : forall x, Py.InStr x stripped ->
                           Py.InStr x (Py.replace " " "_" folded)).
  { intros x Hx. unfold stripped, Py.strip_chars in Hx.
    apply InStr_lstrip, InStr_rstrip in Hx. exact Hx. }
  destruct (Py.truthy stripped) eqn:Ht.
  - split; [|split].
    + intros c Hc Hin. apply Hsub in Hin. revert Hin.
      apply replace_keeps_absent; [apply base_unsafe_not_underscore, Hc|].
      apply fold_replace_removes; [apply base_unsafe_not_underscore | exact Hc].
    + intros Hin. apply Hsub in Hin. revert Hin.
      apply replace_removes. discriminate.
    + apply truthy_nonempty. exact Ht.
  - split; [|split].
    + apply base_unsafe_not_in_unnamed.
    + simpl. intros H. repeat destruct H as [H|H]; try discriminate H. exact H.
    + discriminate.
Qed.

Lemma folder_name_safe s :
  (forall c, c ∈ DirectoryManager.unsafe_chars ->
             ~ Py.InStr c (DirectoryManager.create_folder_name s))
  /\ ~ Py.InStr " "%char (DirectoryManager.create_folder_name s)
  /\ (String.length (DirectoryManager.create_folder_name s) <= 90)%nat.
Proof.
  unfold DirectoryManager.create_folder_name,
    DirectoryManager._replace_spaces_with_underscores,
    DirectoryManager._sanitize_folder_name.
  set (clean := Py.remove_class DirectoryManager.unsafe_chars s).
  assert (Htr : forall x, Py.InStr x (DirectoryManager._truncate_folder_name clean) ->
                          Py.InStr x clean).
  { intros x. unfold DirectoryManager._truncate_folder_name.
    destruct (_ <? _)%nat; [apply InStr_take | auto]. }
  split; [|split].
  - intros c Hc. apply replace_keeps_absent; [apply dm_unsafe_not_underscore, Hc|].
    intros Hin. apply Htr, InStr_remove_class in Hin as [_ Hn]. contradiction.
  - apply replace_removes. discriminate.
  - rewrite length_replace_char. unfold DirectoryManager._truncate_folder_name.
    destruct (_ <? _)%nat eqn:Hlt.
    + apply length_take.
    + apply Nat.ltb_ge in Hlt. exact Hlt.
Qed.

Lemma dm_sanitize_safe s :
  (forall c, c ∈ DirectoryManager.unsafe_chars ->
             ~ Py.InStr c (DirectoryManager.sanitize_filename s))
  /\ ~ Py.InStr " "%char (DirectoryManager.sanitize_filename s)
  /\ DirectoryManager.sanitize_filename s <> EmptyString.
Proof.
  unfold DirectoryManager.sanitize_filename.
  set (clean := Py.replace " " "_" (Py.remove_class DirectoryManager.unsafe_chars s)).
  assert (Hclean : forall x, Py.InStr x clean ->
            (x ∉ DirectoryManager.unsafe_chars) /\ x <> " "%char).
  { intros x Hx. split.
    - intros Hc. revert Hx.
      apply replace_keeps_absent; [apply dm_unsafe_not_underscore, Hc|].
      intros Hin. apply InStr_remove_class in Hin as [_ Hn]. contradiction.
    - intros ->. revert Hx. apply replace_removes. discriminate. }
  set (cut := if (200 <? String.length clean)%nat then _ else clean).
  assert (Hcut : forall x, Py.InStr x cut ->
            (x ∉ DirectoryManager.unsafe_chars) /\ x <> " "%char).
  { intros x. unfold cut. destruct (_ <? _)%nat; [|apply Hclean].
    destruct (Py.rsplit1 "." clean) as [[name_part ext_part]|] eqn:Hsp.
    - rewrite InStr_append. intros [Hx|Hx].
      + apply InStr_slice_to in Hx. apply Hclean.
        eapply InStr_rsplit1; eauto.
      + destruct (Py.truthy ext_part); [|destruct Hx].
        simpl in Hx. destruct Hx as [->|Hx].
        * split; [|discriminate].
          apply (bool_decide_unpack _). vm_compute. exact I.
        * apply Hclean. eapply InStr_rsplit1; eauto.
    - simpl. rewrite InStr_append. intros [Hx|[]].
      apply InStr_slice_to in Hx. apply Hclean, Hx. }
  destruct (negb (Py.truthy cut) || bool_decide (cut = "."))%bool eqn:Hg.
  - split; [|split].
    + apply dm_unsafe_not_in_unnamed.
    + simpl. intros H. repeat destruct H as [H|H]; try discriminate H. exact H.
    + discriminate.
  - apply orb_false_iff in Hg as [Hg _]. apply negb_false_iff in Hg.
    split; [|split].
    + intros c Hc Hin. apply Hcut in Hin as [Hn _]. contradiction.
    + intros Hin. apply Hcut in Hin as [_ Hn]. congruence.
    + apply truthy_nonempty. exact Hg.
Qed.

Lemma replace_letters c n :
  c <> "a"%char -> Py.replace c "_" (letters n) = letters n.
Proof.
  intros Hc. induction n as [|n IH]; simpl; [reflexivity|].
  destruct (decide ("a"%char = c)); [congruence|]. rewrite IH. reflexivity.
Qed.

Lemma rstrip_letters p n :
  p "a"%char = false -> Py.rstrip_by p (letters n) = letters n.
Proof.
  intros Hp. induction n as [|k IH]; simpl; [reflexivity|].
  rewrite IH. destruct k; simpl; rewrite ?Hp; reflexivity.
Qed.

(** The base sanitizer returns long names unchanged: no bound holds. *)
Lemma base_sanitize_letters n :
  (0 < n)%nat -> Base.sanitize_filename (letters n) = letters n.
Proof.
  intros Hn. unfold Base.sanitize_filename.
  assert (Hfold : forall l, Forall (fun c => c <> "a"%char) l ->
            fold_left (fun acc ch => Py.replace ch "_" acc) l (letters n) = letters n).
  { induction l as [|c l IH]; simpl; [reflexivity|].
    intros Hl. apply Forall_cons in Hl as [Hc Hl].
    rewrite replace_letters by exact Hc. auto. }
  rewrite Hfold by (apply (bool_decide_unpack _); vm_compute; exact I).
  rewrite replace_letters by discriminate.
  unfold Py.strip_chars. rewrite rstrip_letters by reflexivity.
  destruct n; [lia|]. reflexivity.
Qed.

Lemma length_letters n : String.length (letters n) = n.
Proof. induction n; simpl; congruence. Qed.

Lemma base_sanitize_unbounded :
  ~ exists bound, forall s,
      (String.length (Base.sanitize_filename s) <= bound)%nat.
Proof.
  intros [bound H]. specialize (H (letters (S bound))).
  rewrite base_sanitize_letters, length_letters in H; lia.
Qed.

End SanitizerResults.

(** C9, as amended: for every input string,
    [BaseAsyncDownloader.sanitize_filename] returns a non-empty name
    without any of its unsafe characters and without spaces; the folder
    name computed by [create_folder] has none of the directory
    manager's unsafe characters, no spaces and at most 90 characters;
    [AsyncDirectoryManager.sanitize_filename] returns a non-empty name
    without those characters and without spaces.  (The base sanitizer
    has no length bound and the folder name can be empty.) *)
Theorem C9_sanitizers_safe (s : string) :
  ((forall c, c ∈ Base.unsafe_chars -> ~ Py.InStr c (Base.sanitize_filename s))
   /\ ~ Py.InStr " "%char (Base.sanitize_filename s)
   /\ Base.sanitize_filename s <> EmptyString)
  /\ ((forall c, c ∈ DirectoryManager.unsafe_chars ->
                 ~ Py.InStr c (DirectoryManager.create_folder_name s))
      /\ ~ Py.InStr " "%char (DirectoryManager.create_folder_name s)
      /\ (String.length (DirectoryManager.create_folder_name s) <= 90)%nat)
  /\ ((forall c, c ∈ DirectoryManager.unsafe_chars ->
                 ~ Py.InStr c (DirectoryManager.sanitize_filename s))
      /\ ~ Py.InStr " "%char (DirectoryManager.sanitize_filename s)
      /\ DirectoryManager.sanitize_filename s <> EmptyString).
Proof.
  split; [apply base_sanitize_safe|].
  split; [apply folder_name_safe | apply dm_sanitize_safe].
Qed.

(** C9 as stated fails: the folder name of the one-character input "?"
    is empty, and the base sanitizer returns a name of 300 letters
    unchanged, so it has no length bound. *)
Lemma C9_sanitizer_claim_fails :
  DirectoryManager.create_folder_name "?" = EmptyString
  /\ String.length (Base.sanitize_filename (letters 300)) = 300%nat
  /\ ~ sanitizer_claim.
Proof.
  split; [reflexivity|]. split; [vm_compute; reflexivity|].
  intros [_ Hfolder]. destruct (Hfolder "?") as (_ & _ & Hne & _).
  apply Hne. reflexivity.
Qed.

(** ** [download_file] *)

Section DownloadFile.
Variable E : env.
Variable self : downloader.

Lemma same_storage_refl w : same_storage w w.
Proof. repeat split. Qed.

Lemma same_storage_trans w1 w2 w3 :
  same_storage w1 w2 -> same_storage w2 w3 -> same_storage w1 w3.
Proof. unfold same_storage. intros (?&?&?) (?&?&?). repeat split; congruence. Qed.

Lemma notify_storage m w :
  exists w', BaseAsyncDownloader.notify self m w = (w', Val tt)
             /\ same_storage w w'
             /\ current_proxy_index w' = current_proxy_index w.
Proof.
  unfold BaseAsyncDownloader.notify, when. destruct (progress_callback self).
  - eexists; split; [reflexivity|]. repeat split.
  - eexists; split; [reflexivity|]. repeat split.
Qed.

Lemma get_proxy_index w w1 :
  current_proxy_index w1 = current_proxy_index w ->
  snd (BaseAsyncDownloader._get_proxy self w1)
  = snd (BaseAsyncDownloader._get_proxy self w).
Proof.
  intros Hi. unfold BaseAsyncDownloader._get_proxy.
  destruct (_ || _)%bool; simpl; [reflexivity|]. rewrite Hi. reflexivity.
Qed.

Lemma get_proxy_storage w :
  exists w' p, BaseAsyncDownloader._get_proxy self w = (w', Val p)
               /\ same_storage w w' /\ trace w' = trace w.
Proof.
  unfold BaseAsyncDownloader._get_proxy.
  destruct (_ || _)%bool; do 2 eexists; (split; [reflexivity|]); repeat split.
Qed.

End DownloadFile.

(** C10: when [download_file] receives a response whose status is not
    200 it returns [False], and the files, the directories and the
    Seen-ID files are the same as before the call. *)
Theorem C10_download_file_non200 (E : env) (self : downloader)
    (url file_path progress_info : string) (w : world)
    (proxy : option string) (r : response) :
  snd (BaseAsyncDownloader._get_proxy self w) = Val proxy ->
  http_get E proxy url = Some r ->
  status r <> 200 ->
  snd (BaseAsyncDownloader.download_file E self url file_path progress_info w)
    = Val false
  /\ files (fst (BaseAsyncDownloader.download_file E self url file_path progress_info w))
     = files w
  /\ dirs (fst (BaseAsyncDownloader.download_file E self url file_path progress_info w))
     = dirs w.
Proof.
  intros Hp Hget Hst.
  unfold BaseAsyncDownloader.download_file, try_except, bind.
  destruct (notify_storage self (MsgDownloading progress_info) w)
    as (w1 & -> & Hs1 & Hi).
  assert (Hp1 : snd (BaseAsyncDownloader._get_proxy self w1) = Val proxy).
  { rewrite (get_proxy_index self w w1 Hi). exact Hp. }
  destruct (get_proxy_storage self w1) as (w2 & p & Hgp & Hs2 & _).
  rewrite Hgp in Hp1 |- *. simpl in Hp1. injection Hp1 as ->.
  unfold BaseAsyncDownloader.session_get, bind, emit. simpl.
  rewrite Hget. unfold ret.
  apply Z.eqb_neq in Hst. rewrite Hst. simpl.
  destruct Hs1 as (?&?&?), Hs2 as (?&?&?). repeat split; congruence.
Qed.

(** C10 at a server that answers 404. *)
Lemma C10_download_file_non200_witness :
  snd (BaseAsyncDownloader.download_file (constant_env 404 "gone") plain_downloader
         "http://h/1.png" "media/x/1.png" "one" empty_world) = Val false
  /\ files (fst (BaseAsyncDownloader.download_file (constant_env 404 "gone")
                   plain_downloader "http://h/1.png" "media/x/1.png" "one" empty_world))
     = files empty_world
  /\ dirs (fst (BaseAsyncDownloader.download_file (constant_env 404 "gone")
                  plain_downloader "http://h/1.png" "media/x/1.png" "one" empty_world))
     = dirs empty_world.
Proof.
  apply (C10_download_file_non200 (constant_env 404 "gone") plain_downloader
           "http://h/1.png" "media/x/1.png" "one" empty_world None
           {| status := 404; chunks := ["gone"]; broken := false |}).
  - reflexivity.
  - reflexivity.
  - simpl. lia.
Defined.

(** With status 200 the parent directory and the file are made. *)
Example download_file_200 :
  let w := fst (BaseAsyncDownloader.download_file (constant_env 200 "img")
                  plain_downloader "http://h/1.png" "media/x/1.png" "one" empty_world) in
  files w !! "media/x/1.png" = Some "img" /\ "media/x" ∈ dirs w.
Proof. split; vm_compute; reflexivity. Qed.

(** ** The job queue *)

Section Queue.
Import Gui.

Lemma drain_app q temp_items : drain q temp_items = temp_items ++ q.
Proof.
  revert temp_items. induction q as [|item q IH]; intros temp_items; simpl.
  - rewrite app_nil_r. reflexivity.
  - rewrite IH, <- app_assoc. reflexivity.
Qed.

Lemma set_queue_same a : set_queue (download_queue a) a = a.
Proof. destruct a; reflexivity. Qed.

Lemma update_queue_display_id a : update_queue_display a = a.
Proof. unfold update_queue_display. rewrite drain_app. apply set_queue_same. Qed.

Lemma task_eq_keys new t k1 k2 :
  get_unique_key new = Some k1 -> get_unique_key t = Some k2 ->
  task_eq new t = Some (bool_decide (k1 = k2)).
Proof. intros H1 H2. unfold task_eq. rewrite H1, H2. reflexivity. Qed.

(** On keyed tasks the draining loop puts every item back in order and
    answers whether some item has the key of the new task. *)
Lemma scan_keyed new k q temp_items is_duplicate :
  get_unique_key new = Some k ->
  Forall (fun t => is_Some (get_unique_key t)) q ->
  scan new q temp_items is_duplicate
  = Some (temp_items ++ q,
          (is_duplicate
           || existsb (fun t => bool_decide (get_unique_key t = Some k)) q)%bool).
Proof.
  intros Hk. revert temp_items is_duplicate.
  induction q as [|item q IH]; intros temp_items is_duplicate Hq; simpl.
  - rewrite app_nil_r, orb_false_r. reflexivity.
  - apply Forall_cons in Hq as [[k2 Hi] Hq].
    rewrite (task_eq_keys new item k k2 Hk Hi), IH by exact Hq.
    rewrite <- app_assoc. simpl. f_equal. f_equal.
    rewrite Hi. destruct (decide (k = k2)) as [->|Hne].
    + rewrite !bool_decide_eq_true_2 by reflexivity.
      simpl. rewrite orb_true_r. reflexivity.
    + rewrite (bool_decide_eq_false_2 (k = k2)) by exact Hne.
      rewrite (bool_decide_eq_false_2 (Some k2 = Some k)) by congruence.
      reflexivity.
Qed.







End Queue.




(** ** Effects of the monadic operations *)

Section Effects.
Variable P : event -> Prop.
Hypothesis P_notify : forall m, P (EvNotify m).
Hypothesis P_write : forall p, P (EvWrite p).
Hypothesis P_append : forall p l, P (EvAppend p l).

Lemma calm_emits {A} (m : M A) : calm P m -> emits P m.
Proof. intros H w. apply H. Qed.

Lemma calm_ret {A} (a : A) : calm P (ret a).
Proof.
  intros w. split; [|discriminate]. exists []. simpl.
  rewrite app_nil_r. auto.
Qed.

Lemma calm_raise {A} (e : exn) : calm P (@raise A e).
Proof.
  intros w. split; [|discriminate]. exists []. simpl.
  rewrite app_nil_r. auto.
Qed.

Lemma calm_bind {A B} (m : M A) (k : A -> M B) :
  calm P m -> (forall a, calm P (k a)) -> calm P (bind m k).
Proof.
  intros Hm Hk w. unfold bind.
  destruct (Hm w) as [(t & Ht & HP) Hto].
  destruct (m w) as [w1 [a|e|]] eqn:Hmw; simpl in *.
  - destruct (Hk a w1) as [(t2 & Ht2 & HP2) Hto2]. split; [|exact Hto2].
    exists (t ++ t2). rewrite Ht2, Ht, app_assoc. split; [reflexivity|].
    apply Forall_app; auto.
  - split; [eauto | discriminate].
  - congruence.
Qed.

Lemma calm_try_except {A} (m : M A) (h : exn -> M A) :
  calm P m -> (forall e, calm P (h e)) -> calm P (try_except m h).
Proof.
  intros Hm Hh w. unfold try_except.
  destruct (Hm w) as [(t & Ht & HP) Hto].
  destruct (m w) as [w1 [a|e|]] eqn:Hmw; simpl in *.
  - split; [eauto | discriminate].
  - destruct (Hh e w1) as [(t2 & Ht2 & HP2) Hto2]. split; [|exact Hto2].
    exists (t ++ t2). rewrite Ht2, Ht, app_assoc. split; [reflexivity|].
    apply Forall_app; auto.
  - congruence.
Qed.

Lemma calm_emit (e : event) : P e -> calm P (emit e).
Proof.
  intros He w. split; [|discriminate]. exists [e]. simpl. auto.
Qed.

Lemma calm_when (b : bool) (m : M unit) : calm P m -> calm P (when b m).
Proof. intros Hm. destruct b; [exact Hm | apply calm_ret]. Qed.

Lemma calm_notify self m : calm P (BaseAsyncDownloader.notify self m).
Proof. apply calm_when, calm_emit, P_notify. Qed.

Lemma calm_silent {A} (m : M A) :
  (forall w, trace (fst (m w)) = trace w /\ snd (m w) <> Timeout) -> calm P m.
Proof.
  intros H w. destruct (H w) as [Ht Hto]. split; [|exact Hto].
  exists []. rewrite app_nil_r. auto.
Qed.

Lemma calm_mkdir E p : calm P (mkdir E p).
Proof.
  apply calm_silent. intros w. unfold mkdir.
  destruct (io_ok E p); simpl; split; auto; discriminate.
Qed.

Lemma calm_write_file E p content : calm P (write_file E p content).
Proof.
  intros w. unfold write_file. destruct (io_ok E p); simpl.
  - split; [|discriminate]. exists [EvWrite p]. auto.
  - split; [|discriminate]. exists []. rewrite app_nil_r. auto.
Qed.

Lemma calm_append_line E p line : calm P (append_line E p line).
Proof.
  intros w. unfold append_line. destruct (io_ok E p); simpl.
  - split; [|discriminate]. exists [EvAppend p line]. auto.
  - split; [|discriminate]. exists []. rewrite app_nil_r. auto.
Qed.

Lemma calm_exists_file p : calm P (exists_file p).
Proof. apply calm_silent. intros w. simpl. split; [reflexivity | discriminate]. Qed.

Lemma calm_load_ids E p : calm P (load_ids E p).
Proof.
  apply calm_silent. intros w. unfold load_ids.
  destruct (db w !! p); [destruct (io_ok E p)|]; simpl; split; auto; discriminate.
Qed.

Lemma calm_get_proxy self : calm P (BaseAsyncDownloader._get_proxy self).
Proof.
  apply calm_silent. intros w. unfold BaseAsyncDownloader._get_proxy.
  destruct (_ || _)%bool; simpl; split; auto; discriminate.
Qed.

Lemma calm_download_file E self url file_path progress_info :
  P (EvGet url) ->
  calm P (BaseAsyncDownloader.download_file E self url file_path progress_info).
Proof.
  intros Hget. unfold BaseAsyncDownloader.download_file.
  apply calm_try_except; [|intros; apply calm_ret].
  apply calm_bind; [apply calm_notify | intros _].
  apply calm_bind; [apply calm_get_proxy | intros proxy].
  apply calm_bind.
  - unfold BaseAsyncDownloader.session_get.
    apply calm_bind; [apply calm_emit, Hget | intros _].
    destruct (http_get E proxy url); [apply calm_ret | apply calm_raise].
  - intros response. destruct (status response =? 200); [|apply calm_ret].
    apply calm_bind; [apply calm_mkdir | intros _].
    apply calm_bind; [apply calm_write_file | intros _].
    destruct (broken response); [apply calm_raise | apply calm_ret].
Qed.

End Effects.

(** Steps through a computation built from the operations above. *)
Ltac calm_step :=
  first
    [ apply calm_ret | apply calm_raise | apply calm_notify
    | apply calm_mkdir | apply calm_write_file | apply calm_append_line
    | apply calm_exists_file | apply calm_load_ids | apply calm_get_proxy
    | apply calm_when
    | apply calm_bind; [|intros ?]
    | apply calm_try_except; [|intros ?]
    | match goal with
      | |- calm _ (if ?b then _ else _) => destruct b
      | |- calm _ (match ?x with _ => _ end) => destruct x
      end ].

Ltac calm_auto := repeat (calm_step; auto).

(** ** Page fetches *)

Section Fetches.

Lemma page_fetches_app t1 t2 :
  page_fetches (t1 ++ t2) = (page_fetches t1 + page_fetches t2)%nat.
Proof. unfold page_fetches. rewrite filter_app, length_app. reflexivity. Qed.

Lemma page_fetches_quiet t : Forall not_page t -> page_fetches t = 0%nat.
Proof.
  unfold page_fetches. induction 1 as [|e t He _ IH]; [reflexivity|].
  rewrite filter_cons. unfold not_page in He.
  destruct (decide (is_page e)) as [Hd|Hd]; [|exact IH].
  rewrite He in Hd. destruct Hd.
Qed.

Lemma calm_fetches {A} (m : M A) : calm not_page m -> fetches_within 0 m.
Proof.
  intros H w. destruct (H w) as [(t & Ht & HP) Hto]. split; [|exact Hto].
  rewrite Ht, page_fetches_app, (page_fetches_quiet t HP). lia.
Qed.

Lemma fetches_within_mono {A} (m : M A) a b :
  (a <= b)%nat -> fetches_within a m -> fetches_within b m.
Proof. intros Hab H w. destruct (H w). split; [lia | assumption]. Qed.

Lemma fetches_within_bind {A B} (m : M A) (k : A -> M B) a b :
  fetches_within a m -> (forall x, fetches_within b (k x)) ->
  fetches_within (a + b) (bind m k).
Proof.
  intros Hm Hk w. unfold bind. destruct (Hm w) as [Hn Hto].
  destruct (m w) as [w1 [x|e|]]; simpl in *.
  - destruct (Hk x w1). split; [lia | assumption].
  - split; [lia | discriminate].
  - congruence.
Qed.

Lemma fetches_bind {A B} (m : M A) (k : A -> M B) n a b :
  (a + b <= n)%nat ->
  fetches_within a m -> (forall x, fetches_within b (k x)) ->
  fetches_within n (bind m k).
Proof.
  intros Hn Hm Hk. eapply fetches_within_mono; [exact Hn|].
  apply fetches_within_bind; assumption.
Qed.

Lemma fetches_within_try {A} (m : M A) (h : exn -> M A) a :
  fetches_within a m -> (forall e, fetches_within 0 (h e)) ->
  fetches_within a (try_except m h).
Proof.
  intros Hm Hh w. unfold try_except. destruct (Hm w) as [Hn Hto].
  destruct (m w) as [w1 [x|e|]]; simpl in *.
  - split; [lia | discriminate].
  - destruct (Hh e w1). split; [lia | assumption].
  - congruence.
Qed.

Lemma fetches_emit_page page : fetches_within 1 (emit (EvPage page)).
Proof.
  intros w. simpl. split; [|discriminate].
  rewrite page_fetches_app. change (page_fetches [EvPage page]) with 1%nat. lia.
Qed.

Lemma not_page_notify m : not_page (EvNotify m).
Proof. reflexivity. Qed.
Lemma not_page_write p : not_page (EvWrite p).
Proof. reflexivity. Qed.
Lemma not_page_append p l : not_page (EvAppend p l).
Proof. reflexivity. Qed.
Lemma not_page_get u : not_page (EvGet u).
Proof. reflexivity. Qed.

End Fetches.

#[local] Hint Resolve not_page_notify not_page_write not_page_append not_page_get
  : core.

(** ** The item loops emit what the items allow *)

Section ItemLoops.
Variable P : event -> Prop.
Hypothesis P_notify : forall m, P (EvNotify m).
Hypothesis P_write : forall p, P (EvWrite p).
Hypothesis P_append : forall p l, P (EvAppend p l).

Lemma e621_check_item_silent site blacklist ai db ids item w :
  fst (E621.check_item site blacklist ai db ids item w) = w
  /\ snd (E621.check_item site blacklist ai db ids item w) <> Timeout.
Proof.
  unfold E621.check_item, bind, ret, raise.
  destruct (E621.post_id item); [|split; [reflexivity | discriminate]].
  destruct (negb _); [split; [reflexivity | discriminate]|].
  destruct ai; [destruct (E621.post_tags item)|]; simpl;
    repeat match goal with
           | |- context [if ?b then _ else _] => destruct b
           end; split; try reflexivity; discriminate.
Qed.

Lemma e621_approve_silent site blacklist ai db ids posts w :
  fst (E621.approve site blacklist ai db ids posts w) = w
  /\ snd (E621.approve site blacklist ai db ids posts w) <> Timeout.
Proof.
  induction posts as [|item rest IH]; simpl; [split; [reflexivity|discriminate]|].
  unfold bind.
  destruct (e621_check_item_silent site blacklist ai db ids item w) as [Hw Hto].
  destruct (E621.check_item site blacklist ai db ids item w) as [w1 [r|e|]];
    simpl in *; subst; try (split; [reflexivity | congruence]).
  destruct IH as [Hw2 Hto2].
  destruct (E621.approve site blacklist ai db ids rest w) as [w2 [l|e|]];
    simpl in *; subst; split; try reflexivity; congruence.
Qed.

Lemma e621_download_one_calm E json_dump self tags site ai db main_dir meta_dir
    total i data count :
  P (EvGet (E621.image_address data)) ->
  calm P (E621.download_one E json_dump self tags site ai db main_dir meta_dir
                            total i data count).
Proof.
  intros Hget. unfold E621.download_one.
  destruct (_ || _)%bool; [apply calm_ret|].
  apply calm_bind; [apply calm_download_file; auto | intros ok].
  apply calm_bind; [|intros ?; calm_auto].
  destruct ok; calm_auto.
Qed.

Lemma e621_download_each_calm E json_dump self tags site ai db main_dir meta_dir
    total approved :
  Forall (fun d => P (EvGet (E621.image_address d))) approved ->
  forall i count,
    calm P (E621.download_each E json_dump self tags site ai db main_dir meta_dir
                               total i approved count).
Proof.
  induction 1 as [|d rest Hd _ IH]; intros i count; simpl; [apply calm_ret|].
  apply calm_bind; [apply e621_download_one_calm; auto | intros c; apply IH].
Qed.

Lemma e621_download_page_calm E json_dump self approved tags site ai db out :
  Forall (fun d => P (EvGet (E621.image_address d))) approved ->
  calm P (E621._download_page_images E json_dump self approved tags site ai db out).
Proof.
  intros H. unfold E621._download_page_images.
  calm_auto. apply e621_download_each_calm; auto.
Qed.

End ItemLoops.

Section ItemLoopsMore.
Variable P : event -> Prop.
Hypothesis P_notify : forall m, P (EvNotify m).
Hypothesis P_write : forall p, P (EvWrite p).
Hypothesis P_append : forall p l, P (EvAppend p l).

Lemma e621_approve_calm site blacklist ai db ids posts :
  calm P (E621.approve site blacklist ai db ids posts).
Proof.
  apply calm_silent. intros w.
  destruct (e621_approve_silent site blacklist ai db ids posts w) as [-> ?]. auto.
Qed.

Lemma furbooru_check_item_silent blacklist db ids item w :
  fst (Furbooru.check_item blacklist db ids item w) = w
  /\ snd (Furbooru.check_item blacklist db ids item w) <> Timeout.
Proof.
  unfold Furbooru.check_item, ret, raise.
  repeat match goal with
         | |- context [if ?b then _ else _] => destruct b
         | |- context [match Furbooru.img_id ?i with _ => _ end] =>
             destruct (Furbooru.img_id i)
         end; split; try reflexivity; discriminate.
Qed.

Lemma furbooru_approve_silent blacklist db ids images w :
  fst (Furbooru.approve blacklist db ids images w) = w
  /\ snd (Furbooru.approve blacklist db ids images w) <> Timeout.
Proof.
  induction images as [|item rest IH]; simpl; [split; [reflexivity|discriminate]|].
  unfold bind.
  destruct (furbooru_check_item_silent blacklist db ids item w) as [Hw Hto].
  destruct (Furbooru.check_item blacklist db ids item w) as [w1 [r|e|]];
    simpl in *; subst; try (split; [reflexivity | congruence]).
  destruct IH as [Hw2 Hto2].
  destruct (Furbooru.approve blacklist db ids rest w) as [w2 [l|e|]];
    simpl in *; subst; split; try reflexivity; congruence.
Qed.

Lemma furbooru_approve_calm blacklist db ids images :
  calm P (Furbooru.approve blacklist db ids images).
Proof.
  apply calm_silent. intros w.
  destruct (furbooru_approve_silent blacklist db ids images w) as [-> ?]. auto.
Qed.

Lemma furbooru_download_one_calm E self db main_dir total i data count :
  P (EvGet (Furbooru.image_address data)) ->
  calm P (Furbooru.download_one E self db main_dir total i data count).
Proof.
  intros Hget. unfold Furbooru.download_one.
  destruct (_ || _)%bool; [apply calm_ret|].
  apply calm_bind; [apply calm_download_file; auto | intros ok].
  apply calm_bind; [|intros ?; calm_auto].
  destruct ok; calm_auto.
Qed.

Lemma furbooru_download_each_calm E self db main_dir total approved :
  Forall (fun d => P (EvGet (Furbooru.image_address d))) approved ->
  forall i count,
    calm P (Furbooru.download_each E self db main_dir total i approved count).
Proof.
  induction 1 as [|d rest Hd _ IH]; intros i count; simpl; [apply calm_ret|].
  apply calm_bind; [apply furbooru_download_one_calm; auto | intros c; apply IH].
Qed.

Lemma furbooru_download_page_calm E self approved tags db out :
  Forall (fun d => P (EvGet (Furbooru.image_address d))) approved ->
  calm P (Furbooru._download_page_images E self approved tags db out).
Proof.
  intros H. unfold Furbooru._download_page_images.
  calm_auto. apply furbooru_download_each_calm; auto.
Qed.

Lemma rule34_download_one_calm E self dir page total i it count :
  (forall u, Rule34.r34_file_url it = Some u -> P (EvGet u)) ->
  calm P (Rule34.download_one E self dir page total i it count).
Proof.
  intros Hget. unfold Rule34.download_one.
  destruct (Rule34.r34_file_url it) as [u|]; [|apply calm_ret].
  destruct (Rule34.r34_id it); [|apply calm_ret].
  apply calm_bind; [apply calm_exists_file | intros present].
  destruct present; [apply calm_ret|].
  apply calm_bind; [apply calm_download_file; auto | intros ok].
  calm_auto.
Qed.

Lemma rule34_download_each_calm E self dir page total items :
  Forall (fun it => forall u, Rule34.r34_file_url it = Some u -> P (EvGet u)) items ->
  forall i count,
    calm P (Rule34.download_each E self dir page total i items count).
Proof.
  induction 1 as [|d rest Hd _ IH]; intros i count; simpl; [apply calm_ret|].
  apply calm_bind; [apply rule34_download_one_calm; auto | intros c; apply IH].
Qed.

End ItemLoopsMore.

(** ** The page limit *)

Section PageLimit.

Lemma forall_not_page_get {A} (f : A -> string) l :
  Forall (fun d => not_page (EvGet (f d))) l.
Proof. apply Forall_forall. intros; reflexivity. Qed.

Lemma fetches_ret {A} n (a : A) : fetches_within n (ret a).
Proof. eapply fetches_within_mono; [|apply calm_fetches, calm_ret]. lia. Qed.

Lemma fetches_notify n self m :
  fetches_within n (BaseAsyncDownloader.notify self m).
Proof.
  eapply fetches_within_mono; [|apply calm_fetches, calm_notify; auto]. lia.
Qed.

Lemma e621_page_loop_fetches E api json_dump self tags site blacklist k ai db out ids :
  0 < k ->
  forall fuel page,
    page <= k -> (Z.to_nat (k - page) < fuel)%nat ->
    fetches_within (Z.to_nat (k - page + 1))
      (E621.page_loop E api json_dump self fuel tags site blacklist (Some k)
                      ai db out ids page).
Proof.
  intros Hk. induction fuel as [|fuel IH]; intros page Hp Hf; [lia|].
  cbn [E621.page_loop].
  apply (fetches_bind _ _ _ 0 (Z.to_nat (k - page + 1)));
    [lia | apply fetches_notify | intros _].
  apply (fetches_bind _ _ _ 1 (Z.to_nat (k - page)));
    [lia | apply fetches_emit_page | intros _].
  destruct (api page) as [|code json]; [apply fetches_ret|].
  destruct (negb (code =? 200)); [apply fetches_ret|].
  destruct json as [data|]; [|apply fetches_ret].
  destruct (E621.is_api_limit data); [apply fetches_ret|].
  apply (fetches_bind _ _ _ 0 (Z.to_nat (k - page))); [lia | |].
  { apply calm_fetches. destruct data; [apply calm_ret | apply calm_raise]. }
  intros posts. destruct (bool_decide (posts = [])); [apply fetches_notify|].
  unfold Py.truthy_int. change (default 0 (Some k)) with k.
  destruct (k =? 0) eqn:Hk0; [apply Z.eqb_eq in Hk0; lia|]. cbn [negb andb].
  destruct (k <=? page) eqn:Hle; [apply fetches_notify|].
  apply Z.leb_gt in Hle.
  apply (fetches_bind _ _ _ 0 (Z.to_nat (k - page)));
    [lia | apply calm_fetches, e621_approve_calm; auto | intros approved].
  apply (fetches_bind _ _ _ 0 (Z.to_nat (k - page))); [lia | |].
  { apply calm_fetches, calm_when, e621_download_page_calm; auto.
    apply forall_not_page_get. }
  intros _.
  apply (fetches_bind _ _ _ 0 (Z.to_nat (k - page)));
    [lia | apply fetches_notify | intros _].
  replace (Z.to_nat (k - page)) with (Z.to_nat (k - (page + 1) + 1)) by lia.
  apply IH; lia.
Qed.

Lemma furbooru_page_loop_fetches E api self tags blacklist k db out ids :
  0 < k ->
  forall fuel page,
    page <= k -> (Z.to_nat (k - page) < fuel)%nat ->
    fetches_within (Z.to_nat (k - page + 1))
      (Furbooru.page_loop E api self fuel tags blacklist (Some k) db out ids page).
Proof.
  intros Hk. induction fuel as [|fuel IH]; intros page Hp Hf; [lia|].
  cbn [Furbooru.page_loop].
  apply (fetches_bind _ _ _ 0 (Z.to_nat (k - page + 1)));
    [lia | apply fetches_notify | intros _].
  apply (fetches_bind _ _ _ 1 (Z.to_nat (k - page)));
    [lia | apply fetches_emit_page | intros _].
  destruct (api page) as [|code json]; [apply fetches_ret|].
  destruct (negb (code =? 200)); [apply fetches_ret|].
  destruct json as [data|]; [|apply fetches_ret].
  apply (fetches_bind _ _ _ 0 (Z.to_nat (k - page))); [lia | |].
  { apply calm_fetches. destruct data; [apply calm_ret | apply calm_raise]. }
  intros total. destruct (total =? 0); [apply fetches_notify|].
  unfold Py.truthy_int. change (default 0 (Some k)) with k.
  destruct (k =? 0) eqn:Hk0; [apply Z.eqb_eq in Hk0; lia|]. cbn [negb andb].
  destruct (k <=? page) eqn:Hle; [apply fetches_notify|].
  apply Z.leb_gt in Hle.
  apply (fetches_bind _ _ _ 0 (Z.to_nat (k - page)));
    [lia | apply calm_fetches, furbooru_approve_calm; auto | intros approved].
  apply (fetches_bind _ _ _ 0 (Z.to_nat (k - page))); [lia | |].
  { apply calm_fetches, calm_when, furbooru_download_page_calm; auto.
    apply forall_not_page_get. }
  intros _.
  apply (fetches_bind _ _ _ 0 (Z.to_nat (k - page)));
    [lia | apply fetches_notify | intros _].
  replace (Z.to_nat (k - page)) with (Z.to_nat (k - (page + 1) + 1)) by lia.
  apply IH; lia.
Qed.

Lemma rule34_page_loop_fetches E api self k dir :
  0 < k ->
  forall fuel page count,
    page <= k + 1 -> (Z.to_nat (k + 1 - page) < fuel)%nat ->
    fetches_within (Z.to_nat (k + 1 - page))
      (Rule34.page_loop E api self fuel (Some k) dir count page).
Proof.
  intros Hk. induction fuel as [|fuel IH]; intros page count Hp Hf; [lia|].
  cbn [Rule34.page_loop]. unfold Py.truthy_int. change (default 0 (Some k)) with k.
  destruct (k =? 0) eqn:Hk0; [apply Z.eqb_eq in Hk0; lia|]. cbn [negb andb].
  destruct (k <? page) eqn:Hlt; [apply fetches_ret|].
  apply Z.ltb_ge in Hlt.
  apply (fetches_bind _ _ _ 0 (Z.to_nat (k + 1 - page)));
    [lia | apply fetches_notify | intros _].
  apply (fetches_bind _ _ _ 1 (Z.to_nat (k - page))); [lia | |].
  { unfold Rule34.fetch_json.
    apply (fetches_bind _ _ _ 0 1%nat);
      [lia | apply calm_fetches, calm_get_proxy | intros _].
    apply (fetches_bind _ _ _ 1 0%nat);
      [lia | apply fetches_emit_page | intros _].
    apply fetches_ret. }
  intros data.
  destruct data as [[items|truth]|]; [| |apply fetches_ret].
  - destruct items as [|it items]; [apply fetches_ret|].
    apply (fetches_bind _ _ _ 0 (Z.to_nat (k - page)));
      [lia | apply fetches_notify | intros _].
    apply (fetches_bind _ _ _ 0 (Z.to_nat (k - page))); [lia | |].
    { apply calm_fetches, rule34_download_each_calm; auto.
      apply Forall_forall. intros; reflexivity. }
    intros c. destruct (_ <? _)%nat; [apply fetches_ret|].
    replace (Z.to_nat (k - page)) with (Z.to_nat (k + 1 - (page + 1))) by lia.
    apply IH; lia.
  - destruct truth; [|apply fetches_ret].
    apply (fetches_bind _ _ _ 0 (Z.to_nat (k - page)));
      [lia | apply fetches_notify | intros _].
    apply fetches_ret.
Qed.

End PageLimit.

Section PageLimitRuns.

Lemma fetches_load_ids E db site_path :
  fetches_within 0
    (if Py.truthy_opt db then load_ids E site_path else ret (∅ : gset string)).
Proof.
  apply calm_fetches. destruct (Py.truthy_opt db); [apply calm_load_ids | apply calm_ret].
Qed.

Lemma e621_run_fetches E api json_dump self fuel tags site blacklist k ai db out :
  1 <= k -> (Z.to_nat k <= fuel)%nat ->
  fetches_within (Z.to_nat k)
    (E621.download_by_tags E api json_dump self fuel tags site blacklist (Some k)
                           ai db out).
Proof.
  intros Hk Hf. unfold E621.download_by_tags, E621.download_by_tags_try.
  apply fetches_within_try; [|intros e; apply calm_fetches; calm_auto].
  apply (fetches_bind _ _ _ 0 (Z.to_nat k)); [lia | apply fetches_notify | intros _].
  apply (fetches_bind _ _ _ 0 (Z.to_nat k)); [lia | apply fetches_load_ids | intros ids].
  apply (fetches_bind _ _ _ (Z.to_nat k) 0); [lia | | intros _].
  - eapply fetches_within_mono;
      [|apply (e621_page_loop_fetches E api json_dump self tags site
                 (default [] blacklist) k ai db out ids ltac:(lia) fuel 1); lia].
    lia.
  - apply (fetches_bind _ _ _ 0 0%nat); [lia | apply fetches_notify | intros _].
    apply fetches_ret.
Qed.

Lemma furbooru_run_fetches E api self fuel tags blacklist k db out :
  1 <= k -> (Z.to_nat k <= fuel)%nat ->
  fetches_within (Z.to_nat k)
    (Furbooru.download_by_tags E api self fuel tags blacklist (Some k) db out).
Proof.
  intros Hk Hf. unfold Furbooru.download_by_tags, Furbooru.download_by_tags_try.
  apply fetches_within_try; [|intros e; apply calm_fetches; calm_auto].
  apply (fetches_bind _ _ _ 0 (Z.to_nat k)); [lia | apply fetches_notify | intros _].
  apply (fetches_bind _ _ _ 0 (Z.to_nat k)); [lia | apply fetches_load_ids | intros ids].
  apply (fetches_bind _ _ _ (Z.to_nat k) 0); [lia | | intros _].
  - eapply fetches_within_mono;
      [|apply (furbooru_page_loop_fetches E api self tags
                 (default [] blacklist) k db out ids ltac:(lia) fuel 1); lia].
    lia.
  - apply (fetches_bind _ _ _ 0 0%nat); [lia | apply fetches_notify | intros _].
    apply fetches_ret.
Qed.

Lemma rule34_run_fetches E api self fuel tags k out :
  1 <= k -> (Z.to_nat k < fuel)%nat ->
  fetches_within (Z.to_nat k)
    (Rule34.download_by_tags E api self fuel tags (Some k) out).
Proof.
  intros Hk Hf. unfold Rule34.download_by_tags, Rule34.download_by_tags_try.
  apply fetches_within_try; [|intros e; apply calm_fetches; calm_auto].
  apply (fetches_bind _ _ _ 0 (Z.to_nat k)); [lia | apply fetches_notify | intros _].
  apply (fetches_bind _ _ _ 0 (Z.to_nat k));
    [lia | apply calm_fetches, calm_mkdir | intros _].
  apply (fetches_bind _ _ _ (Z.to_nat k) 0); [lia | | intros c].
  - eapply fetches_within_mono;
      [|apply (rule34_page_loop_fetches E api self k _ ltac:(lia) fuel 1 0%nat); lia].
    lia.
  - apply (fetches_bind _ _ _ 0 0%nat); [lia | apply fetches_notify | intros _].
    apply fetches_ret.
Qed.

End PageLimitRuns.

(** C3, as amended: a tag-search job whose [max_pages] is configured to
    [k >= 1] terminates (given more than [k] loop iterations) after at
    most [k] page requests to the site API.  ([max_pages = 0] is treated
    like an absent limit.) *)
Theorem C3_page_limit (j : job) (k : Z) (w : world) :
  job_max_pages j = Some k ->
  1 <= k ->
  (Z.to_nat k < job_fuel j)%nat ->
  snd (run_job j w) <> Timeout
  /\ (page_fetches (trace (fst (run_job j w)))
      <= page_fetches (trace w) + Z.to_nat k)%nat.
Proof.
  intros Hmax Hk Hfuel.
  destruct j; simpl in Hmax, Hfuel; try discriminate; subst; simpl.
  - destruct (e621_run_fetches E api json_dump self fuel tags site blacklist k
                ai_training db_file output_dir Hk ltac:(lia) w); auto.
  - destruct (furbooru_run_fetches E api self fuel tags blacklist k
                db_file output_dir Hk ltac:(lia) w); auto.
  - destruct (rule34_run_fetches E api self fuel tags k output_dir Hk Hfuel w); auto.
Qed.

(** C3 on a site with two non-empty pages and a limit of one page. *)
Lemma C3_page_limit_witness :
  snd (run_job (two_pages_job (Some 1%Z)) empty_world) <> Timeout
  /\ (page_fetches (trace (fst (run_job (two_pages_job (Some 1%Z)) empty_world)))
      <= page_fetches (trace empty_world) + Z.to_nat 1%Z)%nat.
Proof.
  apply (C3_page_limit (two_pages_job (Some 1%Z)) 1%Z empty_world).
  - reflexivity.
  - lia.
  - simpl. lia.
Defined.

(** C3 as stated fails for [max_pages = 0]: the limit is ignored and
    the job requests all three pages of the site. *)
Lemma C3_zero_limit_unbounded :
  job_max_pages (two_pages_job (Some 0%Z)) = Some 0
  /\ snd (run_job (two_pages_job (Some 0%Z)) empty_world) = Val true
  /\ page_fetches (trace (fst (run_job (two_pages_job (Some 0%Z)) empty_world))) = 3%nat
  /\ ~ page_limit_claim.
Proof.
  assert (Hrun : snd (run_job (two_pages_job (Some 0%Z)) empty_world) = Val true
                 /\ page_fetches
                      (trace (fst (run_job (two_pages_job (Some 0%Z)) empty_world)))
                    = 3%nat).
  { split; vm_compute; reflexivity. }
  destruct Hrun as [Hv Hn].
  split; [reflexivity|]. split; [exact Hv|]. split; [exact Hn|].
  intros H.
  specialize (H (two_pages_job (Some 0%Z)) 0%Z empty_world eq_refl ltac:(lia)).
  rewrite Hv, Hn in H. specialize (H ltac:(discriminate)).
  change (page_fetches (trace empty_world)) with 0%nat in H. simpl in H. lia.
Qed.

(** ** The [except Exception] handler of the run functions *)

Section Guard.

Lemma run_job_guard j :
  run_job j
  = try_except (job_try j)
      (fun e => BaseAsyncDownloader.notify (job_self j) (MsgError e) ;;; ret false).
Proof. destruct j; reflexivity. Qed.

Lemma handler_result self e w :
  (BaseAsyncDownloader.notify self (MsgError e) ;;; ret false) w
  = (fst (BaseAsyncDownloader.notify self (MsgError e) w), Val false).
Proof.
  unfold bind, BaseAsyncDownloader.notify, when.
  destruct (progress_callback self); reflexivity.
Qed.

Lemma notify_trace self m w :
  trace (fst (BaseAsyncDownloader.notify self m w))
  = trace w ++ (if progress_callback self then [EvNotify m] else []).
Proof.
  unfold BaseAsyncDownloader.notify, when.
  destruct (progress_callback self); simpl; [reflexivity|].
  rewrite app_nil_r. reflexivity.
Qed.

(** The outcome of a run, from the outcome of its [try] block. *)
Lemma run_job_outcome j w :
  snd (run_job j w)
  = match snd (job_try j w) with
    | Val b => Val b
    | Raise _ => Val false
    | Timeout => Timeout
    end.
Proof.
  rewrite run_job_guard. unfold try_except.
  destruct (job_try j w) as [w1 [b|e|]]; simpl; try reflexivity.
  rewrite handler_result. reflexivity.
Qed.

End Guard.

Lemma bind_val {A B} (m : M A) (k : A -> M B) w w1 b :
  bind m k w = (w1, Val b) ->
  exists a w0, m w = (w0, Val a) /\ k a w0 = (w1, Val b).
Proof.
  unfold bind. destruct (m w) as [w0 [a|e|]]; try discriminate. eauto.
Qed.

(** The run function of every job of the model is the handler around
    its [try] block, with a callback that returns. *)
Lemma run_job_run_function j w :
  run_job j w = run_function (returning_callback (job_self j)) (job_try j) w.
Proof.
  rewrite run_job_guard.
  unfold run_function, try_except, returning_callback, call,
    BaseAsyncDownloader.notify, when, bind, emit, ret.
  destruct (job_try j w) as [w1 [b|e|]]; try reflexivity.
  destruct (progress_callback (job_self j)); reflexivity.
Qed.

(** C7, as amended: when an exception escapes the [try] block of a
    run function (the page loop included), the handler calls the
    progress callback,
    when one is configured, with the error message, in the world the
    block left behind; if that call returns, the run function returns
    [False].  The run function of each of the six downloaders is this
    handler around its [try] block. *)
Theorem C7_exception_reported (j : job) (cb : option callback)
    (try_block : M bool) (w w1 w2 : world) (e : exn) :
  try_block w = (w1, Raise e) ->
  match cb with
  | Some f => f (MsgError e) (fst (emit (EvNotify (MsgError e)) w1)) = (w2, Val tt)
  | None => w2 = w1
  end ->
  run_function cb try_block w = (w2, Val false)
  /\ run_job j w
     = run_function (returning_callback (job_self j)) (job_try j) w.
Proof.
  intros Htry Hcall. split; [|apply run_job_run_function].
  unfold run_function, try_except. rewrite Htry.
  unfold call, bind. destruct cb as [f|].
  - cbn [emit fst] in *. rewrite Hcall. reflexivity.
  - subst w2. reflexivity.
Qed.

(** C7 on a page whose post has no id: [item["id"]] raises [KeyError],
    and the callback returns. *)
Lemma C7_exception_reported_witness :
  run_function (Some (fun _ => ret tt)) (job_try malformed_job) empty_world
  = (fst (emit (EvNotify (MsgError (KeyError "id")))
            (fst (job_try malformed_job empty_world))), Val false)
  /\ run_job malformed_job empty_world
     = run_function (returning_callback (job_self malformed_job))
         (job_try malformed_job) empty_world.
Proof.
  apply (C7_exception_reported malformed_job (Some (fun _ => ret tt))
           (job_try malformed_job) empty_world
           (fst (job_try malformed_job empty_world))
           (fst (emit (EvNotify (MsgError (KeyError "id")))
                   (fst (job_try malformed_job empty_world))))
           (KeyError "id")).
  - vm_compute. reflexivity.
  - reflexivity.
Defined.

(** C7, the counterexample: on the same page, with a callback that
    fails on the error message, the [KeyError] of the [try] block is
    caught, the callback is called in the handler, and its exception
    leaves the run function: the run does not return [False]. *)
Lemma C7_raising_callback_propagates :
  snd (job_try malformed_job empty_world) = Raise (KeyError "id")
  /\ snd (run_function (Some failing_callback) (job_try malformed_job)
            empty_world) = Raise (TypeError "callback")
  /\ trace (fst (run_function (Some failing_callback) (job_try malformed_job)
                   empty_world))
     = [EvNotify (MsgStarting "e621" "wolf"); EvNotify (MsgFetchingPage 1);
        EvPage 1; EvNotify (MsgError (KeyError "id"))]
  /\ ~ exception_reported_claim.
Proof.
  assert (Hrun : snd (run_function (Some failing_callback)
                        (job_try malformed_job) empty_world)
                 = Raise (TypeError "callback"))
    by (vm_compute; reflexivity).
  split; [vm_compute; reflexivity|]. split; [exact Hrun|].
  split; [vm_compute; reflexivity|].
  intros Hclaim.
  specialize (Hclaim (Some failing_callback) (job_try malformed_job)
                empty_world (fst (job_try malformed_job empty_world))
                (KeyError "id")).
  rewrite Hrun in Hclaim.
  assert (Htry : job_try malformed_job empty_world
                 = (fst (job_try malformed_job empty_world),
                    Raise (KeyError "id")))
    by (vm_compute; reflexivity).
  specialize (Hclaim Htry). discriminate.
Qed.

Example malformed_job_trace :
  trace (fst (run_job malformed_job empty_world))
  = [EvNotify (MsgStarting "e621" "wolf"); EvNotify (MsgFetchingPage 1);
     EvPage 1; EvNotify (MsgError (KeyError "id"))].
Proof. vm_compute. reflexivity. Qed.

(** The [try] block of the e621 run can only return [True]. *)
Lemma e621_try_returns_true E api json_dump self fuel tags site blacklist max_pages
    ai db_file out w w1 b :
  E621.download_by_tags_try E api json_dump self fuel tags site blacklist max_pages
                            ai db_file out w = (w1, Val b) ->
  b = true.
Proof.
  unfold E621.download_by_tags_try. intros Hrun.
  apply bind_val in Hrun as (? & ? & _ & Hrun).
  apply bind_val in Hrun as (? & ? & _ & Hrun).
  apply bind_val in Hrun as (? & ? & _ & Hrun).
  apply bind_val in Hrun as (? & ? & _ & Hrun).
  injection Hrun as _ <-. reflexivity.
Qed.

(** With a page limit [k >= 1] and [k] loop iterations the e621 run
    ends, and it returns [True] unless an exception escaped. *)
Lemma e621_capped_run_result E api json_dump self fuel tags site blacklist k
    ai db_file out w :
  1 <= k -> (Z.to_nat k <= fuel)%nat ->
  snd (E621.download_by_tags E api json_dump self fuel tags site blacklist (Some k)
         ai db_file out w) = Val true
  \/ exists e,
       snd (E621.download_by_tags_try E api json_dump self fuel tags site blacklist
              (Some k) ai db_file out w) = Raise e.
Proof.
  intros Hk Hf.
  destruct (e621_run_fetches E api json_dump self fuel tags site blacklist k
              ai db_file out Hk Hf w) as [_ Hto].
  revert Hto. unfold E621.download_by_tags, try_except.
  destruct (E621.download_by_tags_try E api json_dump self fuel tags site blacklist
              (Some k) ai db_file out w) as [w1 [b|e|]] eqn:Hrun; simpl.
  - intros _. left. f_equal. eapply e621_try_returns_true; eassumption.
  - intros _. right. eauto.
  - intros H. destruct (H eq_refl).
Qed.

(** C8: the run of the e621-family downloader returns [True] whenever
    its [try] block ends without an exception (and the loop ends),
    whatever number of items was downloaded. *)
Theorem C8_e621_success (E : env) (api : Z -> E621.api_result)
    (json_dump : gmap string (list string) -> string) (self : downloader)
    (fuel : nat) (tags site : string) (blacklist : option (list string))
    (max_pages : option Z) (ai_training : bool) (db_file : option string)
    (output_dir : string) (w : world) :
  (forall e, snd (E621.download_by_tags_try E api json_dump self fuel tags site
                    blacklist max_pages ai_training db_file output_dir w)
             <> Raise e) ->
  snd (E621.download_by_tags_try E api json_dump self fuel tags site
         blacklist max_pages ai_training db_file output_dir w) <> Timeout ->
  snd (E621.download_by_tags E api json_dump self fuel tags site blacklist
         max_pages ai_training db_file output_dir w) = Val true.
Proof.
  intros Hexn Hto.
  unfold E621.download_by_tags, try_except.
  destruct (E621.download_by_tags_try E api json_dump self fuel tags site blacklist
              max_pages ai_training db_file output_dir w) as [w1 [b|e|]] eqn:Hrun;
    simpl in *; [|destruct (Hexn e eq_refl) | congruence].
  f_equal. eapply e621_try_returns_true; eassumption.
Qed.

(** C8 on a capped run: with a limit of one page nothing is downloaded
    and the run still returns [True]. *)
Lemma C8_e621_success_witness :
  snd (E621.download_by_tags (constant_env 200 "img") two_pages no_dump
         (E621.init true "01-01-2024_00-00-00") 10 "wolf" "e621" None (Some 1)
         false None "media" empty_world) = Val true.
Proof.
  apply (C8_e621_success (constant_env 200 "img") two_pages no_dump
           (E621.init true "01-01-2024_00-00-00") 10 "wolf" "e621" None (Some 1)
           false None "media" empty_world).
  - intros e. vm_compute. discriminate.
  - vm_compute. discriminate.
Defined.

Example capped_run_downloads_nothing :
  gets (trace (fst (run_job (two_pages_job (Some 1)) empty_world))) = []
  /\ snd (run_job (two_pages_job (Some 1)) empty_world) = Val true.
Proof. split; vm_compute; reflexivity. Qed.

(** The rule34 run, in contrast, returns whether something was
    downloaded: on a site without posts it ends normally with [False]. *)
Example rule34_zero_downloads :
  snd (Rule34.download_rule34_tags (constant_env 200 "img")
         (fun _ => Some (Rule34.DataList [])) 5 "wolf" None None None "media"
         true None false empty_world) = Val false.
Proof. vm_compute. reflexivity. Qed.

(** ** One page of approved items: requests and Seen-ID appends *)

Section Always.











End Always.

Section AlwaysPages.









End AlwaysPages.

Section PageSteps.








End PageSteps.




Example flaky_job_transfers :
  transfers (trace (fst (run_job flaky_job empty_world)))
  = [EvGet "https://static/10.png"; EvAppend "db/e621.db" "10";
     EvGet "https://static/20.png";
     EvGet "https://static/30.png"; EvAppend "db/e621.db" "30"]
  /\ snd (run_job flaky_job empty_world) = Val true
  /\ db (fst (run_job flaky_job empty_world)) !! "db/e621.db" = Some ["10"; "30"]
  /\ page_fetches (trace (fst (run_job flaky_job empty_world))) = 2%nat.
Proof. repeat split; vm_compute; reflexivity. Qed.

(** ** Where the code departs from the specification *)

(** [download_rule34_tags] passes neither its blacklist nor its db_file
    on: its result is the same for every value of the two. *)
Lemma rule34_arguments_dropped E api fuel tags blacklist max_pages db_file
    output_dir cb proxies use :
  Rule34.download_rule34_tags E api fuel tags blacklist max_pages db_file
                              output_dir cb proxies use
  = Rule34.download_rule34_tags E api fuel tags None max_pages None
                                output_dir cb proxies use.
Proof. reflexivity. Qed.

(** C1 at its failing input: with "gore" blacklisted, the rule34 entry
    point requests and writes the file of a post tagged "gore wolf". *)
Theorem C1_rule34_downloads_blacklisted :
  let w := fst (Rule34.download_rule34_tags (constant_env 200 "img") rule34_site 5
                  "wolf" (Some ["gore"]) None None "media" true None false
                  empty_world) in
  gets (trace w) = ["https://r34/5.jpg"]
  /\ files w !! "media/rule34/wolf/5.jpg" = Some "img".
Proof. split; vm_compute; reflexivity. Qed.

(** C2 at its failing input: with post 5 recorded in db/rule34.db and
    dedup on, the rule34 entry point requests post 5 again, and a
    successful download leaves the Seen-ID file as it was. *)
Theorem C2_rule34_downloads_seen :
  let w := fst (Rule34.download_rule34_tags (constant_env 200 "img") rule34_site 5
                  "wolf" None None (Some "db/rule34.db") "media" true None false
                  seen_world) in
  db seen_world !! "db/rule34.db" = Some ["5"]
  /\ gets (trace w) = ["https://r34/5.jpg"]
  /\ appends (trace w) = []
  /\ db w = db seen_world.
Proof. repeat split; vm_compute; reflexivity. Qed.

(** Two rule34 runs with dedup on and different tag queries: the second
    requests the post the first one downloaded, and no id is recorded. *)
Example rule34_second_run_downloads_again :
  let w1 := fst (Rule34.download_rule34_tags (constant_env 200 "img") rule34_site 5
                   "wolf" None None (Some "db/rule34.db") "media" true None false
                   empty_world) in
  let w2 := fst (Rule34.download_rule34_tags (constant_env 200 "img") rule34_site 5
                   "gore" None None (Some "db/rule34.db") "media" true None false
                   w1) in
  gets (trace w2) = ["https://r34/5.jpg"; "https://r34/5.jpg"]
  /\ db w2 = ∅.
Proof. split; vm_compute; reflexivity. Qed.

(** C4 at its failing input: with [max_pages = 1] the e621 downloader
    requests page 1, announces that it finished 1 of 1 pages, and
    downloads none of the items of that page. *)
Theorem C4_e621_limit_page_skipped :
  let w := fst (run_job (two_pages_job (Some 1)) empty_world) in
  page_fetches (trace w) = 1%nat
  /\ gets (trace w) = []
  /\ messages (trace w)
     = [MsgStarting "e621" "wolf"; MsgFetchingPage 1; MsgFinishedPages 1;
        MsgComplete "wolf"].
Proof. repeat split; vm_compute; reflexivity. Qed.

(** The rule34 downloader, in contrast, downloads the limit page. *)
Example rule34_limit_page_downloaded :
  gets (trace (fst (Rule34.download_rule34_tags (constant_env 200 "img") rule34_site 5
                      "wolf" None (Some 1) None "media" true None false empty_world)))
  = ["https://r34/5.jpg"].
Proof. vm_compute. reflexivity. Qed.

(** ** Identifiers as the Seen-ID file stores them *)

Section Identifiers.

Lemma pretty_N_char_not_space x : Py.isspace (pretty_N_char x) = false.
Proof.
  unfold pretty_N_char.
  repeat (match goal with |- context [match ?y with _ => _ end] => destruct y end;
          try reflexivity).
Qed.

Lemma pretty_N_go_not_space x s :
  (forall c, Py.InStr c s -> Py.isspace c = false) ->
  forall c, Py.InStr c (pretty_N_go x s) -> Py.isspace c = false.
Proof.
  revert s. induction (N.lt_wf_0 x) as [x _ IH]; intros s Hs.
  assert (x = 0 \/ 0 < x)%N as [->|Hpos] by lia.
  - rewrite pretty_N_go_0. exact Hs.
  - rewrite pretty_N_go_step by exact Hpos. apply IH.
    + apply N.div_lt; lia.
    + simpl. intros c [->|Hc]; [apply pretty_N_char_not_space | auto].
Qed.

Lemma pretty_N_go_nonempty x s : s <> EmptyString -> pretty_N_go x s <> EmptyString.
Proof.
  revert s. induction (N.lt_wf_0 x) as [x _ IH]; intros s Hs.
  assert (x = 0 \/ 0 < x)%N as [->|Hpos] by lia.
  - rewrite pretty_N_go_0. exact Hs.
  - rewrite pretty_N_go_step by exact Hpos. apply IH.
    + apply N.div_lt; lia.
    + discriminate.
Qed.

Lemma pretty_N_not_space (x : N) c :
  Py.InStr c (pretty x) -> Py.isspace c = false.
Proof.
  unfold pretty, pretty_N. destruct (decide (x = 0)%N).
  - simpl. intros [->|[]]. reflexivity.
  - apply pretty_N_go_not_space. intros ? [].
Qed.

Lemma pretty_N_nonempty (x : N) : pretty x <> EmptyString.
Proof.
  unfold pretty, pretty_N. destruct (decide (x = 0)%N) as [|Hne]; [discriminate|].
  assert (0 < x)%N as Hpos by lia.
  rewrite pretty_N_go_step by exact Hpos. apply pretty_N_go_nonempty. discriminate.
Qed.

Lemma str_not_space n c : Py.InStr c (Py.str n) -> Py.isspace c = false.
Proof.
  unfold Py.str, pretty, pretty_Z. destruct n as [|p|p].
  - simpl. intros [->|[]]. reflexivity.
  - apply (pretty_N_not_space (N.pos p)).
  - simpl. intros [->|Hc]; [reflexivity|].
    apply (pretty_N_not_space (N.pos p)), Hc.
Qed.

Lemma str_nonempty n : Py.str n <> EmptyString.
Proof.
  unfold Py.str, pretty, pretty_Z. destruct n as [|p|p]; try discriminate.
  apply (pretty_N_nonempty (N.pos p)).
Qed.

Lemma lstrip_by_id p s :
  (forall c, Py.InStr c s -> p c = false) -> Py.lstrip_by p s = s.
Proof.
  destruct s as [|c s]; simpl; [reflexivity|].
  intros H. rewrite (H c) by auto. reflexivity.
Qed.

Lemma rstrip_by_id p s :
  (forall c, Py.InStr c s -> p c = false) -> Py.rstrip_by p s = s.
Proof.
  induction s as [|c s IH]; simpl; [reflexivity|].
  intros H. rewrite IH by auto. rewrite (H c) by auto.
  destruct s; reflexivity.
Qed.

(** Reading back an id that was written as a line gives the id. *)
Lemma strip_str n : Py.strip (Py.str n) = Py.str n.
Proof.
  unfold Py.strip. rewrite rstrip_by_id by apply str_not_space.
  apply lstrip_by_id, str_not_space.
Qed.

Lemma stored_ids_line w p lines n :
  db w !! p = Some lines -> Py.str n ∈ lines -> Py.str n ∈ stored_ids w p.
Proof.
  intros Hdb Hin. unfold stored_ids. rewrite Hdb.
  apply elem_of_list_to_set, list_elem_of_filter. split.
  - apply truthy_nonempty, str_nonempty.
  - apply list_elem_of_fmap. exists (Py.str n). split; [|exact Hin].
    symmetry. apply strip_str.
Qed.

End Identifiers.

(** ** What the e621 and Furbooru loops let through *)

Section Filters.

Lemma emits_bind (P : event -> Prop) {A B} (m : M A) (k : A -> M B) :
  emits P m ->
  (forall w a, snd (m w) = Val a -> emits P (k a)) ->
  emits P (bind m k).
Proof.
  intros Hm Hk w. unfold bind. destruct (Hm w) as (t & Ht & HP).
  destruct (m w) as [w1 [a|e|]] eqn:Hmw; simpl in *; eauto.
  assert (Hka : emits P (k a)) by (apply (Hk w); rewrite Hmw; reflexivity).
  destruct (Hka w1) as (t2 & Ht2 & HP2).
  exists (t ++ t2). rewrite Ht2, Ht, app_assoc. split; [reflexivity|].
  apply Forall_app; auto.
Qed.

Lemma emits_try (P : event -> Prop) {A} (m : M A) (h : exn -> M A) :
  emits P m -> (forall e, emits P (h e)) -> emits P (try_except m h).
Proof.
  intros Hm Hh w. unfold try_except. destruct (Hm w) as (t & Ht & HP).
  destruct (m w) as [w1 [a|e|]] eqn:Hmw; simpl in *; eauto.
  destruct (Hh e w1) as (t2 & Ht2 & HP2).
  exists (t ++ t2). rewrite Ht2, Ht, app_assoc. split; [reflexivity|].
  apply Forall_app; auto.
Qed.

Lemma emits_timeout (P : event -> Prop) {A} : emits P (@timeout A).
Proof. intros w. exists []. simpl. rewrite app_nil_r. auto. Qed.

Lemma gets_only_gets Q t u : Forall (gets_only Q) t -> u ∈ gets t -> Q u.
Proof.
  induction 1 as [|e t He _ IH]; simpl; [inversion 1|].
  unfold gets; simpl. destruct e; simpl in *; auto.
  intros Hin. apply elem_of_cons in Hin as [->|Hin]; auto.
Qed.

Lemma passed_zero blacklist post_tags :
  E621.passed blacklist post_tags = 0%nat ->
  forall t, t ∈ post_tags -> t ∉ blacklist.
Proof.
  unfold E621.passed. intros Hlen t Ht Hb.
  apply length_zero_iff_nil in Hlen.
  assert (Hin : t ∈ filter (fun b => b ∈ post_tags) blacklist).
  { apply list_elem_of_filter. auto. }
  rewrite Hlen in Hin. inversion Hin.
Qed.

Lemma e621_check_item_passes site blacklist ai db ids item w d :
  snd (E621.check_item site blacklist ai db ids item w) = Val (Some d) ->
  e621_passes site blacklist db ids item (E621.image_address d).
Proof.
  unfold E621.check_item, e621_passes, e621_tags, bind, ret, raise.
  destruct (E621.post_id item) as [n|]; [|discriminate].
  destruct (E621.post_file item) as [f|]; simpl; [|discriminate].
  destruct (E621.file_url f) as [u|] eqn:Hu; simpl; [|discriminate].
  destruct (Py.truthy u); simpl; [|discriminate].
  assert (Hrest :
    (if (0 <? E621.passed blacklist
               (E621.collect_post_tags site (default ∅ (E621.post_tags item))))%nat
     then Val None
     else if (Py.truthy_opt db && bool_decide (Py.str n ∈ ids))%bool
          then Val None
          else Val (Some {| E621.image_address := u;
                            E621.image_format := default "jpg" (E621.file_ext f);
                            E621.image_id := Py.str n;
                            E621.meta_tags :=
                              if ai then default ∅ (E621.post_tags item) else ∅ |}))
    = Val (Some d) ->
    exists n0, Some n = Some n0
      /\ (exists f0, Some f = Some f0 /\ E621.file_url f0 = Some (E621.image_address d))
      /\ (forall t, t ∈ E621.collect_post_tags site (default ∅ (E621.post_tags item))
                    -> t ∉ blacklist)
      /\ (Py.truthy_opt db = true -> Py.str n0 ∉ ids)).
  { destruct (0 <? _)%nat eqn:Hp; [discriminate|].
    apply Nat.ltb_ge in Hp.
    destruct (Py.truthy_opt db && _)%bool eqn:Hd; [discriminate|].
    intros [= <-]. simpl. exists n. split; [reflexivity|].
    split; [eauto|]. split.
    - apply passed_zero. lia.
    - intros Ht. rewrite Ht in Hd. simpl in Hd.
      apply bool_decide_eq_false in Hd. exact Hd. }
  destruct ai.
  - destruct (E621.post_tags item) as [tg|] eqn:Htg; simpl; [|discriminate].
    intros H. apply Hrest. simpl.
    repeat match goal with
           | H : context [if ?b then _ else _] |- _ => destruct b
           end; simpl in H; congruence.
  - simpl. intros H. apply Hrest.
    repeat match goal with
           | H : context [if ?b then _ else _] |- _ => destruct b
           end; simpl in H; congruence.
Qed.

Lemma e621_approve_passes site blacklist ai db ids posts w approved :
  snd (E621.approve site blacklist ai db ids posts w) = Val approved ->
  Forall (fun d => exists item, item ∈ posts
                     /\ e621_passes site blacklist db ids item (E621.image_address d))
         approved.
Proof.
  revert w approved. induction posts as [|item rest IH]; intros w approved; simpl.
  - intros [= <-]. constructor.
  - unfold bind.
    destruct (E621.check_item site blacklist ai db ids item w) as [w1 [r|e|]] eqn:Hc;
      try discriminate.
    destruct (E621.approve site blacklist ai db ids rest w1) as [w2 [l|e|]] eqn:Ha;
      try discriminate.
    simpl. intros [= <-].
    assert (Hl : Forall (fun d => exists it, it ∈ item :: rest
                  /\ e621_passes site blacklist db ids it (E621.image_address d)) l).
    { eapply Forall_impl; [apply (IH w1 l); rewrite Ha; reflexivity|].
      intros d (it & Hin & Hp). exists it. split; [right; exact Hin | exact Hp]. }
    destruct r as [d|]; [|exact Hl].
    constructor; [|exact Hl].
    exists item. split; [left|].
    apply (e621_check_item_passes site blacklist ai db ids item w d).
    rewrite Hc. reflexivity.
Qed.

End Filters.

Section FilteredRuns.

Lemma emits_at_bind (P : event -> Prop) {A B} (m : M A) (k : A -> M B) w :
  (exists t, trace (fst (m w)) = trace w ++ t /\ Forall P t) ->
  (forall w1 a, m w = (w1, Val a) ->
     exists t, trace (fst (k a w1)) = trace w1 ++ t /\ Forall P t) ->
  exists t, trace (fst (bind m k w)) = trace w ++ t /\ Forall P t.
Proof.
  intros (t & Ht & HP) Hk. unfold bind.
  destruct (m w) as [w1 [a|e|]] eqn:Hmw; simpl in *; eauto.
  destruct (Hk w1 a eq_refl) as (t2 & Ht2 & HP2).
  exists (t ++ t2). rewrite Ht2, Ht, app_assoc. split; [reflexivity|].
  apply Forall_app; auto.
Qed.

Lemma emits_at_try (P : event -> Prop) {A} (m : M A) (h : exn -> M A) w :
  (exists t, trace (fst (m w)) = trace w ++ t /\ Forall P t) ->
  (forall e, emits P (h e)) ->
  exists t, trace (fst (try_except m h w)) = trace w ++ t /\ Forall P t.
Proof.
  intros (t & Ht & HP) Hh. unfold try_except.
  destruct (m w) as [w1 [a|e|]] eqn:Hmw; simpl in *; eauto.
  destruct (Hh e w1) as (t2 & Ht2 & HP2).
  exists (t ++ t2). rewrite Ht2, Ht, app_assoc. split; [reflexivity|].
  apply Forall_app; auto.
Qed.

Lemma gets_only_notify Q m : gets_only Q (EvNotify m).
Proof. exact I. Qed.
Lemma gets_only_write Q p : gets_only Q (EvWrite p).
Proof. exact I. Qed.
Lemma gets_only_append Q p l : gets_only Q (EvAppend p l).
Proof. exact I. Qed.
Lemma gets_only_page Q p : gets_only Q (EvPage p).
Proof. exact I. Qed.

Lemma notify_world self m w w1 a :
  BaseAsyncDownloader.notify self m w = (w1, Val a) -> db w1 = db w.
Proof.
  unfold BaseAsyncDownloader.notify, when, emit, ret.
  destruct (progress_callback self); intros [= <- _]; reflexivity.
Qed.

Lemma load_ids_result E p w w1 ids :
  load_ids E p w = (w1, Val ids) -> w1 = w /\ ids = stored_ids w p.
Proof.
  unfold load_ids, stored_ids. destruct (db w !! p).
  - destruct (io_ok E p); [|discriminate]. intros [= <- <-]. auto.
  - intros [= <- <-]. auto.
Qed.

(** Every file request of the e621 loop is for a post served on some
    page that passes the blacklist and the Seen-ID filter. *)
Lemma e621_page_loop_emits E api json_dump self tags site blacklist max_pages ai db
    out ids :
  forall fuel page,
    emits (gets_only (fun u => exists page item,
                          item ∈ e621_served api page
                          /\ e621_passes site blacklist db ids item u))
      (E621.page_loop E api json_dump self fuel tags site blacklist max_pages
                      ai db out ids page).
Proof.
  set (Q := fun u => exists page item, _).
  assert (HN := gets_only_notify Q). assert (HW := gets_only_write Q).
  assert (HA := gets_only_append Q).
  induction fuel as [|fuel IH]; intros page; [apply emits_timeout|].
  cbn [E621.page_loop].
  apply emits_bind; [apply calm_emits, calm_notify; auto | intros _ _ _].
  apply emits_bind; [apply calm_emits, calm_emit; exact I | intros _ _ _].
  assert (Hret : emits (gets_only Q) (ret tt)) by apply calm_emits, calm_ret.
  destruct (api page) as [|code json] eqn:Hapi; [exact Hret|].
  destruct (code =? 200) eqn:Hcode; [|exact Hret]. cbn [negb].
  apply Z.eqb_eq in Hcode. subst code.
  destruct json as [data|]; [|exact Hret].
  destruct (E621.is_api_limit data); [exact Hret|].
  destruct data as [message posts|];
    [|apply emits_bind; [apply calm_emits, calm_raise | discriminate]].
  apply emits_bind; [apply calm_emits, calm_ret | intros w0 posts0 [= <-]].
  destruct (bool_decide (default [] posts = [])) eqn:Hempty;
    [apply calm_emits, calm_notify; auto|].
  destruct (_ && _)%bool; [apply calm_emits, calm_notify; auto|].
  destruct posts as [posts|]; [|rewrite bool_decide_eq_true_2 in Hempty by reflexivity;
                                discriminate].
  apply emits_bind; [apply calm_emits, e621_approve_calm; auto | intros w1 approved Happ].
  apply e621_approve_passes in Happ.
  apply emits_bind; [|intros _ _ _].
  - apply calm_emits, calm_when, e621_download_page_calm; auto.
    eapply Forall_impl; [exact Happ|].
    intros d (item & Hin & Hp). exists page, item. split; [|exact Hp].
    unfold e621_served. rewrite Hapi. exact Hin.
  - apply emits_bind; [apply calm_emits, calm_notify; auto | intros _ _ _].
    apply IH.
Qed.

(** The requests of a whole e621 run, from any world [w]. *)
Lemma e621_run_requests E api json_dump self fuel tags site blacklist max_pages ai db
    out w :
  exists t,
    trace (fst (E621.download_by_tags E api json_dump self fuel tags site blacklist
                  max_pages ai db out w)) = trace w ++ t
    /\ forall u, u ∈ gets t ->
         exists page item,
           item ∈ e621_served api page
           /\ e621_passes site (default [] blacklist) db
                (if Py.truthy_opt db then stored_ids w (E621.db_path_of site) else ∅)
                item u.
Proof.
  set (ids := if Py.truthy_opt db then _ else ∅).
  set (Q := fun u => exists page item,
              item ∈ e621_served api page
              /\ e621_passes site (default [] blacklist) db ids item u).
  assert (HN := gets_only_notify Q). assert (HW := gets_only_write Q).
  assert (HA := gets_only_append Q).
  cut (exists t,
          trace (fst (E621.download_by_tags E api json_dump self fuel tags site
                        blacklist max_pages ai db out w)) = trace w ++ t
          /\ Forall (gets_only Q) t).
  { intros (t & Ht & HP). exists t. split; [exact Ht|].
    intros u Hu. exact (gets_only_gets Q t u HP Hu). }
  unfold E621.download_by_tags, E621.download_by_tags_try.
  apply emits_at_try; [|intros e; apply calm_emits; calm_auto].
  apply emits_at_bind; [apply calm_emits, calm_notify; auto | intros w1 [] Hn].
  apply emits_at_bind.
  { apply calm_emits. destruct (Py.truthy_opt db); [apply calm_load_ids | apply calm_ret];
      auto. }
  intros w2 ids2 Hl.
  assert (Hids : ids2 = ids).
  { unfold ids. destruct (Py.truthy_opt db).
    - apply load_ids_result in Hl as [_ ->]. unfold stored_ids.
      rewrite (notify_world _ _ _ _ _ Hn). reflexivity.
    - injection Hl as _ <-. reflexivity. }
  subst ids2.
  apply emits_bind; [apply e621_page_loop_emits | intros _ _ _].
  apply calm_emits. calm_auto.
Qed.

(** The e621 family honours the blacklist: a requested file belongs to
    a served post none of whose collected tags is blacklisted. *)
Lemma e621_blacklist_honoured E api json_dump self fuel tags site blacklist
    max_pages ai db out w :
  exists t,
    trace (fst (E621.download_by_tags E api json_dump self fuel tags site
                  (Some blacklist) max_pages ai db out w)) = trace w ++ t
    /\ forall u, u ∈ gets t ->
         exists page item f,
           item ∈ e621_served api page
           /\ E621.post_file item = Some f /\ E621.file_url f = Some u
           /\ forall tag, tag ∈ e621_tags site item -> tag ∉ blacklist.
Proof.
  destruct (e621_run_requests E api json_dump self fuel tags site (Some blacklist)
              max_pages ai db out w) as (t & Ht & Hq).
  exists t. split; [exact Ht|]. intros u Hu.
  destruct (Hq u Hu) as (page & item & Hin & n & _ & (f & Hf & Hfu) & Hbl & _).
  exists page, item, f. auto.
Qed.

(** The e621 family honours the Seen-ID file: with dedup on, a
    requested file belongs to a served post whose id is not a line of
    db/<site>.db at the start of the job. *)
Lemma e621_seen_honoured E api json_dump self fuel tags site blacklist
    max_pages ai db_file out w lines :
  Py.truthy_opt db_file = true ->
  db w !! E621.db_path_of site = Some lines ->
  exists t,
    trace (fst (E621.download_by_tags E api json_dump self fuel tags site
                  blacklist max_pages ai db_file out w)) = trace w ++ t
    /\ forall u, u ∈ gets t ->
         exists page item f n,
           item ∈ e621_served api page
           /\ E621.post_file item = Some f /\ E621.file_url f = Some u
           /\ E621.post_id item = Some n
           /\ Py.str n ∉ lines.
Proof.
  intros Hdb Hlines.
  destruct (e621_run_requests E api json_dump self fuel tags site blacklist
              max_pages ai db_file out w) as (t & Ht & Hq).
  exists t. split; [exact Ht|]. intros u Hu.
  destruct (Hq u Hu) as (page & item & Hin & n & Hn & (f & Hf & Hfu) & _ & Hids).
  exists page, item, f, n. repeat (split; [assumption|]).
  intros Hline. rewrite Hdb in Hids. apply (Hids eq_refl).
  eapply stored_ids_line; eassumption.
Qed.

End FilteredRuns.

Section FurbooruFilters.

Lemma blacklisted_false blacklist post_tags :
  Furbooru.blacklisted blacklist post_tags = false ->
  forall t, t ∈ post_tags -> t ∉ blacklist.
Proof.
  unfold Furbooru.blacklisted. intros Hex t Ht Hb.
  assert (Htrue : existsb (fun tag => bool_decide (tag ∈ blacklist)) post_tags = true).
  { apply existsb_exists. exists t. split; [apply list_elem_of_In, Ht|].
    apply bool_decide_eq_true_2, Hb. }
  congruence.
Qed.

Lemma furbooru_check_item_passes blacklist db_file ids item w d :
  snd (Furbooru.check_item blacklist db_file ids item w) = Val (Some d) ->
  furbooru_passes blacklist db_file ids item (Furbooru.image_address d).
Proof.
  unfold Furbooru.check_item, furbooru_passes, ret, raise.
  destruct (default false _); [discriminate|].
  destruct (Furbooru.blacklisted _ _) eqn:Hbl; [discriminate|].
  destruct (Furbooru.img_id item) as [n|]; [|discriminate].
  destruct (Furbooru.img_full item) as [u|]; simpl; [|discriminate].
  destruct (Py.truthy u); simpl; [|discriminate].
  destruct (Py.truthy_opt db_file && _)%bool eqn:Hd; [discriminate|].
  intros [= <-]. simpl. exists n. repeat split.
  - apply blacklisted_false. exact Hbl.
  - intros Ht. rewrite Ht in Hd. simpl in Hd.
    apply bool_decide_eq_false in Hd. exact Hd.
Qed.

Lemma furbooru_approve_passes blacklist db_file ids images w approved :
  snd (Furbooru.approve blacklist db_file ids images w) = Val approved ->
  Forall (fun d => exists item, item ∈ images
                     /\ furbooru_passes blacklist db_file ids item
                          (Furbooru.image_address d))
         approved.
Proof.
  revert w approved. induction images as [|item rest IH]; intros w approved; simpl.
  - intros [= <-]. constructor.
  - unfold bind.
    destruct (Furbooru.check_item blacklist db_file ids item w) as [w1 [r|e|]] eqn:Hc;
      try discriminate.
    destruct (Furbooru.approve blacklist db_file ids rest w1) as [w2 [l|e|]] eqn:Ha;
      try discriminate.
    simpl. intros [= <-].
    assert (Hl : Forall (fun d => exists it, it ∈ item :: rest
                  /\ furbooru_passes blacklist db_file ids it
                       (Furbooru.image_address d)) l).
    { eapply Forall_impl; [apply (IH w1 l); rewrite Ha; reflexivity|].
      intros d (it & Hin & Hp). exists it. split; [right; exact Hin | exact Hp]. }
    destruct r as [d|]; [|exact Hl].
    constructor; [|exact Hl].
    exists item. split; [left|].
    apply (furbooru_check_item_passes blacklist db_file ids item w d).
    rewrite Hc. reflexivity.
Qed.

Lemma furbooru_page_loop_emits E api self tags blacklist max_pages db_file out ids :
  forall fuel page,
    emits (gets_only (fun u => exists page item,
                          item ∈ furbooru_served api page
                          /\ furbooru_passes blacklist db_file ids item u))
      (Furbooru.page_loop E api self fuel tags blacklist max_pages db_file out
                          ids page).
Proof.
  set (Q := fun u => exists page item, _).
  assert (HN := gets_only_notify Q). assert (HW := gets_only_write Q).
  assert (HA := gets_only_append Q).
  induction fuel as [|fuel IH]; intros page; [apply emits_timeout|].
  cbn [Furbooru.page_loop].
  apply emits_bind; [apply calm_emits, calm_notify; auto | intros _ _ _].
  apply emits_bind; [apply calm_emits, calm_emit; exact I | intros _ _ _].
  assert (Hret : emits (gets_only Q) (ret tt)) by apply calm_emits, calm_ret.
  destruct (api page) as [|code json] eqn:Hapi; [exact Hret|].
  destruct (code =? 200) eqn:Hcode; [|exact Hret]. cbn [negb].
  apply Z.eqb_eq in Hcode. subst code.
  destruct json as [data|]; [|exact Hret].
  destruct data as [total images|];
    [|apply emits_bind; [apply calm_emits, calm_raise | discriminate]].
  apply emits_bind; [apply calm_emits, calm_ret | intros w0 total0 [= <-]].
  destruct (default 0 total =? 0); [apply calm_emits, calm_notify; auto|].
  destruct (_ && _)%bool; [apply calm_emits, calm_notify; auto|].
  apply emits_bind;
    [apply calm_emits, furbooru_approve_calm; auto | intros w1 approved Happ].
  apply furbooru_approve_passes in Happ.
  apply emits_bind; [|intros _ _ _].
  - apply calm_emits, calm_when, furbooru_download_page_calm; auto.
    eapply Forall_impl; [exact Happ|].
    intros d (item & Hin & Hp). exists page, item. split; [|exact Hp].
    unfold furbooru_served. rewrite Hapi.
    destruct images as [images|]; [exact Hin | inversion Hin].
  - apply emits_bind; [apply calm_emits, calm_notify; auto | intros _ _ _].
    apply IH.
Qed.

Lemma furbooru_run_requests E api self fuel tags blacklist max_pages db_file out w :
  exists t,
    trace (fst (Furbooru.download_by_tags E api self fuel tags blacklist
                  max_pages db_file out w)) = trace w ++ t
    /\ forall u, u ∈ gets t ->
         exists page item,
           item ∈ furbooru_served api page
           /\ furbooru_passes (default [] blacklist) db_file
                (if Py.truthy_opt db_file then stored_ids w Furbooru.db_path else ∅)
                item u.
Proof.
  set (ids := if Py.truthy_opt db_file then _ else ∅).
  set (Q := fun u => exists page item,
              item ∈ furbooru_served api page
              /\ furbooru_passes (default [] blacklist) db_file ids item u).
  assert (HN := gets_only_notify Q). assert (HW := gets_only_write Q).
  assert (HA := gets_only_append Q).
  cut (exists t,
          trace (fst (Furbooru.download_by_tags E api self fuel tags blacklist
                        max_pages db_file out w)) = trace w ++ t
          /\ Forall (gets_only Q) t).
  { intros (t & Ht & HP). exists t. split; [exact Ht|].
    intros u Hu. exact (gets_only_gets Q t u HP Hu). }
  unfold Furbooru.download_by_tags, Furbooru.download_by_tags_try.
  apply emits_at_try; [|intros e; apply calm_emits; calm_auto].
  apply emits_at_bind; [apply calm_emits, calm_notify; auto | intros w1 [] Hn].
  apply emits_at_bind.
  { apply calm_emits.
    destruct (Py.truthy_opt db_file); [apply calm_load_ids | apply calm_ret]; auto. }
  intros w2 ids2 Hl.
  assert (Hids : ids2 = ids).
  { unfold ids. destruct (Py.truthy_opt db_file).
    - apply load_ids_result in Hl as [_ ->]. unfold stored_ids.
      rewrite (notify_world _ _ _ _ _ Hn). reflexivity.
    - injection Hl as _ <-. reflexivity. }
  subst ids2.
  apply emits_bind; [apply furbooru_page_loop_emits | intros _ _ _].
  apply calm_emits. calm_auto.
Qed.

(** Furbooru honours the blacklist. *)
Lemma furbooru_blacklist_honoured E api self fuel tags blacklist max_pages
    db_file out w :
  exists t,
    trace (fst (Furbooru.download_by_tags E api self fuel tags (Some blacklist)
                  max_pages db_file out w)) = trace w ++ t
    /\ forall u, u ∈ gets t ->
         exists page item,
           item ∈ furbooru_served api page
           /\ Furbooru.img_full item = Some u
           /\ forall tag, tag ∈ default [] (Furbooru.img_tags item) ->
                          tag ∉ blacklist.
Proof.
  destruct (furbooru_run_requests E api self fuel tags (Some blacklist)
              max_pages db_file out w) as (t & Ht & Hq).
  exists t. split; [exact Ht|]. intros u Hu.
  destruct (Hq u Hu) as (page & item & Hin & n & _ & Hfu & Hbl & _).
  exists page, item. auto.
Qed.

(** Furbooru honours the Seen-ID file. *)
Lemma furbooru_seen_honoured E api self fuel tags blacklist max_pages db_file
    out w lines :
  Py.truthy_opt db_file = true ->
  db w !! Furbooru.db_path = Some lines ->
  exists t,
    trace (fst (Furbooru.download_by_tags E api self fuel tags blacklist
                  max_pages db_file out w)) = trace w ++ t
    /\ forall u, u ∈ gets t ->
         exists page item n,
           item ∈ furbooru_served api page
           /\ Furbooru.img_full item = Some u
           /\ Furbooru.img_id item = Some n
           /\ Py.str n ∉ lines.
Proof.
  intros Hdb Hlines.
  destruct (furbooru_run_requests E api self fuel tags blacklist
              max_pages db_file out w) as (t & Ht & Hq).
  exists t. split; [exact Ht|]. intros u Hu.
  destruct (Hq u Hu) as (page & item & Hin & n & Hn & Hfu & _ & Hids).
  exists page, item, n. repeat (split; [assumption|]).
  intros Hline. rewrite Hdb in Hids. apply (Hids eq_refl).
  eapply stored_ids_line; eassumption.
Qed.

End FurbooruFilters.

(** ** The Seen-ID file records every append *)

Section Recorded.
















End Recorded.



Section RecordedRuns.







End RecordedRuns.

(** ** The limit page of the e621 and Furbooru loops *)

Section LimitPage.

Lemma gets_app t1 t2 : gets (t1 ++ t2) = gets t1 ++ gets t2.
Proof. unfold gets. apply omap_app. Qed.

Lemma notify_gets self m w :
  gets (trace (fst (BaseAsyncDownloader.notify self m w))) = gets (trace w).
Proof.
  rewrite notify_trace, gets_app.
  destruct (progress_callback self); simpl; rewrite app_nil_r; reflexivity.
Qed.

Lemma notify_val self m w : snd (BaseAsyncDownloader.notify self m w) = Val tt.
Proof.
  unfold BaseAsyncDownloader.notify, when. destruct (progress_callback self);
    reflexivity.
Qed.

(** When the e621 loop reaches a page at or beyond a non-zero
    [max_pages], it requests the page and stops without a single file
    request, whatever the page holds. *)
Lemma e621_limit_page_unprocessed E api json_dump self fuel tags site blacklist k ai
    db_file out ids page message posts w :
  k <> 0 -> k <= page ->
  api page = E621.ApiResponse 200 (Some (E621.DataDict message (Some posts))) ->
  E621.is_api_limit (E621.DataDict message (Some posts)) = false ->
  posts <> [] ->
  let r := E621.page_loop E api json_dump self (S fuel) tags site blacklist (Some k)
                          ai db_file out ids page w in
  snd r = Val tt
  /\ gets (trace (fst r)) = gets (trace w)
  /\ page_fetches (trace (fst r)) = S (page_fetches (trace w)).
Proof.
  intros Hk Hle Hapi Hlim Hposts r. subst r.
  apply Z.eqb_neq in Hk. apply Z.leb_le in Hle.
  cbn [E621.page_loop].
  unfold bind, BaseAsyncDownloader.notify, when, emit, ret, Py.truthy_int.
  destruct (progress_callback self); cbn [fst snd trace default from_option id];
    rewrite Hapi; cbn [Z.eqb Pos.eqb negb]; rewrite Hlim;
    cbn [E621.get_posts ret default from_option id];
    rewrite (bool_decide_eq_false_2 _ Hposts);
    cbn [default from_option id]; rewrite Hk, Hle; cbn [negb andb fst snd trace];
    (split; [reflexivity|]); split;
    rewrite ?gets_app, ?page_fetches_app; cbn; rewrite ?app_nil_r; try reflexivity;
    repeat match goal with
           | |- context [decide ?P] => destruct (decide P) as [?|?]; try tauto
           end; simpl; lia.
Qed.

Lemma furbooru_limit_page_unprocessed E api self fuel tags blacklist k db_file out
    ids page total images w :
  k <> 0 -> k <= page ->
  api page = Furbooru.ApiResponse 200
               (Some (Furbooru.DataDict (Some total) (Some images))) ->
  total <> 0 ->
  let r := Furbooru.page_loop E api self (S fuel) tags blacklist (Some k) db_file
                              out ids page w in
  snd r = Val tt
  /\ gets (trace (fst r)) = gets (trace w)
  /\ page_fetches (trace (fst r)) = S (page_fetches (trace w)).
Proof.
  intros Hk Hle Hapi Htotal r. subst r.
  apply Z.eqb_neq in Hk. apply Z.leb_le in Hle. apply Z.eqb_neq in Htotal.
  cbn [Furbooru.page_loop].
  unfold bind, BaseAsyncDownloader.notify, when, emit, ret, Py.truthy_int.
  destruct (progress_callback self); cbn [fst snd trace default from_option id];
    rewrite Hapi; cbn [Z.eqb Pos.eqb negb];
    cbn [Furbooru.get_total ret default from_option id];
    rewrite Htotal, Hk, Hle; cbn [negb andb fst snd trace];
    (split; [reflexivity|]); split;
    rewrite ?gets_app, ?page_fetches_app; cbn; rewrite ?app_nil_r; try reflexivity;
    repeat match goal with
           | |- context [decide ?P] => destruct (decide P) as [?|?]; try tauto
           end; simpl; lia.
Qed.

End LimitPage.

(** ** The rule34 downloader and the Seen-ID file *)

Section Rule34Store.

Lemma not_append_notify m : not_append (EvNotify m).
Proof. exact I. Qed.
Lemma not_append_write p : not_append (EvWrite p).
Proof. exact I. Qed.

Lemma rule34_page_loop_no_append E api self max_pages dir :
  forall fuel count page,
    emits not_append (Rule34.page_loop E api self fuel max_pages dir count page).
Proof.
  assert (HN := not_append_notify). assert (HW := not_append_write).
  induction fuel as [|fuel IH]; intros count page; [apply emits_timeout|].
  cbn [Rule34.page_loop].
  destruct (_ && _)%bool; [apply calm_emits, calm_ret|].
  apply emits_bind; [apply calm_emits, calm_notify; auto | intros _ _ _].
  apply emits_bind.
  { unfold Rule34.fetch_json. apply calm_emits.
    apply calm_bind; [apply calm_get_proxy | intros _].
    apply calm_bind; [apply calm_emit; exact I | intros _]. apply calm_ret. }
  intros _ data _.
  destruct data as [[items|truth]|]; [| |apply calm_emits, calm_ret].
  - destruct items as [|it items]; [apply calm_emits, calm_ret|].
    apply emits_bind; [apply calm_emits, calm_notify; auto | intros _ _ _].
    apply emits_bind; [|intros _ c _].
    + apply calm_emits, rule34_download_each_calm; auto.
      apply Forall_forall. intros; exact I.
    + destruct (_ <? _)%nat; [apply calm_emits, calm_ret | apply IH].
  - destruct truth; [|apply calm_emits, calm_ret].
    apply emits_bind; [apply calm_emits, calm_notify; auto | intros _ _ _].
    apply calm_emits, calm_ret.
Qed.

Lemma appends_none t : Forall not_append t -> appends t = [].
Proof.
  induction 1 as [|e t He _ IH]; [reflexivity|].
  unfold appends in *. simpl. destruct e; simpl in *; try exact IH. destruct He.
Qed.

(** No run of the rule34 entry point appends to a Seen-ID file,
    whatever [db_file] is and whatever it downloads. *)
Lemma rule34_never_appends E api fuel tags blacklist max_pages db_file output_dir
    cb proxies use w :
  exists t,
    trace (fst (Rule34.download_rule34_tags E api fuel tags blacklist max_pages
                  db_file output_dir cb proxies use w)) = trace w ++ t
    /\ appends t = [].
Proof.
  assert (HN := not_append_notify). assert (HW := not_append_write).
  cut (emits not_append
         (Rule34.download_rule34_tags E api fuel tags blacklist max_pages
            db_file output_dir cb proxies use)).
  { intros H. destruct (H w) as (t & Ht & HP). exists t.
    split; [exact Ht | apply appends_none, HP]. }
  unfold Rule34.download_rule34_tags, Rule34.download_by_tags,
    Rule34.download_by_tags_try.
  apply emits_try; [|intros e; apply calm_emits;
                      apply calm_bind; [apply calm_notify; auto | intros _];
                      apply calm_ret].
  apply emits_bind; [apply calm_emits, calm_notify; auto | intros _ _ _].
  apply emits_bind; [apply calm_emits, calm_mkdir | intros _ _ _].
  apply emits_bind; [apply rule34_page_loop_no_append | intros _ c _].
  apply emits_bind; [apply calm_emits, calm_notify; auto | intros _ _ _].
  apply calm_emits, calm_ret.
Qed.

End Rule34Store.

(** * Further properties of the code *)

(** ** Sanitizers: fixed points and lengths *)

Section SanitizerMore.

Lemma length_append a b :
  String.length (a +:+ b) = (String.length a + String.length b)%nat.
Proof. induction a as [|c a IH]; simpl; [reflexivity|]. rewrite IH. reflexivity. Qed.

Lemma replace_absent old new s :
  ~ Py.InStr old s -> Py.replace old new s = s.
Proof.
  induction s as [|c s IH]; simpl; [reflexivity|].
  intros H. destruct (decide (c = old)) as [->|Hne]; [exfalso; auto|].
  rewrite IH by tauto. reflexivity.
Qed.

Lemma fold_replace_absent l s :
  (forall c, c ∈ l -> ~ Py.InStr c s) ->
  fold_left (fun acc ch => Py.replace ch "_" acc) l s = s.
Proof.
  induction l as [|ch l IH]; simpl; [reflexivity|].
  intros H. rewrite replace_absent by (apply H; left).
  apply IH. intros c Hc. apply H. right. exact Hc.
Qed.

Lemma remove_class_absent cls s :
  (forall c, c ∈ cls -> ~ Py.InStr c s) -> Py.remove_class cls s = s.
Proof.
  induction s as [|c s IH]; simpl; [reflexivity|].
  intros H. destruct (decide (c ∈ cls)) as [Hin|Hnin].
  - exfalso. apply (H c Hin). left. reflexivity.
  - rewrite IH; [reflexivity|]. intros d Hd Hs. apply (H d Hd). right. exact Hs.
Qed.

Lemma lstrip_by_idem p s : Py.lstrip_by p (Py.lstrip_by p s) = Py.lstrip_by p s.
Proof.
  induction s as [|c s IH]; simpl; [reflexivity|].
  destruct (p c) eqn:Hp; [exact IH|]. simpl. rewrite Hp. reflexivity.
Qed.

Lemma rstrip_by_idem p s : Py.rstrip_by p (Py.rstrip_by p s) = Py.rstrip_by p s.
Proof.
  induction s as [|c s IH]; simpl; [reflexivity|].
  destruct (Py.rstrip_by p s) as [|d r] eqn:Hr.
  - destruct (p c) eqn:Hp; simpl; [reflexivity|]. rewrite Hp. reflexivity.
  - simpl in *. rewrite IH. reflexivity.
Qed.

(** Stripping the left end of a right-stripped text keeps it
    right-stripped. *)
Lemma rstrip_lstrip p s :
  Py.rstrip_by p s = s -> Py.rstrip_by p (Py.lstrip_by p s) = Py.lstrip_by p s.
Proof.
  induction s as [|c s IH]; simpl; [reflexivity|].
  destruct (Py.rstrip_by p s) as [|d r] eqn:Hr.
  - destruct (p c) eqn:Hp; [discriminate|].
    intros [= <-]. simpl. rewrite Hp. reflexivity.
  - intros [= Hs]. destruct (p c) eqn:Hp.
    + apply IH. congruence.
    + simpl. rewrite Hr, Hs. reflexivity.
Qed.

Lemma strip_chars_idem chars s :
  Py.strip_chars chars (Py.strip_chars chars s) = Py.strip_chars chars s.
Proof.
  unfold Py.strip_chars.
  rewrite rstrip_lstrip by apply rstrip_by_idem.
  apply lstrip_by_idem.
Qed.

Lemma length_lstrip p s : (String.length (Py.lstrip_by p s) <= String.length s)%nat.
Proof.
  induction s as [|c s IH]; simpl; [lia|]. destruct (p c); simpl; lia.
Qed.

Lemma length_rstrip p s : (String.length (Py.rstrip_by p s) <= String.length s)%nat.
Proof.
  induction s as [|c s IH]; simpl; [lia|].
  destruct (Py.rstrip_by p s); [destruct (p c)|]; simpl in *; lia.
Qed.

Lemma length_fold_replace l s :
  String.length (fold_left (fun acc ch => Py.replace ch "_" acc) l s)
  = String.length s.
Proof.
  revert s. induction l as [|ch l IH]; intros s; simpl; [reflexivity|].
  rewrite IH. apply length_replace_char.
Qed.

Lemma length_remove_class cls s :
  (String.length (Py.remove_class cls s) <= String.length s)%nat.
Proof.
  induction s as [|c s IH]; simpl; [lia|].
  destruct (decide (c ∈ cls)); simpl; lia.
Qed.

End SanitizerMore.

Lemma base_sanitize_stripped s :
  Py.strip_chars ". " (Base.sanitize_filename s) = Base.sanitize_filename s.
Proof.
  unfold Base.sanitize_filename.
  set (t := Py.strip_chars ". " (Py.replace _ _ _)).
  destruct (Py.truthy t); [apply strip_chars_idem | reflexivity].
Qed.

Lemma base_sanitize_truthy s : Py.truthy (Base.sanitize_filename s) = true.
Proof.
  unfold Base.sanitize_filename.
  set (t := Py.strip_chars _ _).
  destruct (Py.truthy t) eqn:Ht; [exact Ht | reflexivity].
Qed.

(** X1: sanitizing a name twice with
    [BaseAsyncDownloader.sanitize_filename] gives the same name as
    sanitizing it once. *)
Theorem X1_base_sanitize_idempotent (s : string) :
  Base.sanitize_filename (Base.sanitize_filename s) = Base.sanitize_filename s.
Proof.
  destruct (base_sanitize_safe s) as (Hunsafe & Hspace & _).
  pose proof (base_sanitize_stripped s) as Hstrip.
  pose proof (base_sanitize_truthy s) as Hne.
  remember (Base.sanitize_filename s) as r eqn:Hr.
  unfold Base.sanitize_filename.
  rewrite fold_replace_absent by exact Hunsafe.
  rewrite replace_absent by exact Hspace.
  rewrite Hstrip, Hne. reflexivity.
Qed.

(** X2: the name [BaseAsyncDownloader.sanitize_filename] returns is
    never longer than its input, except that an input that is emptied
    becomes the seven letters "unnamed". *)
Theorem X2_base_sanitize_length (s : string) :
  (String.length (Base.sanitize_filename s) <= Nat.max (String.length s) 7)%nat.
Proof.
  unfold Base.sanitize_filename.
  destruct (Py.truthy _); [|simpl; lia].
  unfold Py.strip_chars.
  etransitivity; [apply length_lstrip|].
  etransitivity; [apply length_rstrip|].
  rewrite length_replace_char, length_fold_replace. lia.
Qed.

(** X3: the folder name of [create_folder] is a fixed point: computing
    the folder name of a folder name returns it unchanged. *)
Theorem X3_folder_name_idempotent (s : string) :
  DirectoryManager.create_folder_name (DirectoryManager.create_folder_name s)
  = DirectoryManager.create_folder_name s.
Proof.
  destruct (folder_name_safe s) as (Hunsafe & Hspace & Hlen).
  remember (DirectoryManager.create_folder_name s) as r eqn:Hr.
  unfold DirectoryManager.create_folder_name,
    DirectoryManager._replace_spaces_with_underscores,
    DirectoryManager._sanitize_folder_name,
    DirectoryManager._truncate_folder_name.
  rewrite remove_class_absent by exact Hunsafe.
  assert (Hlt : (DirectoryManager.max_folder_name_length <? String.length r)%nat
                = false).
  { apply Nat.ltb_ge. exact Hlen. }
  rewrite Hlt. apply replace_absent. exact Hspace.
Qed.

Lemma length_slice_to n s :
  0 <= n -> (String.length (Py.slice_to n s) <= Z.to_nat n)%nat.
Proof.
  intros Hn. unfold Py.slice_to.
  destruct (n <? 0) eqn:Hneg; [apply Z.ltb_lt in Hneg; lia|].
  apply length_take.
Qed.

(** X4: [AsyncDirectoryManager.sanitize_filename] returns at most 200
    characters whenever the extension of the cleaned name (the text
    after its last dot) is shorter than 200 characters. *)
Theorem X4_dm_sanitize_length (filename : string) :
  (String.length (extension (dm_clean filename)) < 200)%nat ->
  (String.length (DirectoryManager.sanitize_filename filename) <= 200)%nat.
Proof.
  intros Hext. unfold DirectoryManager.sanitize_filename.
  fold (dm_clean filename). set (clean := dm_clean filename) in *.
  set (cut := if (200 <? String.length clean)%nat then _ else clean).
  assert (Hcut : (String.length cut <= 200)%nat).
  { unfold cut. destruct (200 <? String.length clean)%nat eqn:Hlong;
      [|apply Nat.ltb_ge in Hlong; exact Hlong].
    unfold extension in Hext.
    destruct (Py.rsplit1 "." clean) as [[name_part ext_part]|].
    - rewrite length_append. destruct ext_part as [|c e].
      + change (Py.truthy EmptyString) with false. cbv iota.
        pose proof (length_slice_to 200 name_part ltac:(lia)) as Hs.
        change (String.length EmptyString) with 0%nat. lia.
      + change (Py.truthy (String c e)) with true. cbv iota.
        set (ext := String c e) in *.
        pose proof (length_slice_to (200 - Z.of_nat (String.length ext) - 1)
                      name_part ltac:(lia)) as Hs.
        change (String.length ("." +:+ ext)) with (S (String.length ext)).
        lia.
    - rewrite length_append.
      change (Py.truthy EmptyString) with false. cbv iota.
      pose proof (length_slice_to 200 clean ltac:(lia)) as Hs.
      change (String.length EmptyString) with 0%nat. lia. }
  destruct (_ || _)%bool; [change (String.length "unnamed") with 7%nat; lia
                          | exact Hcut].
Qed.

(** X4 on a name of 300 letters with the extension txt. *)
Lemma X4_dm_sanitize_length_witness :
  (String.length (DirectoryManager.sanitize_filename (letters 300 +:+ ".txt"))
   <= 200)%nat.
Proof.
  apply (X4_dm_sanitize_length (letters 300 +:+ ".txt")).
  vm_compute. lia.
Defined.

(** ** [BaseAsyncDownloader]: proxy rotation and [download_file] *)

Section BaseMore.
Variable E : env.
Variable self : downloader.

Lemma with_index_same w : with_index (current_proxy_index w) w = w.
Proof. destruct w; reflexivity. Qed.

Lemma get_proxy_step w :
  use_proxies self = true -> proxy_list self <> [] ->
  BaseAsyncDownloader._get_proxy self w
  = (with_index (S (current_proxy_index w) mod length (proxy_list self))%nat w,
     Val (proxy_list self !! current_proxy_index w)).
Proof.
  intros Hu Hl. unfold BaseAsyncDownloader._get_proxy. rewrite Hu.
  rewrite bool_decide_eq_false_2 by exact Hl. reflexivity.
Qed.

(** Apart from the position in the proxy list and the trace,
    [download_file] changes the world at most at [file_path] and at its
    parent directories. *)
Lemma download_file_elsewhere url file_path progress_info w p :
  p <> file_path ->
  files (fst (BaseAsyncDownloader.download_file E self url file_path
                progress_info w)) !! p = files w !! p.
Proof.
  intros Hp. unfold BaseAsyncDownloader.download_file, try_except, bind.
  destruct (notify_storage self (MsgDownloading progress_info) w)
    as (w1 & -> & (Hf1 & _ & _) & _).
  destruct (get_proxy_storage self w1) as (w2 & proxy & -> & (Hf2 & _ & _) & _).
  unfold BaseAsyncDownloader.session_get, bind, emit.
  destruct (http_get E proxy url) as [r|]; simpl; [|congruence].
  destruct (status r =? 200); simpl; [|congruence].
  unfold mkdir; simpl. destruct (io_ok E (parent file_path)); simpl; [|congruence].
  unfold write_file; simpl. destruct (io_ok E file_path); simpl; [|congruence].
  destruct (broken r); simpl; rewrite lookup_insert_ne by congruence; congruence.
Qed.

Lemma download_file_db url file_path progress_info w :
  db (fst (BaseAsyncDownloader.download_file E self url file_path
             progress_info w)) = db w.
Proof.
  unfold BaseAsyncDownloader.download_file, try_except, bind.
  destruct (notify_storage self (MsgDownloading progress_info) w)
    as (w1 & -> & (_ & _ & Hd1) & _).
  destruct (get_proxy_storage self w1) as (w2 & proxy & -> & (_ & _ & Hd2) & _).
  unfold BaseAsyncDownloader.session_get, bind, emit.
  destruct (http_get E proxy url) as [r|]; simpl; [|congruence].
  destruct (status r =? 200); simpl; [|congruence].
  unfold mkdir; simpl. destruct (io_ok E (parent file_path)); simpl; [|congruence].
  unfold write_file; simpl. destruct (io_ok E file_path); simpl; [|congruence].
  destruct (broken r); simpl; congruence.
Qed.

(** What [download_file] does once the response is known. *)
Lemma download_file_cases url file_path progress_info w :
  let res := BaseAsyncDownloader.download_file E self url file_path
               progress_info w in
  (snd res = Val true
   /\ exists proxy r,
        http_get E proxy url = Some r /\ status r = 200 /\ broken r = false
        /\ files (fst res) !! file_path
           = Some (String.concat EmptyString (chunks r))
        /\ parent file_path ∈ dirs (fst res))
  \/ snd res = Val false.
Proof.
  unfold BaseAsyncDownloader.download_file, try_except, bind.
  destruct (notify_storage self (MsgDownloading progress_info) w)
    as (w1 & -> & _ & _).
  destruct (get_proxy_storage self w1) as (w2 & proxy & -> & _ & _).
  unfold BaseAsyncDownloader.session_get, bind, emit.
  destruct (http_get E proxy url) as [r|] eqn:Hget; simpl; [|right; reflexivity].
  destruct (status r =? 200) eqn:Hst; simpl; [|right; reflexivity].
  apply Z.eqb_eq in Hst.
  unfold mkdir; simpl.
  destruct (io_ok E (parent file_path)); simpl; [|right; reflexivity].
  unfold write_file; simpl.
  destruct (io_ok E file_path); simpl; [|right; reflexivity].
  destruct (broken r) eqn:Hbr; simpl; [right; reflexivity|].
  left. split; [reflexivity|]. exists proxy, r.
  repeat (split; [assumption|]). split.
  - apply lookup_insert_eq.
  - set_solver.
Qed.

End BaseMore.

(** X5: with proxies in use, [k] successive calls of [_get_proxy] from
    position [i] return the proxies at positions [i], [i+1], ... taken
    modulo the length of the list, every one of them in range, and
    leave the position at [i + k] modulo the length; nothing else in
    the world changes. *)
Theorem X5_proxy_rotation (self : downloader) (k : nat) (w : world) :
  use_proxies self = true ->
  proxy_list self <> [] ->
  (current_proxy_index w < length (proxy_list self))%nat ->
  let n := length (proxy_list self) in
  let i := current_proxy_index w in
  get_proxies self k w
  = (with_index ((i + k) mod n)%nat w,
     Val ((fun j => proxy_list self !! ((i + j) mod n)%nat) <$> seq 0 k))
  /\ Forall is_Some ((fun j => proxy_list self !! ((i + j) mod n)%nat) <$> seq 0 k).
Proof.
  intros Hu Hl Hi n i. split.
  - subst i. revert w Hi. induction k as [|k IH]; intros w Hi.
    + simpl. unfold ret. rewrite Nat.add_0_r, Nat.mod_small by exact Hi.
      rewrite with_index_same. reflexivity.
    + cbn [get_proxies]. unfold bind at 1. rewrite get_proxy_step by assumption.
      fold n. unfold bind at 1.
      assert (Hn : (n <> 0)%nat).
      { unfold n. destruct (proxy_list self); [congruence | simpl; lia]. }
      assert (Hi' : (current_proxy_index
                       (with_index (S (current_proxy_index w) mod n) w) < n)%nat).
      { simpl. apply Nat.mod_upper_bound. exact Hn. }
      rewrite (IH _ Hi'). unfold ret. simpl current_proxy_index.
      f_equal.
      * unfold with_index; simpl. f_equal.
        rewrite Nat.Div0.add_mod_idemp_l. f_equal. lia.
      * f_equal. cbn [seq fmap list_fmap]. f_equal.
        -- rewrite Nat.add_0_r, Nat.mod_small by exact Hi. reflexivity.
        -- rewrite <- fmap_S_seq, <- list_fmap_compose.
           apply list_fmap_ext. intros _ j _. simpl.
           rewrite Nat.Div0.add_mod_idemp_l. do 2 f_equal. lia.
  - apply Forall_fmap, Forall_forall. intros j _. simpl.
    apply lookup_lt_is_Some. apply Nat.mod_upper_bound.
    destruct (proxy_list self); [congruence | simpl; lia].
Qed.

(** X5 on three proxies and seven calls from the start. *)
Lemma X5_proxy_rotation_witness :
  get_proxies proxied_downloader 7 empty_world
  = (with_index 1 empty_world,
     Val [Some "p0"; Some "p1"; Some "p2"; Some "p0"; Some "p1"; Some "p2";
          Some "p0"]).
Proof.
  refine (proj1 (X5_proxy_rotation proxied_downloader 7 empty_world _ _ _)).
  - reflexivity.
  - simpl. discriminate.
  - simpl. lia.
Defined.

(** X6: when the server answers 200 through every proxy, the stream
    does not break and the file system lets the directory and the file
    be created, [download_file] returns [True], the file holds the
    whole body, its parent directory exists, every other file is as
    before and no Seen-ID file changes. *)
Theorem X6_download_file_success (E : env) (self : downloader)
    (url file_path progress_info : string) (w : world) (r : response) :
  (forall proxy, http_get E proxy url = Some r) ->
  status r = 200 ->
  broken r = false ->
  io_ok E (parent file_path) = true ->
  io_ok E file_path = true ->
  let res := BaseAsyncDownloader.download_file E self url file_path
               progress_info w in
  snd res = Val true
  /\ files (fst res) !! file_path = Some (String.concat EmptyString (chunks r))
  /\ parent file_path ∈ dirs (fst res)
  /\ (forall p, p <> file_path -> files (fst res) !! p = files w !! p)
  /\ db (fst res) = db w.
Proof.
  intros Hget Hst Hbr Hdir Hfile res.
  assert (Hrest : forall p, p <> file_path -> files (fst res) !! p = files w !! p).
  { intros p Hp. apply download_file_elsewhere. exact Hp. }
  assert (Hdb : db (fst res) = db w) by apply download_file_db.
  revert Hrest Hdb. subst res.
  unfold BaseAsyncDownloader.download_file, try_except, bind.
  destruct (notify_storage self (MsgDownloading progress_info) w)
    as (w1 & -> & _ & _).
  destruct (get_proxy_storage self w1) as (w2 & proxy & -> & _ & _).
  unfold BaseAsyncDownloader.session_get, bind, emit.
  rewrite Hget. simpl. rewrite Hst. simpl.
  unfold mkdir; simpl. rewrite Hdir. simpl.
  unfold write_file; simpl. rewrite Hfile. simpl. rewrite Hbr. simpl.
  intros Hrest Hdb. split; [reflexivity|].
  split; [apply lookup_insert_eq|]. split; [set_solver|]. split; assumption.
Qed.

(** X6 on a server that answers every request with 200. *)
Lemma X6_download_file_success_witness :
  let res := BaseAsyncDownloader.download_file (constant_env 200 "img")
               plain_downloader "http://h/1.png" "media/x/1.png" "one"
               empty_world in
  snd res = Val true
  /\ files (fst res) !! "media/x/1.png" = Some "img"
  /\ "media/x" ∈ dirs (fst res)
  /\ (forall p, p <> "media/x/1.png" -> files (fst res) !! p = files empty_world !! p)
  /\ db (fst res) = db empty_world.
Proof.
  apply (X6_download_file_success (constant_env 200 "img") plain_downloader
           "http://h/1.png" "media/x/1.png" "one" empty_world
           {| status := 200; chunks := ["img"]; broken := false |});
    reflexivity.
Defined.

(** X7: when the stream of a 200 response breaks, [download_file]
    returns [False] and leaves the part of the body that arrived in the
    file. *)
Theorem X7_download_file_partial (E : env) (self : downloader)
    (url file_path progress_info : string) (w : world) (r : response) :
  (forall proxy, http_get E proxy url = Some r) ->
  status r = 200 ->
  broken r = true ->
  io_ok E (parent file_path) = true ->
  io_ok E file_path = true ->
  let res := BaseAsyncDownloader.download_file E self url file_path
               progress_info w in
  snd res = Val false
  /\ files (fst res) !! file_path = Some (String.concat EmptyString (chunks r)).
Proof.
  intros Hget Hst Hbr Hdir Hfile res. subst res.
  unfold BaseAsyncDownloader.download_file, try_except, bind.
  destruct (notify_storage self (MsgDownloading progress_info) w)
    as (w1 & -> & _ & _).
  destruct (get_proxy_storage self w1) as (w2 & proxy & -> & _ & _).
  unfold BaseAsyncDownloader.session_get, bind, emit.
  rewrite Hget. simpl. rewrite Hst. simpl.
  unfold mkdir; simpl. rewrite Hdir. simpl.
  unfold write_file; simpl. rewrite Hfile. simpl. rewrite Hbr. simpl.
  split; [reflexivity | apply lookup_insert_eq].
Qed.

(** X7 on a server whose stream breaks after the chunk "im". *)
Lemma X7_download_file_partial_witness :
  let res := BaseAsyncDownloader.download_file breaking_env plain_downloader
               "http://h/1.png" "media/x/1.png" "one" empty_world in
  snd res = Val false /\ files (fst res) !! "media/x/1.png" = Some "im".
Proof.
  apply (X7_download_file_partial breaking_env plain_downloader
           "http://h/1.png" "media/x/1.png" "one" empty_world
           {| status := 200; chunks := ["im"]; broken := true |});
    reflexivity.
Defined.

(** X8: [download_file] never raises and always ends: it returns a
    boolean, and it returns [True] only when a response with status 200
    arrived unbroken and the file now holds its whole body. *)
Theorem X8_download_file_total (E : env) (self : downloader)
    (url file_path progress_info : string) (w : world) :
  let res := BaseAsyncDownloader.download_file E self url file_path
               progress_info w in
  (exists b, snd res = Val b)
  /\ (snd res = Val true ->
      exists proxy r,
        http_get E proxy url = Some r /\ status r = 200 /\ broken r = false
        /\ files (fst res) !! file_path
           = Some (String.concat EmptyString (chunks r))).
Proof.
  intros res.
  destruct (download_file_cases E self url file_path progress_info w)
    as [(Hv & proxy & r & Hg & Hs & Hb & Hf & _) | Hv]; fold res in Hv |- *.
  - split; [exists true; exact Hv|]. intros _. exists proxy, r. auto.
  - split; [exists false; exact Hv|]. rewrite Hv. discriminate.
Qed.

(** ** The job queue: duplicates, order and what the buttons do *)

Section QueueMore.
Import Gui.

Lemma key_set_status s t : get_unique_key (set_status s t) = get_unique_key t.
Proof. destruct t; reflexivity. Qed.

Lemma held_held_tasks a t : held a t <-> t ∈ held_tasks a.
Proof.
  unfold held, held_tasks. rewrite elem_of_app.
  destruct (current_download_info a) as [c|]; simpl.
  - rewrite list_elem_of_singleton. split; (intros [H|H]; [left|right; exact H]);
      congruence.
  - split; [intros [H|H]; [discriminate | right; exact H]|].
    intros [H|H]; [inversion H | right; exact H].
Qed.

Lemma keyed_held_keys a : keyed a <-> Forall is_Some (held_keys a).
Proof.
  unfold keyed, held_keys, held_tasks. rewrite fmap_app, Forall_app, !Forall_fmap.
  split.
  - intros [Hq Hc]. split; [|exact Hq].
    destruct (current_download_info a) as [c|]; simpl; [|constructor].
    constructor; [apply Hc; reflexivity | constructor].
  - intros [Hc Hq]. split; [exact Hq|]. intros c Heq. rewrite Heq in Hc.
    simpl in Hc. apply Forall_cons in Hc as [Hc _]. exact Hc.
Qed.

Lemma existsb_key_held k l :
  existsb (fun t => bool_decide (get_unique_key t = Some k)) l
  = bool_decide (Some k ∈ get_unique_key <$> l).
Proof.
  induction l as [|t l IH]; simpl.
  - reflexivity.
  - rewrite IH. destruct (decide (get_unique_key t = Some k)) as [He|Hne].
    + rewrite (bool_decide_eq_true_2 _ He). simpl. symmetry.
      apply bool_decide_eq_true_2. rewrite He. left.
    + rewrite (bool_decide_eq_false_2 _ Hne). simpl.
      apply bool_decide_ext. rewrite elem_of_cons. split; [auto|].
      intros [H|H]; [congruence | exact H].
Qed.

(** On keyed tasks [_is_duplicate_task] leaves the application as it
    is and answers whether the key of the new task is held. *)
Lemma is_duplicate_task_exact new k a :
  keyed a -> get_unique_key new = Some k ->
  _is_duplicate_task new a = Some (bool_decide (Some k ∈ held_keys a), a).
Proof.
  intros [Hq Hc] Hk. unfold _is_duplicate_task, held_keys, held_tasks.
  destruct (current_download_info a) as [cur|] eqn:Hcur; simpl.
  - destruct (Hc cur eq_refl) as [kc Hkc].
    rewrite (task_eq_keys new cur k kc Hk Hkc). simpl.
    destruct (decide (k = kc)) as [->|Hne].
    + rewrite bool_decide_eq_true_2 by reflexivity. rewrite Hkc.
      rewrite bool_decide_eq_true_2 by left. reflexivity.
    + rewrite bool_decide_eq_false_2 by exact Hne.
      rewrite (scan_keyed new k _ _ _ Hk Hq). simpl.
      rewrite set_queue_same, existsb_key_held. do 2 f_equal.
      apply bool_decide_ext. rewrite Hkc, elem_of_cons. split; [auto|].
      intros [H|H]; [congruence | exact H].
  - rewrite (scan_keyed new k _ _ _ Hk Hq). simpl.
    rewrite set_queue_same, existsb_key_held. reflexivity.
Qed.

Lemma key_held_iff new k a :
  get_unique_key new = Some k ->
  Some k ∈ held_keys a <-> exists t, held a t /\ same_key new t.
Proof.
  intros Hk. unfold held_keys. rewrite list_elem_of_fmap. split.
  - intros (t & Ht & Hin). exists t. split; [apply held_held_tasks, Hin|].
    exists k. split; [exact Hk | congruence].
  - intros (t & Hheld & k' & Hk' & Ht). exists t.
    split; [congruence | apply held_held_tasks, Hheld].
Qed.

Lemma fresh_key new k a :
  get_unique_key new = Some k ->
  (forall t, held a t -> ~ same_key new t) ->
  Some k ∉ held_keys a.
Proof.
  intros Hk Hfresh Hin. apply (key_held_iff new k a Hk) in Hin as (t & Ht & Hs).
  exact (Hfresh t Ht Hs).
Qed.

Lemma app_ext a b :
  download_queue a = download_queue b ->
  current_download_info a = current_download_info b ->
  is_downloading a = is_downloading b ->
  has_async_deps a = has_async_deps b ->
  config_manager a = config_manager b ->
  loop_running a = loop_running b ->
  gui_log a = gui_log b ->
  a = b.
Proof. destruct a, b; simpl; intros; subst; reflexivity. Qed.

(** What [_process_next_in_queue] does in each state. *)
Lemma process_next_busy n a : is_downloading a = true -> process_next n a = a.
Proof. intros H. destruct n; simpl; [reflexivity|]. rewrite H. reflexivity. Qed.

Lemma process_next_empty n a : download_queue a = [] -> process_next n a = a.
Proof.
  intros H. destruct n; simpl; [reflexivity|]. rewrite H.
  destruct (is_downloading a); reflexivity.
Qed.

Lemma process_next_submits n a first rest :
  is_downloading a = false -> download_queue a = first :: rest ->
  ready a = true -> loop_running a = true ->
  process_next (S n) a
  = add_log (GuiSubmitted (set_status "downloading" first))
      (add_log (GuiStarting (set_status "downloading" first))
         (set_current (Some (set_status "downloading" first)) true
            (set_queue rest a))).
Proof.
  intros Hidle Hq Hready Hloop. cbn [process_next]. rewrite Hidle, Hq.
  unfold _start_download_task, ready in *.
  change (has_async_deps (set_queue rest a)) with (has_async_deps a).
  change (config_manager (set_queue rest a)) with (config_manager a).
  apply negb_true_iff in Hready. rewrite Hready.
  rewrite update_queue_display_id. cbn [loop_running add_log set_current set_queue].
  rewrite Hloop. reflexivity.
Qed.

Lemma process_next_unready n a first rest :
  is_downloading a = false -> download_queue a = first :: rest ->
  ready a = false ->
  process_next (S n) a = add_log GuiNotReady (set_queue rest a).
Proof.
  intros Hidle Hq Hready. cbn [process_next]. rewrite Hidle, Hq.
  unfold _start_download_task, ready in *.
  change (has_async_deps (set_queue rest a)) with (has_async_deps a).
  change (config_manager (set_queue rest a)) with (config_manager a).
  apply negb_false_iff in Hready. rewrite Hready. reflexivity.
Qed.

Lemma process_next_no_loop n a :
  (length (download_queue a) <= n)%nat ->
  is_downloading a = false -> ready a = true -> loop_running a = false ->
  process_next n a
  = {| download_queue := []; current_download_info := None;
       is_downloading := false; has_async_deps := has_async_deps a;
       config_manager := config_manager a; loop_running := loop_running a;
       gui_log := gui_log a ++ flat_map failed_lines (download_queue a) |}
    \/ (download_queue a = [] /\ process_next n a = a).
Proof.
  revert a. induction n as [|n IH]; intros a Hlen Hidle Hready Hloop.
  - right. split; [|reflexivity].
    destruct (download_queue a); [reflexivity | simpl in Hlen; lia].
  - destruct (download_queue a) as [|first rest] eqn:Hq.
    + right. split; [reflexivity | apply process_next_empty, Hq].
    + left. cbn [process_next]. rewrite Hidle, Hq.
      unfold _start_download_task.
      change (has_async_deps (set_queue rest a)) with (has_async_deps a).
      change (config_manager (set_queue rest a)) with (config_manager a).
      pose proof Hready as Hr. unfold ready in Hr. apply negb_true_iff in Hr.
      rewrite Hr. rewrite update_queue_display_id.
      cbn [loop_running add_log set_current set_queue]. rewrite Hloop.
      unfold _download_completed. rewrite update_queue_display_id.
      set (b := add_log _ (set_current None false _)).
      assert (Hb : download_queue b = rest) by reflexivity.
      destruct (IH b) as [Heq | [Hnil Heq]].
      * rewrite Hb. simpl in Hlen. lia.
      * reflexivity.
      * exact Hready.
      * exact Hloop.
      * rewrite Heq. rewrite Hb. subst b. unfold failed_lines.
        apply app_ext; simpl; rewrite <- ?app_assoc, ?Hloop; reflexivity.
      * rewrite Heq. rewrite Hb in Hnil. subst b. unfold failed_lines.
        apply app_ext; simpl; rewrite ?Hnil, <- ?app_assoc, ?Hloop; reflexivity.
Qed.

End QueueMore.

(** X9: on an application whose tasks all have a key,
    [_is_duplicate_task] leaves the queue, its order and the current
    task as they are, and answers [True] exactly when the current task
    or a queued task has the unique key of the new task. *)
Theorem X9_duplicate_check_exact (a : Gui.app) (new : Gui.DownloadTask) :
  keyed a -> is_Some (Gui.get_unique_key new) ->
  exists b, Gui._is_duplicate_task new a = Some (b, a)
            /\ (b = true <-> exists t, held a t /\ same_key new t).
Proof.
  intros Hk [k Hnew].
  exists (bool_decide (Some k ∈ held_keys a)).
  split; [apply is_duplicate_task_exact; assumption|].
  rewrite bool_decide_eq_true. apply key_held_iff. exact Hnew.
Qed.

(** X9 at an application that downloads one job and has one queued,
    for a new task with other tags. *)
Lemma X9_duplicate_check_exact_witness :
  exists b, Gui._is_duplicate_task (tags_task "3" "e621" "fox" None) busy_app
            = Some (b, busy_app)
            /\ (b = true <->
                exists t, held busy_app t
                          /\ same_key (tags_task "3" "e621" "fox" None) t).
Proof.
  apply (X9_duplicate_check_exact busy_app (tags_task "3" "e621" "fox" None)).
  - split.
    + repeat constructor; vm_compute; eauto.
    + intros c [= <-]. vm_compute. eauto.
  - vm_compute. eauto.
Defined.

(** X10: while a download runs, a task whose key is not held is
    appended at the end of the queue; the tasks already queued keep
    their order, the current task and the downloading flag are as
    before, and one line is logged. *)
Theorem X10_enqueue_while_busy (a : Gui.app) (new : Gui.DownloadTask) :
  keyed a -> is_Some (Gui.get_unique_key new) ->
  (forall t, held a t -> ~ same_key new t) ->
  Gui.is_downloading a = true ->
  exists a', Gui.add_to_queue (Some new) a = Some a'
    /\ Gui.download_queue a' = Gui.download_queue a ++ [new]
    /\ Gui.current_download_info a' = Gui.current_download_info a
    /\ Gui.is_downloading a' = true
    /\ Gui.gui_log a' = Gui.gui_log a ++ [Gui.GuiAdded new].
Proof.
  intros Hk [k Hnew] Hfresh Hbusy.
  exists (Gui.add_log (Gui.GuiAdded new)
            (Gui.set_queue (Gui.download_queue a ++ [new]) a)).
  split; [|repeat split; exact Hbusy].
  unfold Gui.add_to_queue.
  rewrite (is_duplicate_task_exact new k a Hk Hnew).
  rewrite bool_decide_eq_false_2 by (eapply fresh_key; eassumption).
  rewrite update_queue_display_id. simpl. rewrite Hbusy. reflexivity.
Qed.

(** X10 at the busy application and a task with other tags. *)
Lemma X10_enqueue_while_busy_witness :
  exists a', Gui.add_to_queue (Some (tags_task "3" "e621" "fox" None)) busy_app
             = Some a'
    /\ Gui.download_queue a'
       = Gui.download_queue busy_app ++ [tags_task "3" "e621" "fox" None]
    /\ Gui.current_download_info a' = Gui.current_download_info busy_app
    /\ Gui.is_downloading a' = true
    /\ Gui.gui_log a'
       = Gui.gui_log busy_app ++ [Gui.GuiAdded (tags_task "3" "e621" "fox" None)].
Proof.
  apply (X10_enqueue_while_busy busy_app (tags_task "3" "e621" "fox" None)).
  - split.
    + repeat constructor; vm_compute; eauto.
    + intros c [= <-]. vm_compute. eauto.
  - vm_compute. eauto.
  - intros t [[= <-] | Hin] (k & Hk1 & Hk2).
    + vm_compute in Hk1, Hk2. congruence.
    + apply list_elem_of_singleton in Hin. subst t.
      vm_compute in Hk1, Hk2. congruence.
  - reflexivity.
Defined.

(** X11: when no download runs, the components are ready and the loop
    runs, adding a task whose key is not held starts the oldest task of
    the queue with the new task at its end: that task becomes the
    current one with status downloading, and the others stay queued in
    order. *)
Theorem X11_enqueue_when_idle (a : Gui.app) (new : Gui.DownloadTask) :
  keyed a -> is_Some (Gui.get_unique_key new) ->
  (forall t, held a t -> ~ same_key new t) ->
  Gui.is_downloading a = false -> ready a = true -> Gui.loop_running a = true ->
  exists a' first rest,
    Gui.add_to_queue (Some new) a = Some a'
    /\ Gui.download_queue a ++ [new] = first :: rest
    /\ Gui.current_download_info a' = Some (Gui.set_status "downloading" first)
    /\ Gui.download_queue a' = rest
    /\ Gui.is_downloading a' = true.
Proof.
  intros Hk [k Hnew] Hfresh Hidle Hready Hloop.
  destruct (Gui.download_queue a ++ [new]) as [|first rest] eqn:Hq.
  { destruct (Gui.download_queue a); discriminate. }
  eexists _, first, rest. split; [|split; [reflexivity|]].
  - unfold Gui.add_to_queue.
    rewrite (is_duplicate_task_exact new k a Hk Hnew).
    rewrite bool_decide_eq_false_2 by (eapply fresh_key; eassumption).
    rewrite update_queue_display_id. simpl Gui.is_downloading. rewrite Hidle.
    unfold Gui._process_next_in_queue.
    rewrite (process_next_submits _ _ first rest); [reflexivity | | | |].
    + exact Hidle.
    + exact Hq.
    + exact Hready.
    + exact Hloop.
  - repeat split.
Qed.

(** X11 at the idle application with two tasks queued. *)
Lemma X11_enqueue_when_idle_witness :
  exists a' first rest,
    Gui.add_to_queue (Some (tags_task "3" "e621" "fox" None)) idle_app = Some a'
    /\ Gui.download_queue idle_app ++ [tags_task "3" "e621" "fox" None]
       = first :: rest
    /\ Gui.current_download_info a' = Some (Gui.set_status "downloading" first)
    /\ Gui.download_queue a' = rest
    /\ Gui.is_downloading a' = true.
Proof.
  apply (X11_enqueue_when_idle idle_app (tags_task "3" "e621" "fox" None)).
  - split.
    + repeat constructor; vm_compute; eauto.
    + intros c [=].
  - vm_compute. eauto.
  - intros t [[=] | Hin] (k & Hk1 & Hk2).
    apply elem_of_cons in Hin as [-> | Hin];
      [|apply list_elem_of_singleton in Hin; subst t];
      vm_compute in Hk1, Hk2; congruence.
  - reflexivity.
  - reflexivity.
  - reflexivity.
Defined.

(** X12: when a download ends and the components are ready, the task
    at the head of the queue is started next: it becomes the current
    task with status downloading and the rest of the queue keeps its
    order; with an empty queue the application becomes idle. *)
Theorem X12_completion_starts_next (a : Gui.app) (task : Gui.DownloadTask)
    (success : bool) :
  ready a = true -> Gui.loop_running a = true ->
  let a' := Gui._download_completed Gui._process_next_in_queue task success a in
  match Gui.download_queue a with
  | [] =>
      Gui.current_download_info a' = None /\ Gui.is_downloading a' = false
      /\ Gui.download_queue a' = []
  | first :: rest =>
      Gui.current_download_info a' = Some (Gui.set_status "downloading" first)
      /\ Gui.is_downloading a' = true
      /\ Gui.download_queue a' = rest
  end.
Proof.
  intros Hready Hloop a'. subst a'. unfold Gui._download_completed.
  rewrite update_queue_display_id.
  set (b := Gui.add_log _ (Gui.set_current None false a)).
  assert (Hb : Gui.download_queue b = Gui.download_queue a) by reflexivity.
  unfold Gui._process_next_in_queue.
  destruct (Gui.download_queue a) as [|first rest] eqn:Hq.
  - rewrite process_next_empty by exact Hb. repeat split. exact Hq.
  - rewrite (process_next_submits _ b first rest); [repeat split | | | |].
    + reflexivity.
    + exact Hb.
    + exact Hready.
    + exact Hloop.
Qed.

(** X12 at the end of the job of the busy application. *)
Lemma X12_completion_starts_next_witness :
  let a' := Gui._download_completed Gui._process_next_in_queue
              (tags_task "1" "e621" "wolf" (Some 3)) true busy_app in
  Gui.current_download_info a'
  = Some (Gui.set_status "downloading"
            (url_task "2" "luscious" "https://luscious.net/albums/a_1"))
  /\ Gui.is_downloading a' = true
  /\ Gui.download_queue a' = [].
Proof.
  apply (X12_completion_starts_next busy_app
           (tags_task "1" "e621" "wolf" (Some 3)) true); reflexivity.
Defined.

(** X13: a task added while the core components are not yet there is
    lost: with nothing else queued and no download running it is logged
    as added, taken out of the queue and not started, so the
    application is idle with an empty queue. *)
Theorem X13_task_lost_before_startup (a : Gui.app) (new : Gui.DownloadTask) :
  is_Some (Gui.get_unique_key new) ->
  Gui.is_downloading a = false ->
  Gui.current_download_info a = None ->
  Gui.download_queue a = [] ->
  ready a = false ->
  exists a', Gui.add_to_queue (Some new) a = Some a'
    /\ Gui.download_queue a' = []
    /\ Gui.current_download_info a' = None
    /\ Gui.is_downloading a' = false
    /\ Gui.gui_log a' = Gui.gui_log a ++ [Gui.GuiAdded new; Gui.GuiNotReady].
Proof.
  intros [k Hnew] Hidle Hcur Hq Hready.
  assert (Hk : keyed a).
  { split; [rewrite Hq; constructor | intros c Hc; congruence]. }
  eexists. split.
  - unfold Gui.add_to_queue.
    rewrite (is_duplicate_task_exact new k a Hk Hnew).
    rewrite bool_decide_eq_false_2.
    2:{ unfold held_keys, held_tasks. rewrite Hcur, Hq. apply not_elem_of_nil. }
    rewrite update_queue_display_id. simpl Gui.is_downloading. rewrite Hidle.
    unfold Gui._process_next_in_queue.
    rewrite (process_next_unready _ _ new []); [reflexivity | | |].
    + exact Hidle.
    + simpl. rewrite Hq. reflexivity.
    + exact Hready.
  - simpl. rewrite Hcur, Hidle, <- app_assoc. repeat split.
Qed.

(** X13 at the application as the constructor leaves it. *)
Lemma X13_task_lost_before_startup_witness :
  exists a', Gui.add_to_queue (Some (tags_task "3" "e621" "fox" None))
               (initial_app true) = Some a'
    /\ Gui.download_queue a' = []
    /\ Gui.current_download_info a' = None
    /\ Gui.is_downloading a' = false
    /\ Gui.gui_log a'
       = Gui.gui_log (initial_app true)
         ++ [Gui.GuiAdded (tags_task "3" "e621" "fox" None); Gui.GuiNotReady].
Proof.
  apply (X13_task_lost_before_startup (initial_app true)
           (tags_task "3" "e621" "fox" None)); try reflexivity.
  vm_compute. eauto.
Defined.

(** X14: when the components are ready but the loop does not run,
    [_process_next_in_queue] fails every queued task in turn: the queue
    ends empty, no task is current, and for each task in queue order
    the log gains its start, the loop error and its failure. *)
Theorem X14_no_loop_fails_queue (a : Gui.app) :
  Gui.is_downloading a = false -> Gui.current_download_info a = None ->
  ready a = true -> Gui.loop_running a = false ->
  let a' := Gui._process_next_in_queue a in
  Gui.download_queue a' = []
  /\ Gui.is_downloading a' = false
  /\ Gui.current_download_info a' = None
  /\ Gui.gui_log a' = Gui.gui_log a ++ flat_map failed_lines (Gui.download_queue a).
Proof.
  intros Hidle Hcur Hready Hloop a'. subst a'. unfold Gui._process_next_in_queue.
  destruct (process_next_no_loop (S (length (Gui.download_queue a))) a)
    as [Heq | [Hnil Heq]]; try assumption.
  - lia.
  - rewrite Heq. repeat split.
  - rewrite Heq, Hnil. simpl. rewrite app_nil_r. repeat split; assumption.
Qed.

(** X14 at the idle application once its loop has stopped. *)
Lemma X14_no_loop_fails_queue_witness :
  let a' := Gui._process_next_in_queue (set_components true false idle_app) in
  Gui.download_queue a' = []
  /\ Gui.is_downloading a' = false
  /\ Gui.current_download_info a' = None
  /\ Gui.gui_log a'
     = Gui.gui_log (set_components true false idle_app)
       ++ flat_map failed_lines
            (Gui.download_queue (set_components true false idle_app)).
Proof.
  apply (X14_no_loop_fails_queue (set_components true false idle_app));
    reflexivity.
Defined.

(** ** The job queue: what holds in every state the application reaches *)

Section QueueInvariant.
Import Gui.

Lemma well_formed_ext a b :
  is_downloading b = is_downloading a ->
  current_download_info b = current_download_info a ->
  download_queue b = download_queue a ->
  well_formed a -> well_formed b.
Proof.
  unfold well_formed, coherent, held_keys, held_tasks.
  intros -> -> ->. tauto.
Qed.

Lemma well_formed_sub_queue a q :
  q `sublist_of` download_queue a ->
  well_formed a -> well_formed (set_queue q a).
Proof.
  unfold well_formed, coherent, held_keys, held_tasks. simpl.
  intros Hsub (Hc & Hk & Hn).
  assert (Hs : get_unique_key <$> (option_list (current_download_info a) ++ q)
               `sublist_of`
               get_unique_key <$> (option_list (current_download_info a)
                                     ++ download_queue a)).
  { apply fmap_sublist, sublist_app; [reflexivity | exact Hsub]. }
  split; [exact Hc|]. split.
  - rewrite Forall_forall in Hk |- *. intros x Hx. apply Hk.
    eapply elem_of_sublist; eassumption.
  - eapply sublist_NoDup; eassumption.
Qed.

Lemma well_formed_clear_current a :
  well_formed a -> well_formed (set_current None false a).
Proof.
  unfold well_formed, coherent, held_keys, held_tasks. simpl.
  intros (_ & Hk & Hn). split; [reflexivity|].
  rewrite fmap_app in Hk, Hn.
  apply Forall_app in Hk as [_ Hk]. apply NoDup_app in Hn as (_ & _ & Hn).
  split; assumption.
Qed.

Lemma coherent_idle a :
  coherent a -> is_downloading a = false -> current_download_info a = None.
Proof.
  unfold coherent. intros Hc Hidle. rewrite Hidle in Hc.
  destruct (current_download_info a); [|reflexivity].
  symmetry in Hc. apply bool_decide_eq_false in Hc. exfalso. apply Hc. eauto.
Qed.

Lemma well_formed_completed next task success a :
  (forall b, well_formed b -> well_formed (next b)) ->
  well_formed a ->
  well_formed (_download_completed next task success a).
Proof.
  intros Hnext Hwf. unfold _download_completed. apply Hnext.
  rewrite update_queue_display_id.
  eapply well_formed_ext; [| | | apply (well_formed_clear_current a Hwf)];
    reflexivity.
Qed.

Lemma well_formed_start next t a :
  (forall b, well_formed b -> well_formed (next b)) ->
  well_formed a ->
  current_download_info a = None ->
  is_Some (get_unique_key t) ->
  get_unique_key t ∉ held_keys a ->
  well_formed (_start_download_task next t a).
Proof.
  intros Hnext Hwf Hcur Hkey Hfresh. unfold _start_download_task.
  destruct (has_async_deps a && negb (config_manager a))%bool.
  { eapply well_formed_ext; [| | | exact Hwf]; reflexivity. }
  rewrite update_queue_display_id.
  assert (Hrun : well_formed
                   (set_current (Some (set_status "downloading" t)) true a)).
  { destruct Hwf as (_ & Hk & Hn).
    unfold well_formed, coherent, held_keys, held_tasks in Hk, Hn, Hfresh |- *.
    simpl.
    rewrite Hcur in Hk, Hn, Hfresh. simpl in Hk, Hn, Hfresh.
    rewrite key_set_status. split.
    - reflexivity.
    - split; [constructor; assumption | constructor; assumption]. }
  cbn [loop_running add_log set_current].
  destruct (loop_running a).
  - eapply well_formed_ext; [| | | exact Hrun]; reflexivity.
  - apply well_formed_completed; [exact Hnext|].
    eapply well_formed_ext; [| | | exact Hrun]; reflexivity.
Qed.

Lemma well_formed_process_next n a :
  well_formed a -> well_formed (process_next n a).
Proof.
  revert a. induction n as [|n IH]; intros a Hwf; [exact Hwf|].
  cbn [process_next].
  destruct (is_downloading a) eqn:Hidle; [exact Hwf|].
  destruct (download_queue a) as [|first rest] eqn:Hq; [exact Hwf|].
  assert (Hcur : current_download_info a = None).
  { apply coherent_idle; [apply Hwf | exact Hidle]. }
  destruct Hwf as (Hc & Hk & Hn).
  assert (Hkeys : held_keys a
                  = get_unique_key first :: (get_unique_key <$> rest)).
  { unfold held_keys, held_tasks. rewrite Hcur, Hq. reflexivity. }
  rewrite Hkeys in Hk, Hn.
  apply Forall_cons in Hk as [Hk1 Hk]. apply NoDup_cons in Hn as [Hn1 Hn].
  apply well_formed_start.
  - exact IH.
  - unfold well_formed, coherent, held_keys, held_tasks. simpl.
    rewrite Hcur. simpl. split; [|split; assumption].
    unfold coherent in Hc. rewrite Hcur in Hc. exact Hc.
  - exact Hcur.
  - exact Hk1.
  - unfold held_keys, held_tasks. simpl. rewrite Hcur. exact Hn1.
Qed.

Lemma well_formed_keyed a : well_formed a -> keyed a.
Proof. intros (_ & Hk & _). apply keyed_held_keys, Hk. Qed.

Lemma well_formed_enqueue t a :
  well_formed a -> is_Some (get_unique_key t) ->
  get_unique_key t ∉ held_keys a ->
  well_formed (set_queue (download_queue a ++ [t]) a).
Proof.
  intros (Hc & Hk & Hn) Hkey Hfresh.
  unfold well_formed, coherent, held_keys, held_tasks in *. simpl.
  split; [exact Hc|]. rewrite app_assoc, fmap_app. simpl. split.
  - apply Forall_app. split; [exact Hk | constructor; [exact Hkey | constructor]].
  - apply NoDup_app. split; [exact Hn|]. split.
    + intros x Hx Hin. apply list_elem_of_singleton in Hin. subst x.
      exact (Hfresh Hx).
    + apply NoDup_singleton.
Qed.

Lemma well_formed_add_to_queue task a a' :
  (forall t, task = Some t -> is_Some (get_unique_key t)) ->
  well_formed a -> add_to_queue task a = Some a' -> well_formed a'.
Proof.
  intros Hkey Hwf. unfold add_to_queue.
  destruct task as [t|]; [|intros [= <-]; exact Hwf].
  destruct (Hkey t eq_refl) as [k Hk].
  rewrite (is_duplicate_task_exact t k a (well_formed_keyed a Hwf) Hk).
  destruct (decide (Some k ∈ held_keys a)) as [Hin|Hnin].
  - rewrite bool_decide_eq_true_2 by exact Hin. intros [= <-].
    eapply well_formed_ext; [| | | exact Hwf]; reflexivity.
  - rewrite bool_decide_eq_false_2 by exact Hnin.
    rewrite update_queue_display_id.
    assert (Hq : well_formed
                   (add_log (GuiAdded t) (set_queue (download_queue a ++ [t]) a))).
    { eapply well_formed_ext;
        [| | | apply (well_formed_enqueue t a Hwf)]; try reflexivity.
      - eauto.
      - rewrite Hk. exact Hnin. }
    intros [= <-]. destruct (is_downloading _); [exact Hq|].
    apply well_formed_process_next, Hq.
Qed.

Lemma well_formed_start_download task a a' notes :
  (forall t, task = Some t -> is_Some (get_unique_key t)) ->
  well_formed a -> start_download task a = Some (a', notes) -> well_formed a'.
Proof.
  intros Hkey Hwf. unfold start_download.
  destruct (has_async_deps a); simpl; [|intros [= <- _]; exact Hwf].
  destruct (is_downloading a) eqn:Hidle.
  - destruct (add_to_queue task a) as [b|] eqn:Hadd; simpl; [|discriminate].
    intros [= <- _]. eapply well_formed_add_to_queue; eassumption.
  - destruct task as [t|]; [|intros [= <- _]; exact Hwf].
    destruct (Hkey t eq_refl) as [k Hk].
    rewrite (is_duplicate_task_exact t k a (well_formed_keyed a Hwf) Hk).
    destruct (decide (Some k ∈ held_keys a)) as [Hin|Hnin].
    + rewrite bool_decide_eq_true_2 by exact Hin. intros [= <- _]. exact Hwf.
    + rewrite bool_decide_eq_false_2 by exact Hnin. intros [= <- _].
      apply well_formed_start.
      * intros b. apply well_formed_process_next.
      * exact Hwf.
      * apply coherent_idle; [apply Hwf | exact Hidle].
      * eauto.
      * rewrite Hk. exact Hnin.
Qed.

Lemma discard_nil q : discard q = [].
Proof. induction q as [|t q IH]; [reflexivity | exact IH]. Qed.

(** The loop of [remove_selected_from_queue] leaves out the item at
    the position asked for and keeps the others in order. *)
Lemma remove_scan_delete queue_index q temp_items removed_item item_count :
  item_count <= queue_index ->
  remove_scan queue_index q temp_items removed_item item_count
  = (temp_items ++ delete (Z.to_nat (queue_index - item_count)) q,
     match q !! Z.to_nat (queue_index - item_count) with
     | Some t => Some t
     | None => removed_item
     end).
Proof.
  revert temp_items removed_item item_count.
  induction q as [|item q IH]; intros temp_items removed_item item_count Hle.
  - simpl. rewrite app_nil_r. reflexivity.
  - cbn [remove_scan]. destruct (item_count =? queue_index) eqn:Heq.
    + apply Z.eqb_eq in Heq. subst item_count.
      rewrite Z.sub_diag. simpl.
      clear IH. revert temp_items.
      assert (Hpast : forall c temp, queue_index < c ->
                remove_scan queue_index q temp (Some item) c
                = (temp ++ q, Some item)).
      { clear. induction q as [|x q IH]; intros c temp Hc; simpl.
        - rewrite app_nil_r. reflexivity.
        - destruct (c =? queue_index) eqn:Heq;
            [apply Z.eqb_eq in Heq; lia|].
          rewrite IH by lia. rewrite <- app_assoc. reflexivity. }
      intros temp_items. apply Hpast. lia.
    + apply Z.eqb_neq in Heq. rewrite IH by lia.
      replace (Z.to_nat (queue_index - item_count))
        with (S (Z.to_nat (queue_index - (item_count + 1)))) by lia.
      simpl. rewrite <- app_assoc. reflexivity.
Qed.

Lemma well_formed_remove_selected selection a :
  well_formed a -> well_formed (fst (remove_selected_from_queue selection a)).
Proof.
  intros Hwf. unfold remove_selected_from_queue.
  destruct selection as [|selected_index _]; [exact Hwf|].
  destruct (_ && _)%bool; [exact Hwf|].
  set (queue_index := if bool_decide _ then _ else _).
  destruct (0 <=? queue_index) eqn:Hpos; [|exact Hwf].
  apply Z.leb_le in Hpos.
  rewrite remove_scan_delete by exact Hpos. simpl.
  apply well_formed_sub_queue; [apply sublist_delete | exact Hwf].
Qed.

Lemma well_formed_clear_queue a :
  well_formed a -> well_formed (fst (clear_queue a)).
Proof.
  intros Hwf. unfold clear_queue. simpl.
  rewrite update_queue_display_id, discard_nil.
  apply well_formed_sub_queue; [apply sublist_nil_l | exact Hwf].
Qed.

(** A task [_create_download_task] returns has a unique key. *)
Lemma created_task_keyed py_int deps ui t :
  fst (_create_download_task py_int deps ui) = Some t ->
  is_Some (get_unique_key t).
Proof.
  unfold _create_download_task.
  repeat (match goal with
          | |- context [if ?b then _ else _] => destruct b
          | |- context [match ?o with Some _ => _ | None => _ end] => destruct o
          end; simpl fst); try discriminate;
    intros [= <-]; unfold get_unique_key; simpl;
    repeat match goal with
           | |- context [bool_decide ?P] => destruct (bool_decide P)
           end; eauto.
Qed.

Lemma gui_step_well_formed py_int a a' :
  well_formed a -> gui_step py_int a a' -> well_formed a'.
Proof.
  intros Hwf Hstep. destruct Hstep as
    [ui a a' Hadd | ui a a' notes Hstart | task success a | a | selection a
     | cm loop a].
  - eapply well_formed_add_to_queue; [| exact Hwf | exact Hadd].
    intros t Ht. eapply created_task_keyed. exact Ht.
  - eapply well_formed_start_download; [| exact Hwf | exact Hstart].
    intros t Ht. eapply created_task_keyed. exact Ht.
  - apply well_formed_completed; [|exact Hwf].
    intros b. apply well_formed_process_next.
  - apply well_formed_clear_queue, Hwf.
  - apply well_formed_remove_selected, Hwf.
  - eapply well_formed_ext; [| | | exact Hwf]; reflexivity.
Qed.

Lemma reachable_well_formed py_int deps a :
  rtc (gui_step py_int) (initial_app deps) a -> well_formed a.
Proof.
  intros Hreach. revert a Hreach. apply rtc_ind_r.
  - unfold well_formed, coherent, held_keys, held_tasks. simpl.
    split; [reflexivity|]. split; constructor.
  - intros b c _ Hstep Hwf. eapply gui_step_well_formed; eassumption.
Qed.

Lemma started_app_reachable :
  rtc (gui_step digits_int) (initial_app true) started_app.
Proof.
  eapply rtc_l; [apply (step_components _ true true)|].
  eapply rtc_l; [|apply rtc_refl].
  apply (step_add_to_queue _ wolf_inputs). reflexivity.
Qed.

End QueueInvariant.

(** X15: in every state the application reaches from its start by
    queue buttons, finished downloads and changes of its components,
    the downloading flag is set exactly when there is a current
    task. *)
Theorem X15_flag_matches_current (py_int : string -> option Z)
    (has_async_deps : bool) (a : Gui.app) :
  rtc (gui_step py_int) (initial_app has_async_deps) a ->
  coherent a.
Proof. intros Hreach. apply (reachable_well_formed py_int _ a Hreach). Qed.

(** X15 after start-up and one click on the queue button. *)
Lemma X15_flag_matches_current_witness : coherent started_app.
Proof.
  apply (X15_flag_matches_current digits_int true started_app).
  eapply rtc_l; [apply (step_components _ true true)|].
  eapply rtc_l; [|apply rtc_refl].
  apply (step_add_to_queue _ wolf_inputs). reflexivity.
Defined.

(** X16: in every state the application reaches, every task it holds
    (the current one and the queued ones) has a unique key and no two
    of them have the same key. *)
Theorem X16_held_keys_distinct (py_int : string -> option Z)
    (has_async_deps : bool) (a : Gui.app) :
  rtc (gui_step py_int) (initial_app has_async_deps) a ->
  Forall is_Some (held_keys a)
  /\ forall i j t u,
       held_tasks a !! i = Some t ->
       held_tasks a !! j = Some u ->
       Gui.get_unique_key t = Gui.get_unique_key u ->
       i = j.
Proof.
  intros Hreach.
  destruct (reachable_well_formed py_int _ a Hreach) as (_ & Hk & Hn).
  split; [exact Hk|]. intros i j t u Hi Hj Hkey.
  apply (NoDup_lookup (held_keys a) i j (Gui.get_unique_key t) Hn);
    unfold held_keys; rewrite list_lookup_fmap.
  - rewrite Hi. reflexivity.
  - rewrite Hj, Hkey. reflexivity.
Qed.

(** X16 after start-up and one click on the queue button. *)
Lemma X16_held_keys_distinct_witness :
  Forall is_Some (held_keys started_app)
  /\ forall i j t u,
       held_tasks started_app !! i = Some t ->
       held_tasks started_app !! j = Some u ->
       Gui.get_unique_key t = Gui.get_unique_key u ->
       i = j.
Proof.
  apply (X16_held_keys_distinct digits_int true started_app).
  eapply rtc_l; [apply (step_components _ true true)|].
  eapply rtc_l; [|apply rtc_refl].
  apply (step_add_to_queue _ wolf_inputs). reflexivity.
Defined.

(** X17: in every state the application reaches, the queue button and
    the download button complete for whatever the user entered: the
    comparisons of [_is_duplicate_task] never raise, because every
    task [_create_download_task] makes has a unique key. *)
Theorem X17_buttons_never_raise (py_int : string -> option Z)
    (has_async_deps : bool) (a : Gui.app) (ui : Gui.inputs) :
  rtc (gui_step py_int) (initial_app has_async_deps) a ->
  let task := fst (Gui._create_download_task py_int (Gui.has_async_deps a) ui) in
  is_Some (Gui.add_to_queue task a) /\ is_Some (Gui.start_download task a).
Proof.
  intros Hreach task.
  pose proof (reachable_well_formed py_int _ a Hreach) as Hwf.
  pose proof (well_formed_keyed a Hwf) as Hk.
  assert (Hadd : is_Some (Gui.add_to_queue task a)).
  { unfold Gui.add_to_queue. destruct task as [t|] eqn:Ht; [|eauto].
    destruct (created_task_keyed py_int _ ui t Ht) as [k Hkey].
    rewrite (is_duplicate_task_exact t k a Hk Hkey).
    destruct (bool_decide _); eauto. }
  split; [exact Hadd|].
  unfold Gui.start_download.
  destruct (Gui.has_async_deps a); simpl; [|eauto].
  destruct (Gui.is_downloading a).
  - destruct Hadd as [b Hb]. fold task. rewrite Hb. simpl. eauto.
  - fold task. destruct task as [t|] eqn:Ht; [|eauto].
    destruct (created_task_keyed py_int _ ui t Ht) as [k Hkey].
    rewrite (is_duplicate_task_exact t k a Hk Hkey).
    destruct (bool_decide _); eauto.
Qed.

(** X17 after start-up and one click, for the same input again. *)
Lemma X17_buttons_never_raise_witness :
  let task :=
    fst (Gui._create_download_task digits_int (Gui.has_async_deps started_app)
           wolf_inputs) in
  is_Some (Gui.add_to_queue task started_app)
  /\ is_Some (Gui.start_download task started_app).
Proof.
  apply (X17_buttons_never_raise digits_int true started_app wolf_inputs).
  eapply rtc_l; [apply (step_components _ true true)|].
  eapply rtc_l; [|apply rtc_refl].
  apply (step_add_to_queue _ wolf_inputs). reflexivity.
Defined.

(** X18: [remove_selected_from_queue] takes out of the queue the task
    shown on the selected line and keeps the other tasks in order; the
    line of the current download cannot be removed, a line past the end
    removes nothing, and the current task and the downloading flag are
    never touched. *)
Theorem X18_remove_selected (selected_index : nat) (others : list nat)
    (a : Gui.app) :
  let res := Gui.remove_selected_from_queue (selected_index :: others) a in
  let position :=
    match Gui.current_download_info a, selected_index with
    | Some _, O => None
    | Some _, S i => Some i
    | None, i => Some i
    end in
  Gui.current_download_info (fst res) = Gui.current_download_info a
  /\ Gui.is_downloading (fst res) = Gui.is_downloading a
  /\ match position with
     | None =>
         Gui.download_queue (fst res) = Gui.download_queue a
         /\ snd res = [Gui.NoteCannotRemove]
     | Some i =>
         Gui.download_queue (fst res) = delete i (Gui.download_queue a)
         /\ snd res = match Gui.download_queue a !! i with
                      | Some t => [Gui.NoteRemoved t]
                      | None => []
                      end
     end.
Proof.
  intros res position. subst res position.
  unfold Gui.remove_selected_from_queue.
  destruct (Gui.current_download_info a) as [c|] eqn:Hcur.
  - rewrite bool_decide_eq_true_2 by eauto.
    destruct selected_index as [|i].
    { cbn [Nat.eqb andb fst snd]. rewrite Hcur. repeat split. }
    change (S i =? 0)%nat with false. cbn [andb].
    destruct (0 <=? Z.of_nat (S i) - 1) eqn:Hpos; [|apply Z.leb_gt in Hpos; lia].
    rewrite remove_scan_delete by lia.
    replace (Z.to_nat (Z.of_nat (S i) - 1 - 0)) with i by lia.
    cbn [fst snd app Gui.set_queue Gui.current_download_info Gui.is_downloading
         Gui.download_queue].
    rewrite Hcur.
    destruct (Gui.download_queue a !! i); repeat split.
  - rewrite bool_decide_eq_false_2 by (intros [? ?]; discriminate).
    cbn [andb].
    destruct (0 <=? Z.of_nat selected_index) eqn:Hpos;
      [|apply Z.leb_gt in Hpos; lia].
    rewrite remove_scan_delete by lia.
    replace (Z.to_nat (Z.of_nat selected_index - 0)) with selected_index by lia.
    cbn [fst snd app Gui.set_queue Gui.current_download_info Gui.is_downloading
         Gui.download_queue].
    rewrite Hcur.
    destruct (Gui.download_queue a !! selected_index); repeat split.
Qed.

(** ** Tasks: what the key ignores, and what a created task looks like *)

Section TaskKeys.

Lemma lower_append a b : Py.lower (a +:+ b) = Py.lower a +:+ Py.lower b.
Proof. induction a as [|c a IH]; simpl; [reflexivity|]. rewrite IH. reflexivity. Qed.

Lemma rstrip_by_snoc p s c :
  p c = true ->
  Py.rstrip_by p (s +:+ String c EmptyString) = Py.rstrip_by p s.
Proof.
  intros Hp. induction s as [|d s IH]; simpl.
  - rewrite Hp. reflexivity.
  - rewrite IH. reflexivity.
Qed.

Lemma strip_padded text :
  Py.strip (Py.lower (" " +:+ text +:+ " "))
  = if Py.truthy text then Py.strip (Py.lower text) else EmptyString.
Proof.
  unfold Py.strip.
  change (" " +:+ text +:+ " ") with (String " " (text +:+ " ")).
  cbn [Py.lower]. rewrite lower_append.
  change (Py.lower " ") with " "%string.
  change (Py.lower_char " ") with " "%char.
  cbn [Py.rstrip_by]. rewrite rstrip_by_snoc by reflexivity.
  destruct (Py.rstrip_by Py.isspace (Py.lower text)) as [|c r] eqn:Hr.
  - change (Py.isspace " ") with true. cbn iota.
    destruct (Py.truthy text); reflexivity.
  - destruct text as [|d text]; [discriminate|]. cbn [Py.truthy].
    cbn [Py.lstrip_by]. change (Py.isspace " ") with true. cbn iota.
    reflexivity.
Qed.

Lemma rstrip_blank_words s :
  Py.rstrip_by Py.isspace s = EmptyString -> Py.split_ws s = [].
Proof.
  induction s as [|c s IH]; [reflexivity|]. cbn [Py.rstrip_by Py.split_ws].
  destruct (Py.rstrip_by Py.isspace s); [|discriminate].
  destruct (Py.isspace c); [|discriminate]. intros _. apply IH. reflexivity.
Qed.

Lemma strip_blank_words s :
  Py.strip s = EmptyString -> Py.split_ws s = [].
Proof.
  unfold Py.strip. induction s as [|c s IH]; [reflexivity|].
  cbn [Py.rstrip_by].
  destruct (Py.rstrip_by Py.isspace s) as [|d r] eqn:Hr.
  - destruct (Py.isspace c) eqn:Hc; [|cbn [Py.lstrip_by]; rewrite Hc; discriminate].
    intros _. cbn [Py.split_ws]. rewrite Hc. apply rstrip_blank_words, Hr.
  - cbn [Py.lstrip_by]. destruct (Py.isspace c) eqn:Hc; [|discriminate].
    intros H. cbn [Py.split_ws]. rewrite Hc. apply IH. exact H.
Qed.

End TaskKeys.

(** X19: the unique key of a task ignores its id and status, a
    trailing slash of the URL, a blank before and after the tag text,
    and the difference between no page limit and a page limit of 0. *)
Theorem X19_key_ignores (id1 id2 site text : string) (max_pages : option Z) :
  Gui.get_unique_key (Gui.set_status "downloading"
                        (url_task id1 site (text +:+ "/")))
  = Gui.get_unique_key (url_task id2 site text)
  /\ Gui.get_unique_key (tags_task id1 site (" " +:+ text +:+ " ") max_pages)
     = Gui.get_unique_key (tags_task id2 site text max_pages)
  /\ Gui.get_unique_key (tags_task id1 site text (Some 0))
     = Gui.get_unique_key (tags_task id2 site text None).
Proof.
  split; [|split].
  - unfold Gui.get_unique_key, url_task.
    cbn [Gui.task_type Gui.url Gui.site Gui.set_status].
    rewrite !bool_decide_eq_true_2 by reflexivity.
    unfold Py.rstrip_chars. rewrite lower_append.
    change (Py.lower "/") with "/"%string.
    rewrite rstrip_by_snoc by reflexivity. reflexivity.
  - unfold Gui.get_unique_key, tags_task, Gui.max_pages_text.
    cbn [Gui.task_type Gui.tags Gui.site Gui.max_pages].
    rewrite !bool_decide_eq_false_2 by discriminate.
    change (default EmptyString (Some (" " +:+ text +:+ " ")))
      with (" " +:+ text +:+ " ").
    rewrite strip_padded.
    change (Py.truthy_opt (Some (" " +:+ text +:+ " "))) with true.
    reflexivity.
  - unfold Gui.get_unique_key, tags_task, Gui.max_pages_text.
    cbn [Gui.task_type Gui.tags Gui.site Gui.max_pages].
    rewrite !bool_decide_eq_false_2 by discriminate. reflexivity.
Qed.


(** X20: a task [_create_download_task] returns is valid: the
    dependencies are there, a site is chosen, the status is pending and
    the task has a unique key; for luscious, multporn and yiffer it is
    a URL task whose URL is the one entered and starts with http:// or
    https://; for the other sites it is a tag task with the tags
    entered, and for e621, e6ai and e926 it has at most 40 tags. *)
Theorem X20_created_task_valid (py_int : string -> option Z)
    (has_async_deps : bool) (ui : Gui.inputs) (t : Gui.DownloadTask) :
  fst (Gui._create_download_task py_int has_async_deps ui) = Some t ->
  has_async_deps = true
  /\ Gui.site t = Gui.site_var ui
  /\ Gui.site t <> EmptyString
  /\ Gui.status t = "pending"
  /\ Gui.task_id t = Gui.uuid4 ui
  /\ is_Some (Gui.get_unique_key t)
  /\ (if bool_decide (Gui.site t ∈ ["luscious"; "multporn"; "yiffer"])
      then Gui.task_type t = "url"
           /\ Gui.url t = Some (Gui.url_var ui)
           /\ (Py.prefix "http://" (Gui.url_var ui)
               || Py.prefix "https://" (Gui.url_var ui))%bool = true
      else Gui.task_type t = "tags"
           /\ Gui.tags t = Some (Gui.tags_var ui)
           /\ (Gui.site t ∈ ["e621"; "e6ai"; "e926"] ->
               (length (Py.split_ws (Gui.tags_var ui)) <= 40)%nat)).
Proof.
  intros Hc.
  pose proof (created_task_keyed py_int has_async_deps ui t Hc) as Hkey.
  revert Hc. unfold Gui._create_download_task.
  destruct has_async_deps; [|discriminate]. cbn [negb].
  destruct (Py.truthy (Gui.site_var ui)) eqn:Hsite; [|discriminate].
  cbn [negb].
  assert (Hne : Gui.site_var ui <> EmptyString).
  { intros He. rewrite He in Hsite. discriminate. }
  destruct (bool_decide (Gui.site_var ui ∈ ["luscious"; "multporn"; "yiffer"]))
    eqn:Hkind.
  - destruct (Py.truthy (Py.strip (Gui.url_var ui))); [|discriminate].
    cbn [negb].
    destruct (Py.prefix "http://" (Gui.url_var ui)
              || Py.prefix "https://" (Gui.url_var ui))%bool eqn:Hpre;
      [|discriminate].
    cbn [negb].
    assert (Hgoal :
              Some {| Gui.task_id := Gui.uuid4 ui; Gui.site := Gui.site_var ui;
                      Gui.task_type := "url"; Gui.url := Some (Gui.url_var ui);
                      Gui.tags := None; Gui.max_pages := None;
                      Gui.status := "pending" |} = Some t ->
              true = true /\ Gui.site t = Gui.site_var ui
              /\ Gui.site t <> EmptyString /\ Gui.status t = "pending"
              /\ Gui.task_id t = Gui.uuid4 ui
              /\ is_Some (Gui.get_unique_key t)
              /\ (if bool_decide (Gui.site t ∈ ["luscious"; "multporn"; "yiffer"])
                  then Gui.task_type t = "url"
                       /\ Gui.url t = Some (Gui.url_var ui)
                       /\ true = true
                  else Gui.task_type t = "tags"
                       /\ Gui.tags t = Some (Gui.tags_var ui)
                       /\ (Gui.site t ∈ ["e621"; "e6ai"; "e926"] ->
                           (length (Py.split_ws (Gui.tags_var ui)) <= 40)%nat))).
    { intros [= <-].
      cbn [Gui.site Gui.status Gui.task_id Gui.task_type Gui.url].
      rewrite Hkind. repeat split; assumption. }
    destruct (Py.contains _ _); cbn [negb fst].
    + exact Hgoal.
    + destruct (Gui.askyesno ui); cbn [negb fst]; [exact Hgoal | discriminate].
  - destruct (negb (Py.truthy (Py.strip (Gui.tags_var ui)))
              && negb (Gui.askyesno ui))%bool; [discriminate|].
    destruct (if Py.truthy (Py.strip (Gui.max_pages_var ui)) then _ else _)
      as [max_pages_int|]; [|discriminate].
    destruct (bool_decide (Gui.site_var ui ∈ ["e621"; "e6ai"; "e926"])
              && Py.truthy (Py.strip (Gui.tags_var ui))
              && (40 <? length (Py.split_ws (Gui.tags_var ui)))%nat)%bool
      eqn:Hmany; [discriminate|].
    cbn [fst]. intros [= <-].
    cbn [Gui.site Gui.status Gui.task_id Gui.task_type Gui.tags].
    rewrite Hkind. repeat split; try assumption.
    intros Hfam. rewrite (bool_decide_eq_true_2 _ Hfam) in Hmany.
    cbn [andb] in Hmany.
    destruct (Py.truthy (Py.strip (Gui.tags_var ui))) eqn:Htags.
    + cbn [andb] in Hmany. apply Nat.ltb_ge in Hmany. exact Hmany.
    + rewrite strip_blank_words; [simpl; lia|].
      destruct (Py.strip (Gui.tags_var ui)); [reflexivity | discriminate].
Qed.

(** X20 for three pages of wolf from e621. *)
Lemma X20_created_task_valid_witness :
  let t := tags_task "1" "e621" "wolf" (Some 3) in
  true = true
  /\ Gui.site t = Gui.site_var wolf_inputs
  /\ Gui.site t <> EmptyString
  /\ Gui.status t = "pending"
  /\ Gui.task_id t = Gui.uuid4 wolf_inputs
  /\ is_Some (Gui.get_unique_key t)
  /\ (if bool_decide (Gui.site t ∈ ["luscious"; "multporn"; "yiffer"])
      then Gui.task_type t = "url"
           /\ Gui.url t = Some (Gui.url_var wolf_inputs)
           /\ (Py.prefix "http://" (Gui.url_var wolf_inputs)
               || Py.prefix "https://" (Gui.url_var wolf_inputs))%bool = true
      else Gui.task_type t = "tags"
           /\ Gui.tags t = Some (Gui.tags_var wolf_inputs)
           /\ (Gui.site t ∈ ["e621"; "e6ai"; "e926"] ->
               (length (Py.split_ws (Gui.tags_var wolf_inputs)) <= 40)%nat)).
Proof.
  apply (X20_created_task_valid digits_int true wolf_inputs
           (tags_task "1" "e621" "wolf" (Some 3))).
  reflexivity.
Defined.

(** ** The filters of the e621 family and of Furbooru *)

(** X21: the e621 family honours the blacklist: every file a tag
    search requests belongs to a post the site served none of whose
    collected tags is on the blacklist. *)
Theorem X21_e621_blacklist_honoured (E : env) (api : Z -> E621.api_result)
    (json_dump : gmap string (list string) -> string) (self : downloader)
    (fuel : nat) (tags site : string) (blacklist : list string)
    (max_pages : option Z) (ai_training : bool) (db_file : option string)
    (output_dir : string) (w : world) :
  exists t,
    trace (fst (E621.download_by_tags E api json_dump self fuel tags site
                  (Some blacklist) max_pages ai_training db_file output_dir w))
    = trace w ++ t
    /\ forall u, u ∈ gets t ->
         exists page item f,
           item ∈ e621_served api page
           /\ E621.post_file item = Some f /\ E621.file_url f = Some u
           /\ forall tag, tag ∈ e621_tags site item -> tag ∉ blacklist.
Proof. apply e621_blacklist_honoured. Qed.

(** X22: the e621 family honours the Seen-ID file: with dedup on,
    every file a tag search requests belongs to a served post whose id
    is not a line of db/<site>.db at the start of the job. *)
Theorem X22_e621_seen_honoured (E : env) (api : Z -> E621.api_result)
    (json_dump : gmap string (list string) -> string) (self : downloader)
    (fuel : nat) (tags site : string) (blacklist : option (list string))
    (max_pages : option Z) (ai_training : bool) (db_file : option string)
    (output_dir : string) (w : world) (lines : list string) :
  Py.truthy_opt db_file = true ->
  db w !! E621.db_path_of site = Some lines ->
  exists t,
    trace (fst (E621.download_by_tags E api json_dump self fuel tags site
                  blacklist max_pages ai_training db_file output_dir w))
    = trace w ++ t
    /\ forall u, u ∈ gets t ->
         exists page item f n,
           item ∈ e621_served api page
           /\ E621.post_file item = Some f /\ E621.file_url f = Some u
           /\ E621.post_id item = Some n
           /\ Py.str n ∉ lines.
Proof. apply e621_seen_honoured. Qed.

(** X22 on a page of three posts when post 10 is already recorded. *)
Lemma X22_e621_seen_honoured_witness :
  exists t,
    trace (fst (E621.download_by_tags (constant_env 200 "img") one_page no_dump
                  (E621.init true "T") 5 "wolf" "e621" None None false
                  (Some "db") "media" e621_seen_world))
    = trace e621_seen_world ++ t
    /\ forall u, u ∈ gets t ->
         exists page item f n,
           item ∈ e621_served one_page page
           /\ E621.post_file item = Some f /\ E621.file_url f = Some u
           /\ E621.post_id item = Some n
           /\ Py.str n ∉ ["10"].
Proof.
  apply (X22_e621_seen_honoured (constant_env 200 "img") one_page no_dump
           (E621.init true "T") 5 "wolf" "e621" None None false (Some "db")
           "media" e621_seen_world ["10"]).
  - reflexivity.
  - reflexivity.
Defined.



(** X24: Furbooru honours the blacklist: every file a tag search
    requests belongs to an image the site served none of whose tags is
    on the blacklist. *)
Theorem X24_furbooru_blacklist_honoured (E : env)
    (api : Z -> Furbooru.api_result) (self : downloader) (fuel : nat)
    (tags : string) (blacklist : list string) (max_pages : option Z)
    (db_file : option string) (output_dir : string) (w : world) :
  exists t,
    trace (fst (Furbooru.download_by_tags E api self fuel tags (Some blacklist)
                  max_pages db_file output_dir w)) = trace w ++ t
    /\ forall u, u ∈ gets t ->
         exists page item,
           item ∈ furbooru_served api page
           /\ Furbooru.img_full item = Some u
           /\ forall tag, tag ∈ default [] (Furbooru.img_tags item) ->
                          tag ∉ blacklist.
Proof. apply furbooru_blacklist_honoured. Qed.

(** X25: Furbooru honours the Seen-ID file: with dedup on, every file
    a tag search requests belongs to a served image whose id is not a
    line of db/furbooru.db at the start of the job. *)
Theorem X25_furbooru_seen_honoured (E : env) (api : Z -> Furbooru.api_result)
    (self : downloader) (fuel : nat) (tags : string)
    (blacklist : option (list string)) (max_pages : option Z)
    (db_file : option string) (output_dir : string) (w : world)
    (lines : list string) :
  Py.truthy_opt db_file = true ->
  db w !! Furbooru.db_path = Some lines ->
  exists t,
    trace (fst (Furbooru.download_by_tags E api self fuel tags blacklist
                  max_pages db_file output_dir w)) = trace w ++ t
    /\ forall u, u ∈ gets t ->
         exists page item n,
           item ∈ furbooru_served api page
           /\ Furbooru.img_full item = Some u
           /\ Furbooru.img_id item = Some n
           /\ Py.str n ∉ lines.
Proof. apply furbooru_seen_honoured. Qed.

(** X25 on a page of two images when image 7 is already recorded. *)
Lemma X25_furbooru_seen_honoured_witness :
  exists t,
    trace (fst (Furbooru.download_by_tags (constant_env 200 "img") furbooru_site
                  (Furbooru.init true "T") 5 "wolf" None None (Some "db")
                  "media" furbooru_seen_world))
    = trace furbooru_seen_world ++ t
    /\ forall u, u ∈ gets t ->
         exists page item n,
           item ∈ furbooru_served furbooru_site page
           /\ Furbooru.img_full item = Some u
           /\ Furbooru.img_id item = Some n
           /\ Py.str n ∉ ["7"].
Proof.
  apply (X25_furbooru_seen_honoured (constant_env 200 "img") furbooru_site
           (Furbooru.init true "T") 5 "wolf" None None (Some "db") "media"
           furbooru_seen_world ["7"]).
  - reflexivity.
  - reflexivity.
Defined.

(** ** Files that exist are not downloaded again *)

Section KeepsFiles.
Variable w0 : world.







End KeepsFiles.



Section KeepsFilesRuns.
Variable w0 : world.








End KeepsFilesRuns.



(** ** URLs that are rejected before anything is requested *)

Section Rejected.

Lemma notify_quiet self m w :
  exists w1, BaseAsyncDownloader.notify self m w = (w1, Val tt)
    /\ same_storage w w1
    /\ exists t, trace w1 = trace w ++ t /\ Forall is_message t.
Proof.
  unfold BaseAsyncDownloader.notify, when, emit, ret.
  destruct (progress_callback self); eexists; (split; [reflexivity|]);
    (split; [repeat split|]).
  - exists [EvNotify m]. split; [reflexivity|]. repeat constructor.
  - exists []. split; [symmetry; apply app_nil_r | constructor].
Qed.

(** A [try] block that only reports progress and then returns [False]. *)
Lemma rejected_run self m (rest : M bool) (h : exn -> M bool) w :
  (forall w1, rest w1 = (w1, Val false)) ->
  let res := try_except (BaseAsyncDownloader.notify self m ;;; rest) h w in
  snd res = Val false
  /\ same_storage w (fst res)
  /\ exists t, trace (fst res) = trace w ++ t /\ Forall is_message t.
Proof.
  intros Hrest res. subst res. unfold try_except, bind.
  destruct (notify_quiet self m w) as (w1 & -> & Hs & Ht).
  rewrite Hrest. simpl. auto.
Qed.

Lemma split_nonempty sep s : Py.split sep s <> [].
Proof.
  destruct s as [|c s]; simpl; [discriminate|].
  destruct (decide (c = sep)); [discriminate|].
  destruct (Py.split sep s); discriminate.
Qed.

End Rejected.

(** X27: a Luscious, Yiffer or Multporn job whose URL has too few
    parts, or names a kind of page the downloader does not know,
    returns [False] at once: nothing is requested from the network, no
    file, directory or Seen-ID file changes, and only progress messages
    are sent. *)
Theorem X27_rejected_url_no_effect (j : job) (w : world) :
  rejected_url j ->
  snd (run_job j w) = Val false
  /\ same_storage w (fst (run_job j w))
  /\ exists t, trace (fst (run_job j w)) = trace w ++ t /\ Forall is_message t.
Proof.
  destruct j; cbn [rejected_url run_job]; try tauto.
  - intros Hbad. unfold Luscious.download_album, Luscious.download_album_try.
    apply rejected_run. intros w1.
    destruct (length (Py.split "/" url) <? 6)%nat eqn:Hlen; [reflexivity|].
    apply Nat.ltb_ge in Hlen.
    destruct Hbad as [Hshort|Hkind]; [lia|].
    destruct (Py.split "/" url !! 3%nat) as [part3|] eqn:H3.
    2:{ apply lookup_ge_None in H3. lia. }
    change (default EmptyString (Some part3)) with part3.
    rewrite bool_decide_eq_false_2.
    2:{ intros ->. apply Hkind. left. }
    rewrite bool_decide_eq_false_2; [reflexivity|].
    intros Hin. apply Hkind.
    apply elem_of_cons in Hin as [->|Hin]; [right; left|].
    apply list_elem_of_singleton in Hin. subst part3. right. right. left.
  - intros Hbad. unfold Yiffer.download_comic, Yiffer.download_comic_try.
    apply rejected_run. intros w1.
    rewrite (proj2 (lookup_ge_None _ 3%nat)) by lia. reflexivity.
  - intros Hbad. unfold Multporn.download_comic, Multporn.download_comic_try.
    apply rejected_run. intros w1.
    destruct (Py.split "/" url !! 3%nat) as [type_category|] eqn:H3;
      [|reflexivity].
    destruct (Py.split "/" url !! 4%nat) as [title|] eqn:H4; [|reflexivity].
    destruct Hbad as [Hshort|(c & Hc & Hkind)].
    { apply lookup_lt_Some in H4. lia. }
    injection Hc as <-.
    assert (Hnone : Multporn.field_type_of type_category = None).
    { assert (Hin : ~ In type_category
                        ["comics"; "hentai_manga"; "gay_porn_comics"; "gif";
                         "humor"; "pictures"; "hentai"; "rule_63"; "games"]).
      { intros H. apply Hkind, list_elem_of_In, H. }
      simpl in Hin. unfold Multporn.field_type_of.
      rewrite bool_decide_eq_false_2.
      2:{ intros H. apply list_elem_of_In in H. simpl in H. tauto. }
      rewrite bool_decide_eq_false_2.
      2:{ intros H. apply list_elem_of_In in H. simpl in H. tauto. }
      rewrite bool_decide_eq_false_2 by (intros ->; tauto).
      rewrite bool_decide_eq_false_2 by (intros ->; tauto).
      reflexivity. }
    rewrite Hnone. reflexivity.
Qed.

(** X27 on the URL of a Multporn video page. *)
Lemma X27_rejected_url_no_effect_witness :
  snd (run_job multporn_video_job empty_world) = Val false
  /\ same_storage empty_world (fst (run_job multporn_video_job empty_world))
  /\ exists t, trace (fst (run_job multporn_video_job empty_world))
               = trace empty_world ++ t
               /\ Forall is_message t.
Proof.
  apply (X27_rejected_url_no_effect multporn_video_job empty_world).
  right. exists "video". split; [reflexivity|].
  apply (bool_decide_unpack _). vm_compute. exact I.
Defined.

(** ** A tag search ends at the first page that ends its loop *)

Section SearchEnds.

Lemma e621_loop_ends E api json_dump self tags site blacklist max_pages ai db out
    ids n :
  e621_last (api n) ->
  forall fuel page,
    page <= n -> (Z.to_nat (n - page) < fuel)%nat ->
    fetches_within (Z.to_nat (n - page + 1))
      (E621.page_loop E api json_dump self fuel tags site blacklist max_pages
                      ai db out ids page).
Proof.
  intros Hlast. induction fuel as [|fuel IH]; intros page Hp Hf; [lia|].
  cbn [E621.page_loop].
  apply (fetches_bind _ _ _ 0 (Z.to_nat (n - page + 1)));
    [lia | apply fetches_notify | intros _].
  apply (fetches_bind _ _ _ 1 (Z.to_nat (n - page)));
    [lia | apply fetches_emit_page | intros _].
  destruct (api page) as [|code json] eqn:Hapi; [apply fetches_ret|].
  destruct (negb (code =? 200)) eqn:Hcode; [apply fetches_ret|].
  destruct json as [data|]; [|apply fetches_ret].
  destruct (E621.is_api_limit data) eqn:Hlim; [apply fetches_ret|].
  destruct data as [message posts|];
    [|intros w; cbn; split; [lia | discriminate]].
  cbn [E621.get_posts]. unfold bind at 1, ret at 1.
  destruct (bool_decide (default [] posts = [])) eqn:Hposts;
    [apply fetches_notify|].
  destruct (_ && _)%bool; [apply fetches_notify|].
  assert (Hne : page <> n).
  { intros ->. unfold e621_last in Hlast. rewrite Hapi in Hlast.
    apply negb_false_iff, Z.eqb_eq in Hcode.
    apply bool_decide_eq_false in Hposts.
    destruct Hlast as [H|[H|H]]; [contradiction | congruence | contradiction]. }
  apply (fetches_bind _ _ _ 0 (Z.to_nat (n - page)));
    [lia | apply calm_fetches, e621_approve_calm; auto | intros approved].
  apply (fetches_bind _ _ _ 0 (Z.to_nat (n - page))); [lia | |].
  { apply calm_fetches, calm_when, e621_download_page_calm; auto.
    apply forall_not_page_get. }
  intros _.
  apply (fetches_bind _ _ _ 0 (Z.to_nat (n - page)));
    [lia | apply fetches_notify | intros _].
  replace (Z.to_nat (n - page)) with (Z.to_nat (n - (page + 1) + 1)) by lia.
  apply IH; lia.
Qed.

Lemma furbooru_loop_ends E api self tags blacklist max_pages db out ids n :
  furbooru_last (api n) ->
  forall fuel page,
    page <= n -> (Z.to_nat (n - page) < fuel)%nat ->
    fetches_within (Z.to_nat (n - page + 1))
      (Furbooru.page_loop E api self fuel tags blacklist max_pages db out ids page).
Proof.
  intros Hlast. induction fuel as [|fuel IH]; intros page Hp Hf; [lia|].
  cbn [Furbooru.page_loop].
  apply (fetches_bind _ _ _ 0 (Z.to_nat (n - page + 1)));
    [lia | apply fetches_notify | intros _].
  apply (fetches_bind _ _ _ 1 (Z.to_nat (n - page)));
    [lia | apply fetches_emit_page | intros _].
  destruct (api page) as [|code json] eqn:Hapi; [apply fetches_ret|].
  destruct (negb (code =? 200)) eqn:Hcode; [apply fetches_ret|].
  destruct json as [data|]; [|apply fetches_ret].
  destruct data as [total images|];
    [|intros w; cbn; split; [lia | discriminate]].
  cbn [Furbooru.get_total]. unfold bind at 1, ret at 1.
  destruct (default 0 total =? 0) eqn:Htotal; [apply fetches_notify|].
  destruct (_ && _)%bool; [apply fetches_notify|].
  assert (Hne : page <> n).
  { intros ->. unfold furbooru_last in Hlast. rewrite Hapi in Hlast.
    apply negb_false_iff, Z.eqb_eq in Hcode. apply Z.eqb_neq in Htotal.
    destruct Hlast as [H|H]; contradiction. }
  apply (fetches_bind _ _ _ 0 (Z.to_nat (n - page)));
    [lia | apply calm_fetches, furbooru_approve_calm; auto | intros approved].
  apply (fetches_bind _ _ _ 0 (Z.to_nat (n - page))); [lia | |].
  { apply calm_fetches, calm_when, furbooru_download_page_calm; auto.
    apply forall_not_page_get. }
  intros _.
  apply (fetches_bind _ _ _ 0 (Z.to_nat (n - page)));
    [lia | apply fetches_notify | intros _].
  replace (Z.to_nat (n - page)) with (Z.to_nat (n - (page + 1) + 1)) by lia.
  apply IH; lia.
Qed.

Lemma fetches_bind_at {A B} (m : M A) (k : A -> M B) n a b x :
  (a + b <= n)%nat ->
  fetches_within a m -> (forall w, snd (m w) = Val x) ->
  fetches_within b (k x) ->
  fetches_within n (bind m k).
Proof.
  intros Hn Hm Hx Hk w. unfold bind. destruct (Hm w) as [Hf _].
  specialize (Hx w). destruct (m w) as [w1 o]. simpl in *. subst o.
  destruct (Hk w1). split; [lia | assumption].
Qed.

Lemma rule34_fetch_json_val api self page w :
  snd (Rule34.fetch_json api self page w) = Val (api page).
Proof.
  unfold Rule34.fetch_json, bind, BaseAsyncDownloader._get_proxy.
  destruct (_ || _)%bool; reflexivity.
Qed.

Lemma rule34_loop_ends E api self max_pages dir n :
  rule34_last (api n) ->
  forall fuel page count,
    page <= n -> (Z.to_nat (n - page) < fuel)%nat ->
    fetches_within (Z.to_nat (n - page + 1))
      (Rule34.page_loop E api self fuel max_pages dir count page).
Proof.
  intros Hlast. induction fuel as [|fuel IH]; intros page count Hp Hf; [lia|].
  cbn [Rule34.page_loop].
  destruct (_ && _)%bool; [apply fetches_ret|].
  apply (fetches_bind _ _ _ 0 (Z.to_nat (n - page + 1)));
    [lia | apply fetches_notify | intros _].
  apply (fetches_bind_at _ _ _ 1 (Z.to_nat (n - page)) (api page)); [lia | | |].
  { unfold Rule34.fetch_json.
    apply (fetches_bind _ _ _ 0 1%nat);
      [lia | apply calm_fetches, calm_get_proxy | intros _].
    apply (fetches_bind _ _ _ 1 0%nat);
      [lia | apply fetches_emit_page | intros _].
    apply fetches_ret. }
  { apply rule34_fetch_json_val. }
  destruct (api page) as [[items|truth]|] eqn:Hapi; [| |apply fetches_ret].
  - destruct items as [|it items]; [apply fetches_ret|].
    apply (fetches_bind _ _ _ 0 (Z.to_nat (n - page)));
      [lia | apply fetches_notify | intros _].
    apply (fetches_bind _ _ _ 0 (Z.to_nat (n - page))); [lia | |].
    { apply calm_fetches, rule34_download_each_calm; auto.
      apply Forall_forall. intros; reflexivity. }
    intros c. destruct (_ <? _)%nat eqn:Hshort; [apply fetches_ret|].
    assert (Hne : page <> n).
    { intros ->. unfold rule34_last in Hlast. rewrite Hapi in Hlast.
      apply Nat.ltb_ge in Hshort. lia. }
    replace (Z.to_nat (n - page)) with (Z.to_nat (n - (page + 1) + 1)) by lia.
    apply IH; lia.
  - destruct truth; [|apply fetches_ret].
    apply (fetches_bind _ _ _ 0 (Z.to_nat (n - page)));
      [lia | apply fetches_notify | intros _].
    apply fetches_ret.
Qed.

Lemma run_ends_fetches j n :
  ends_at j n -> 1 <= n -> (Z.to_nat n <= job_fuel j)%nat ->
  fetches_within (Z.to_nat n) (run_job j).
Proof.
  destruct j; cbn [ends_at job_fuel run_job]; try tauto; intros Hlast Hn Hf.
  - unfold E621.download_by_tags, E621.download_by_tags_try.
    apply fetches_within_try; [|intros e; apply calm_fetches; calm_auto].
    apply (fetches_bind _ _ _ 0 (Z.to_nat n));
      [lia | apply fetches_notify | intros _].
    apply (fetches_bind _ _ _ 0 (Z.to_nat n));
      [lia | apply fetches_load_ids | intros ids].
    apply (fetches_bind _ _ _ (Z.to_nat n) 0); [lia | | intros _].
    + eapply fetches_within_mono;
        [|apply (e621_loop_ends E api json_dump self tags site
                   (default [] blacklist) max_pages ai_training db_file
                   output_dir ids n Hlast fuel 1); lia].
      lia.
    + apply (fetches_bind _ _ _ 0 0%nat); [lia | apply fetches_notify | intros _].
      apply fetches_ret.
  - unfold Furbooru.download_by_tags, Furbooru.download_by_tags_try.
    apply fetches_within_try; [|intros e; apply calm_fetches; calm_auto].
    apply (fetches_bind _ _ _ 0 (Z.to_nat n));
      [lia | apply fetches_notify | intros _].
    apply (fetches_bind _ _ _ 0 (Z.to_nat n));
      [lia | apply fetches_load_ids | intros ids].
    apply (fetches_bind _ _ _ (Z.to_nat n) 0); [lia | | intros _].
    + eapply fetches_within_mono;
        [|apply (furbooru_loop_ends E api self tags (default [] blacklist)
                   max_pages db_file output_dir ids n Hlast fuel 1); lia].
      lia.
    + apply (fetches_bind _ _ _ 0 0%nat); [lia | apply fetches_notify | intros _].
      apply fetches_ret.
  - unfold Rule34.download_by_tags, Rule34.download_by_tags_try.
    apply fetches_within_try; [|intros e; apply calm_fetches; calm_auto].
    apply (fetches_bind _ _ _ 0 (Z.to_nat n));
      [lia | apply fetches_notify | intros _].
    apply (fetches_bind _ _ _ 0 (Z.to_nat n));
      [lia | apply calm_fetches, calm_mkdir | intros _].
    apply (fetches_bind _ _ _ (Z.to_nat n) 0); [lia | | intros c].
    + eapply fetches_within_mono;
        [|apply (rule34_loop_ends E api self max_pages _ n Hlast fuel 1 0%nat);
          lia].
      lia.
    + apply (fetches_bind _ _ _ 0 0%nat); [lia | apply fetches_notify | intros _].
      apply fetches_ret.
Qed.

End SearchEnds.

(** X28: a tag search of the e621 family, Furbooru or rule34 ends at
    the first page whose answer ends its loop, whatever the page limit
    is.  The answers that end the loop are, for the e621 family: a
    failed request, a status other than 200, a body that does not
    decode to an object, the page-750 message, or an empty or missing
    list of posts; for Furbooru: a failed request, a status other than
    200, a body that does not decode to an object, or a total of 0 (an
    empty list of images under a total other than 0 does not end it);
    for rule34: a failed request, a body that is no list, or a list of
    fewer than 1000 posts.  If page [n] has such an answer and the loop
    is granted [n] iterations, the run ends within them (it does not
    run out of iterations) and requests at most [n] pages. *)
Theorem X28_search_ends (j : job) (n : Z) (w : world) :
  ends_at j n -> 1 <= n -> (Z.to_nat n <= job_fuel j)%nat ->
  snd (run_job j w) <> Timeout
  /\ (page_fetches (trace (fst (run_job j w)))
      <= page_fetches (trace w) + Z.to_nat n)%nat.
Proof.
  intros Hlast Hn Hf.
  destruct (run_ends_fetches j n Hlast Hn Hf w) as [Hfetch Hto].
  split; [exact Hto | exact Hfetch].
Qed.

(** X28 on the e621 site with posts on two pages and none on the
    third, searched without a page limit. *)
Lemma X28_search_ends_witness :
  snd (run_job (two_pages_job None) empty_world) <> Timeout
  /\ (page_fetches (trace (fst (run_job (two_pages_job None) empty_world)))
      <= page_fetches (trace empty_world) + Z.to_nat 3)%nat.
Proof.
  apply (X28_search_ends (two_pages_job None) 3 empty_world).
  - right. right. reflexivity.
  - lia.
  - vm_compute. lia.
Defined.

(** A Furbooru site that reports a total of 5 and lists no image on
    any page: no page ends the loop, and a search without a page limit
    uses up every iteration it is granted. *)
Example furbooru_empty_pages_never_end :
  snd (run_job (JobFurbooru (constant_env 200 "img") empty_listing
                  (Furbooru.init true "01-01-2024_00-00-00") 25 "wolf" None None None
                  "media") empty_world) = Timeout.
Proof. vm_compute. reflexivity. Qed.

(** ** The proxy manager *)

Section Proxies.
Variable E : env.

Lemma split_ws_spaceless s :
  forall word, word ∈ Py.split_ws s ->
    forall c, Py.InStr c word -> Py.isspace c = false.
Proof.
  induction s as [|c s IH]; intros word Hin; [inversion Hin|].
  cbn [Py.split_ws] in Hin.
  destruct (Py.isspace c) eqn:Hc; [exact (IH word Hin)|].
  destruct s as [|d s'].
  { apply list_elem_of_singleton in Hin. subst word.
    intros x [->|[]]. exact Hc. }
  destruct (Py.isspace d) eqn:Hd.
  { apply elem_of_cons in Hin as [->|Hin]; [|exact (IH word Hin)].
    intros x [->|[]]. exact Hc. }
  destruct (Py.split_ws (String d s')) as [|h t] eqn:Hs.
  { apply list_elem_of_singleton in Hin. subst word.
    intros x [->|[]]. exact Hc. }
  apply elem_of_cons in Hin as [->|Hin].
  - intros x [->|Hx]; [exact Hc|]. apply (IH h); [left | exact Hx].
  - apply IH. right. exact Hin.
Qed.

Lemma strip_word s word : word ∈ Py.split_ws s -> Py.strip word = word.
Proof.
  intros Hin. unfold Py.strip.
  rewrite rstrip_by_id by (apply (split_ws_spaceless s word Hin)).
  apply lstrip_by_id, (split_ws_spaceless s word Hin).
Qed.

Lemma add_proxies_spec split_proxies :
  forall proxy_list,
    NoDup proxy_list ->
    NoDup (ProxyManager.add_proxies split_proxies proxy_list)
    /\ forall p, p ∈ ProxyManager.add_proxies split_proxies proxy_list
                 <-> p ∈ proxy_list \/ p ∈ Py.strip <$> split_proxies.
Proof.
  induction split_proxies as [|proxy rest IH]; intros proxy_list Hnd;
    cbn [ProxyManager.add_proxies].
  - split; [exact Hnd|]. intros p. rewrite fmap_nil, elem_of_nil. tauto.
  - destruct (decide (Py.strip proxy ∈ proxy_list)) as [Hin|Hnin].
    + rewrite bool_decide_eq_true_2 by exact Hin.
      destruct (IH proxy_list Hnd) as [Hn Hmem]. split; [exact Hn|].
      intros p. rewrite Hmem, fmap_cons, elem_of_cons.
      split; [tauto|]. intros [H|[->|H]]; tauto.
    + rewrite bool_decide_eq_false_2 by exact Hnin.
      assert (Hnd' : NoDup (proxy_list ++ [Py.strip proxy])).
      { apply NoDup_app. split; [exact Hnd|]. split; [|apply NoDup_singleton].
        intros x Hx Hx'. apply list_elem_of_singleton in Hx'. subst x.
        exact (Hnin Hx). }
      destruct (IH _ Hnd') as [Hn Hmem]. split; [exact Hn|].
      intros p. rewrite Hmem, fmap_cons, elem_of_app, !elem_of_cons, elem_of_nil.
      tauto.
Qed.

Lemma scrape_sources_spec sources :
  forall proxy_list,
    NoDup proxy_list ->
    NoDup (ProxyManager.scrape_sources E sources proxy_list)
    /\ forall p, p ∈ ProxyManager.scrape_sources E sources proxy_list ->
         p ∈ proxy_list
         \/ exists source r text,
              source ∈ sources
              /\ http_get E None source = Some r /\ status r = 200
              /\ ProxyManager.response_text r = Some text
              /\ p ∈ Py.split_ws text.
Proof.
  induction sources as [|source rest IH]; intros proxy_list Hnd;
    cbn [ProxyManager.scrape_sources].
  - split; [exact Hnd|]. auto.
  - assert (Hskip :
      NoDup (ProxyManager.scrape_sources E rest proxy_list)
      /\ forall p, p ∈ ProxyManager.scrape_sources E rest proxy_list ->
           p ∈ proxy_list
           \/ exists source0 r text,
                source0 ∈ source :: rest
                /\ http_get E None source0 = Some r /\ status r = 200
                /\ ProxyManager.response_text r = Some text
                /\ p ∈ Py.split_ws text).
    { destruct (IH proxy_list Hnd) as [Hn Hmem]. split; [exact Hn|].
      intros p Hp. destruct (Hmem p Hp) as [H|(s0 & r & text & Hs & H)];
        [left; exact H|].
      right. exists s0, r, text. split; [right; exact Hs | exact H]. }
    destruct (http_get E None source) as [r|] eqn:Hget; [|exact Hskip].
    destruct (status r =? 200) eqn:Hst; [|exact Hskip].
    destruct (ProxyManager.response_text r) as [text|] eqn:Htext; [|exact Hskip].
    apply Z.eqb_eq in Hst.
    destruct (add_proxies_spec (Py.split_ws text) proxy_list Hnd) as [Hn Hadd].
    destruct (IH _ Hn) as [Hn' Hmem]. split; [exact Hn'|].
    intros p Hp. destruct (Hmem p Hp) as [H|(s0 & r0 & text0 & Hs & H)].
    + apply Hadd in H as [H|H]; [left; exact H|].
      right. exists source, r, text. split; [left|].
      repeat (split; [assumption|]).
      apply list_elem_of_fmap in H as (word & -> & Hword).
      rewrite (strip_word text word Hword). exact Hword.
    + right. exists s0, r0, text0. split; [right; exact Hs | exact H].
Qed.

Lemma test_each_filter test_proxies :
  forall working,
    ProxyManager.test_each E test_proxies working
    = working
      ++ List.filter
           (fun p => ProxyManager.test_proxy E p ProxyManager.default_test_url)
           test_proxies.
Proof.
  induction test_proxies as [|p rest IH]; intros working;
    cbn [ProxyManager.test_each List.filter].
  - rewrite app_nil_r. reflexivity.
  - rewrite IH. destruct (ProxyManager.test_proxy E p _).
    + rewrite <- app_assoc. reflexivity.
    + reflexivity.
Qed.

Lemma filter_sublist {A} (f : A -> bool) l : List.filter f l `sublist_of` l.
Proof.
  induction l as [|x l IH]; simpl; [constructor|].
  destruct (f x); [apply sublist_skip | apply sublist_cons]; exact IH.
Qed.

End Proxies.

(** X29: started with no proxies, [get_working_proxies] scrapes the
    sources and returns at most [max_test] proxies without a duplicate;
    every one of them passed [test_proxy] and is a word of the text of
    a source that answered 200. *)
Theorem X29_working_proxies (E : env) (max_test : Z) :
  0 <= max_test ->
  let res := ProxyManager.get_working_proxies E max_test [] in
  snd res = ProxyManager.scrape_proxies E
  /\ NoDup (fst res)
  /\ (length (fst res) <= Z.to_nat max_test)%nat
  /\ forall p, p ∈ fst res ->
       ProxyManager.test_proxy E p ProxyManager.default_test_url = true
       /\ exists source r text,
            source ∈ ProxyManager.proxy_source_list
            /\ http_get E None source = Some r /\ status r = 200
            /\ ProxyManager.response_text r = Some text
            /\ p ∈ Py.split_ws text.
Proof.
  intros Hmax res. subst res. unfold ProxyManager.get_working_proxies.
  rewrite bool_decide_eq_true_2 by reflexivity. cbn [fst snd].
  split; [reflexivity|].
  rewrite test_each_filter. cbn [app].
  unfold Py.list_slice_to.
  destruct (max_test <? 0) eqn:Hneg; [apply Z.ltb_lt in Hneg; lia|].
  destruct (scrape_sources_spec E ProxyManager.proxy_source_list []
              NoDup_nil_2) as [Hnd Hmem].
  fold (ProxyManager.scrape_proxies E) in Hnd, Hmem.
  set (tested := firstn (Z.to_nat max_test) (ProxyManager.scrape_proxies E)).
  assert (Hsub : List.filter
                   (fun p => ProxyManager.test_proxy E p
                               ProxyManager.default_test_url) tested
                 `sublist_of` ProxyManager.scrape_proxies E).
  { etransitivity; [apply filter_sublist | apply sublist_take]. }
  split; [eapply sublist_NoDup; eassumption|]. split.
  - etransitivity; [apply sublist_length, filter_sublist|].
    unfold tested. apply firstn_le_length.
  - intros p Hp. split.
    + apply list_elem_of_In, filter_In in Hp as [_ Hp]. exact Hp.
    + destruct (Hmem p (elem_of_sublist _ _ _ Hp Hsub)) as [H|H];
        [inversion H | exact H].
Qed.

(** X29 on a source that lists one proxy twice and another once, when
    only the first proxy works. *)
Lemma X29_working_proxies_witness :
  let res := ProxyManager.get_working_proxies proxy_env 10 [] in
  snd res = ProxyManager.scrape_proxies proxy_env
  /\ NoDup (fst res)
  /\ (length (fst res) <= Z.to_nat 10)%nat
  /\ forall p, p ∈ fst res ->
       ProxyManager.test_proxy proxy_env p ProxyManager.default_test_url = true
       /\ exists source r text,
            source ∈ ProxyManager.proxy_source_list
            /\ http_get proxy_env None source = Some r /\ status r = 200
            /\ ProxyManager.response_text r = Some text
            /\ p ∈ Py.split_ws text.
Proof.
  apply (X29_working_proxies proxy_env 10). lia.
Defined.

Example working_proxies_example :
  ProxyManager.get_working_proxies proxy_env 10 []
  = (["1.1.1.1:80"], ["1.1.1.1:80"; "2.2.2.2:80"]).
Proof. vm_compute. reflexivity. Qed.
(** ** The config manager *)

(** X30: when the config file can be opened and written,
    [load_config] behaves as follows.  With no file it returns the
    default config and the file then holds the serialized defaults.
    With a file whose bytes are not valid text, reading raises
    [UnicodeDecodeError], which the handler does not catch: the call
    raises and the file is left as it is.  With a file of valid text,
    the decoded content is returned and nothing changes when
    [json.loads] succeeds; when it raises [JSONDecodeError] (or an
    [OSError]) the default config is returned and its serialization
    replaces the content of the file; any other exception of
    [json.loads] leaves the function and changes nothing.  Whenever the
    defaults are written, directories and Seen-ID files are
    untouched. *)
Theorem X30_load_config (E : env) (dumps : ConfigManager.json -> string)
    (loads : string -> ConfigManager.json + exn)
    (valid_text : string -> bool) (config_path : string) (w : world) :
  io_ok E config_path = true ->
  let res :=
    ConfigManager.load_config E dumps loads valid_text config_path w in
  let defaults_written :=
    snd res = Val ConfigManager.default_config
    /\ files (fst res)
       = <[config_path := dumps ConfigManager.default_config]> (files w)
    /\ dirs (fst res) = dirs w
    /\ db (fst res) = db w in
  match files w !! config_path with
  | None => defaults_written
  | Some content =>
      if valid_text content then
        match loads content with
        | inl config => res = (w, Val config)
        | inr e =>
            if ConfigManager.caught e then defaults_written
            else res = (w, Raise e)
        end
      else res = (w, Raise (UnicodeDecodeError config_path))
  end.
Proof.
  intros Hio res defaults_written. subst res defaults_written.
  unfold ConfigManager.load_config, ConfigManager.create_default_config,
    ConfigManager.try_except_caught, ConfigManager.decode,
    ConfigManager.read_file, bind, exists_file, write_file, ret, raise.
  destruct (files w !! config_path) as [content|] eqn:Hfile.
  - rewrite bool_decide_eq_true_2 by eauto. cbn [negb].
    rewrite Hfile, Hio.
    destruct (valid_text content); [|reflexivity].
    destruct (loads content) as [config|e]; [reflexivity|].
    destruct (ConfigManager.caught e); [|reflexivity].
    rewrite ?Hio. repeat split.
  - rewrite bool_decide_eq_false_2 by (intros [? ?]; discriminate).
    cbn [negb]. rewrite Hio. repeat split.
Qed.

(** X30 on a config file that is text but not JSON. *)
Lemma X30_load_config_witness :
  let res := ConfigManager.load_config (constant_env 200 "img") toy_dumps
               toy_loads toy_valid_text "config.json"
               corrupt_config_world in
  snd res = Val ConfigManager.default_config
  /\ files (fst res)
     = <["config.json" := toy_dumps ConfigManager.default_config]>
         (files corrupt_config_world)
  /\ dirs (fst res) = dirs corrupt_config_world
  /\ db (fst res) = db corrupt_config_world.
Proof.
  apply (X30_load_config (constant_env 200 "img") toy_dumps toy_loads
           toy_valid_text "config.json" corrupt_config_world).
  reflexivity.
Defined.

(** A config file with a byte that is not text: the call raises and
    the file keeps its content. *)
Example load_config_binary_file :
  ConfigManager.load_config (constant_env 200 "img") toy_dumps toy_loads
    toy_valid_text "config.json" binary_config_world
  = (binary_config_world, Raise (UnicodeDecodeError "config.json")).
Proof. reflexivity. Qed.
